(** * firecollector: the AI completion dispatcher and the PDF metadata pipeline

    A shallow embedding of the service layer of the research-paper manager:
    [AIService] (model configurations and completion dispatch),
    [PDFProcessingService] (text extraction, markdown structuring, the two
    completion calls and their merge), the batch upload loop of the PDF upload
    view, the API key of [FirecrawlService] with its guard, the submit handler
    of the chat, and the model check page.

    Conventions.
    - A JavaScript string is a [string]; one [ascii] stands for one code unit,
      so the texts are those of code units up to 255. The helpers below
      ([trim], [toLowerCase], ...) are the JavaScript built-ins of the same
      name on these texts; [normalize], whose results leave this range, is a
      parameter of the functions that call it.
    - A thrown [Error] is its message.
    - The collaborators the services await (the persistence layer, the AI
      provider endpoint, the PDF text extractor, the clock) are part of an
      explicit [World]; what they will answer is scripted there, so that every
      function below is executable. *)

From stdpp Require Import gmap strings list fin_maps sorting.
From Stdlib Require Import Ascii ZArith DecimalString.

Local Open Scope Z_scope.

(** ** JavaScript strings *)

Module JS.

Definition nl : string := String "010"%char "".
(** The double quote, for the prompt templates that show a JSON skeleton. *)
Definition dq : string := String "034"%char "".

(** [lines.join(sep)] *)
Fixpoint join (sep : string) (l : list string) : string :=
  match l with
  | [] => ""
  | [x] => x
  | x :: rest => x +:+ sep +:+ join sep rest
  end.

(** [s.split('\n')]: always at least one piece. *)
Fixpoint split_go (cur : string) (s : string) : list string :=
  match s with
  | "" => [String.rev cur]
  | String c rest =>
      if Ascii.eqb c "010"%char
      then String.rev cur :: split_go "" rest
      else split_go (String c cur) rest
  end.
Definition split_lines (s : string) : list string := split_go "" s.

(** The white space of [trim] among the code units up to 255: TAB, LF, VT,
    FF, CR, SPACE and the no-break space U+00A0. *)
Definition is_white (c : ascii) : bool :=
  Ascii.is_space c || (Ascii.N_of_ascii c =? 160)%N.

(** [s.trimStart()], [s.trim()] *)
Fixpoint trimStart (s : string) : string :=
  match s with
  | String c rest => if is_white c then trimStart rest else s
  | "" => ""
  end.
Definition trim (s : string) : string :=
  String.rev (trimStart (String.rev (trimStart s))).

(** The lower case of a code unit up to 255: the letters A-Z, and the
    capital letters U+00C0-U+00DE but the sign U+00D7. *)
Definition lower (c : ascii) : ascii :=
  let n := Ascii.N_of_ascii c in
  if (((65 <=? n) && (n <=? 90))
      || ((192 <=? n) && (n <=? 222) && negb (n =? 215)))%N
  then Ascii.ascii_of_N (n + 32) else c.
Fixpoint toLowerCase (s : string) : string :=
  match s with
  | "" => ""
  | String c rest => String (lower c) (toLowerCase rest)
  end.

(** [hay.includes(needle)] *)
Fixpoint includes (needle hay : string) : bool :=
  String.prefix needle hay ||
  match hay with
  | "" => false
  | String _ rest => includes needle rest
  end.

(** [s.slice(0, n)] for a count [n] that is not negative. *)
Definition slice0 (n : Z) (s : string) : string := String.substring 0 (Z.to_nat n) s.

(** Truthiness of a string: every string but the empty one. *)
Definition truthy (s : string) : bool :=
  match s with "" => false | _ => true end.

(** [a || b] on strings. *)
Definition or_else (a b : string) : string := if truthy a then a else b.

(** [String(n)] for an integral number. *)
Definition of_Z (z : Z) : string := NilZero.string_of_int (Z.to_int z).

(** [name.replace(/\.pdf$/i, '')] *)
Definition strip_pdf (name : string) : string :=
  let n := String.length name in
  if (4 <=? n)%nat && String.eqb (toLowerCase (String.substring (n - 4) 4 name)) ".pdf"
  then String.substring 0 (n - 4) name
  else name.

(** [s.match(/\{[\s\S]*\}/)]: the span from the first opening brace to the
    last closing brace after it; [None] is JavaScript's [null]. *)
Fixpoint upto_last_rbrace (s : string) : option string :=
  match s with
  | "" => None
  | String c rest =>
      match upto_last_rbrace rest with
      | Some t => Some (String c t)
      | None => if Ascii.eqb c "}"%char then Some (String c "") else None
      end
  end.
Fixpoint match_braces (s : string) : option string :=
  match s with
  | "" => None
  | String c rest =>
      if Ascii.eqb c "{"%char
      then match upto_last_rbrace rest with
           | Some t => Some (String c t)
           | None => None
           end
      else match_braces rest
  end.

End JS.


(** ** Thrown errors and awaited effects *)

Inductive Result (A : Type) : Type :=
  | Ok (a : A)
  | Throw (message : string).
Arguments Ok {A} a.
Arguments Throw {A} message.

(** What one awaited persistence call will answer: it resolves without an
    [error], resolves with [error] set, or the awaited promise rejects. *)
Inductive DbOutcome : Type :=
  | DbOk
  | DbError (message : string)
  | DbReject (message : string).

(** The envelope [response.json()] decodes: [error.message] when present, and
    the [message.content] of each of [choices]. *)
Record ResponseBody : Type := {
  error_message : option string;
  choices : list string
}.

(** What one [fetch] will answer: the promise rejects (no connection), or a
    response with its [ok] flag, its [status] and what [json()] gives. *)
Inductive HttpOutcome : Type :=
  | FetchRejects (message : string)
  | Response (ok : bool) (status : Z) (json : Result ResponseBody).

(** The request a provider builder hands to [fetch]: the endpoint, the
    [Authorization] header and, of the JSON body, the model name and the
    [messages] as (role, content) pairs. The sampling constants of the body
    are the same in every request of a builder and are left out. *)
Record HttpRequest : Type := {
  endpoint : string;
  authorization : string;
  model : string;
  messages : list (string * string)
}.

(** A row of [ai_models]; its [id] (the primary key) is its key in the table. *)
Record AIModel : Type := {
  name : string;
  provider : string;
  api_key : string;
  base_url : option string;
  model_name : string;
  is_default : bool;
  created_at : string;
  updated_at : string
}.

(** A value of a field of a JavaScript object, as far as the pipeline meets
    them: [undefined], [null], a boolean, an integral number, a string. *)
Inductive JSValue : Type :=
  | JSUndefined
  | JSNull
  | JSBool (b : bool)
  | JSNumber (z : Z)
  | JSString (s : string).

(** [ExtractedData] at run time: an object, from field name to value. *)
Abbreviation ExtractedData := (gmap string JSValue).

(** A row of [pdf_uploads]; [None] is SQL NULL. *)
Record PdfUpload : Type := {
  pdf_id : nat;
  filename : string;
  title : option string;
  authors : option string;
  year : JSValue;                         (* column INTEGER: the value sent *)
  doi : option string;
  background : option string;
  research_question : option string;
  major_findings : option string;
  suggestions : option string;
  full_text : option string
}.

Record ApiKeyRow : Type := {
  key_value : string;       (* column api_key *)
  key_created_at : Z        (* column created_at *)
}.

Record World : Type := {
  ai_models : gmap string AIModel;
  firecrawl_api_keys : list ApiKeyRow;
  pdf_uploads : list PdfUpload;
  batch_pdfs : list (string * nat);       (* (batch_id, pdf_id) *)
  pdfs_bucket : list string;              (* object names in storage bucket 'pdfs' *)
  db_script : list DbOutcome;             (* answers of the coming persistence calls *)
  http_script : list HttpOutcome;         (* answers of the coming fetches *)
  http_log : list HttpRequest;            (* the fetches made so far, oldest first *)
  cachedApiKey : option string;           (* FirecrawlService.cachedApiKey *)
  now_ms : Z;                             (* Date.now() *)
  now_iso : string;                       (* new Date().toISOString() *)
  full_year : Z                           (* new Date().getFullYear() *)
}.

Definition with_ai_models (t : gmap string AIModel) (w : World) : World :=
  {| ai_models := t; firecrawl_api_keys := firecrawl_api_keys w;
     pdf_uploads := pdf_uploads w; batch_pdfs := batch_pdfs w;
     pdfs_bucket := pdfs_bucket w; db_script := db_script w;
     http_script := http_script w; http_log := http_log w;
     cachedApiKey := cachedApiKey w; now_ms := now_ms w; now_iso := now_iso w;
     full_year := full_year w |}.
Definition with_pdf_uploads (t : list PdfUpload) (w : World) : World :=
  {| ai_models := ai_models w; firecrawl_api_keys := firecrawl_api_keys w;
     pdf_uploads := t; batch_pdfs := batch_pdfs w;
     pdfs_bucket := pdfs_bucket w; db_script := db_script w;
     http_script := http_script w; http_log := http_log w;
     cachedApiKey := cachedApiKey w; now_ms := now_ms w; now_iso := now_iso w;
     full_year := full_year w |}.
Definition with_batch_pdfs (t : list (string * nat)) (w : World) : World :=
  {| ai_models := ai_models w; firecrawl_api_keys := firecrawl_api_keys w;
     pdf_uploads := pdf_uploads w; batch_pdfs := t;
     pdfs_bucket := pdfs_bucket w; db_script := db_script w;
     http_script := http_script w; http_log := http_log w;
     cachedApiKey := cachedApiKey w; now_ms := now_ms w; now_iso := now_iso w;
     full_year := full_year w |}.
Definition with_pdfs_bucket (t : list string) (w : World) : World :=
  {| ai_models := ai_models w; firecrawl_api_keys := firecrawl_api_keys w;
     pdf_uploads := pdf_uploads w; batch_pdfs := batch_pdfs w;
     pdfs_bucket := t; db_script := db_script w;
     http_script := http_script w; http_log := http_log w;
     cachedApiKey := cachedApiKey w; now_ms := now_ms w; now_iso := now_iso w;
     full_year := full_year w |}.
Definition with_db_script (t : list DbOutcome) (w : World) : World :=
  {| ai_models := ai_models w; firecrawl_api_keys := firecrawl_api_keys w;
     pdf_uploads := pdf_uploads w; batch_pdfs := batch_pdfs w;
     pdfs_bucket := pdfs_bucket w; db_script := t;
     http_script := http_script w; http_log := http_log w;
     cachedApiKey := cachedApiKey w; now_ms := now_ms w; now_iso := now_iso w;
     full_year := full_year w |}.
Definition with_http (script : list HttpOutcome) (log : list HttpRequest) (w : World) : World :=
  {| ai_models := ai_models w; firecrawl_api_keys := firecrawl_api_keys w;
     pdf_uploads := pdf_uploads w; batch_pdfs := batch_pdfs w;
     pdfs_bucket := pdfs_bucket w; db_script := db_script w;
     http_script := script; http_log := log;
     cachedApiKey := cachedApiKey w; now_ms := now_ms w; now_iso := now_iso w;
     full_year := full_year w |}.
Definition with_cachedApiKey (k : option string) (w : World) : World :=
  {| ai_models := ai_models w; firecrawl_api_keys := firecrawl_api_keys w;
     pdf_uploads := pdf_uploads w; batch_pdfs := batch_pdfs w;
     pdfs_bucket := pdfs_bucket w; db_script := db_script w;
     http_script := http_script w; http_log := http_log w;
     cachedApiKey := k; now_ms := now_ms w; now_iso := now_iso w;
     full_year := full_year w |}.

Definition with_firecrawl_api_keys (t : list ApiKeyRow) (w : World) : World :=
  {| ai_models := ai_models w; firecrawl_api_keys := t;
     pdf_uploads := pdf_uploads w; batch_pdfs := batch_pdfs w;
     pdfs_bucket := pdfs_bucket w; db_script := db_script w;
     http_script := http_script w; http_log := http_log w;
     cachedApiKey := cachedApiKey w; now_ms := now_ms w; now_iso := now_iso w;
     full_year := full_year w |}.

(** A computation over a state [S] that returns or throws. An [async] function
    of the services is one over the [World]. *)
Definition MS (S A : Type) : Type := S -> Result A * S.
Abbreviation M := (MS World).

Definition ret {S A} (a : A) : MS S A := fun w => (Ok a, w).
Definition throw {S A} (message : string) : MS S A := fun w => (Throw message, w).
Definition bind {S A B} (c : MS S A) (k : A -> MS S B) : MS S B :=
  fun w => match c w with
           | (Ok a, w') => k a w'
           | (Throw e, w') => (Throw e, w')
           end.
(** [try { c } catch (e) { h e }] *)
Definition try_catch {S A} (c : MS S A) (h : string -> MS S A) : MS S A :=
  fun w => match c w with
           | (Ok a, w') => (Ok a, w')
           | (Throw e, w') => h e w'
           end.

Notation "'let*' x ':=' c 'in' k" := (bind c (fun x => k))
  (at level 10, x pattern, c at level 100, k at level 200).

(** One awaited persistence call: the next answer of the script; a script that
    has run out answers without error. *)
Definition db_call : M DbOutcome :=
  fun w => match db_script w with
           | [] => (Ok DbOk, w)
           | o :: rest => (Ok o, with_db_script rest w)
           end.

(** [await fetch(...)]: log the request, take the next answer of the script; a
    script that has run out is a dead connection. *)
Definition fetch (req : HttpRequest) : M HttpOutcome :=
  fun w => match http_script w with
           | [] => (Ok (FetchRejects "Failed to fetch"), with_http [] (http_log w ++ [req]) w)
           | o :: rest => (Ok o, with_http rest (http_log w ++ [req]) w)
           end.

(** ** The [ai_models] table (supabase/init.sql) *)

Module Supabase.

Definition set_default (b : bool) (now : string) (m : AIModel) : AIModel :=
  {| name := name m; provider := provider m; api_key := api_key m;
     base_url := base_url m; model_name := model_name m;
     is_default := b; created_at := created_at m; updated_at := now |}.

(** [UPDATE ai_models SET is_default = false, updated_at = now
    WHERE is_default = true]. The rows written are not default, so the
    trigger [ensure_single_default_ai_model] does nothing. *)
Definition update_clear_defaults (now : string) (t : gmap string AIModel)
    : gmap string AIModel :=
  (fun m => if is_default m then set_default false now m else m) <$> t.

(** [UPDATE ai_models SET is_default = true, updated_at = now WHERE id = id].
    When the row exists, the row trigger [ensure_single_default_ai_model]
    (BEFORE INSERT OR UPDATE, FOR EACH ROW) first runs
    [UPDATE ai_models SET is_default = false WHERE id != NEW.id], and the
    trigger on [updated_at] stamps every row written; no row is written, and
    no trigger runs, when the id is unknown. The store's clock and the
    caller's are one clock here. *)
Definition update_set_default (id : string) (now : string) (t : gmap string AIModel)
    : gmap string AIModel :=
  match t !! id with
  | Some m => <[id := set_default true now m]> (set_default false now <$> t)
  | None => t
  end.

(** [SELECT * FROM ai_models WHERE is_default = true] *)
Definition select_defaults (t : gmap string AIModel) : list AIModel :=
  (map_to_list (filter (fun kv => is_default kv.2 = true) t)).*2.

(** What [.maybeSingle()] reports for more than one row. *)
Definition multiple_rows : string :=
  "JSON object requested, multiple (or no) rows returned".

(** [INSERT INTO ai_models ...] of a row under the id the store draws for it.
    An id already in the table violates the primary key: nothing is written
    ([None]). For a row flagged as default the row trigger clears the flag of
    every other row first. *)
Definition insert_row (id : string) (m : AIModel) (now : string)
    (t : gmap string AIModel) : option (gmap string AIModel) :=
  match t !! id with
  | Some _ => None
  | None =>
      Some (<[id := m]> (if is_default m then set_default false now <$> t else t))
  end.
Definition duplicate_key : string :=
  "duplicate key value violates unique constraint".

(** [UPDATE ai_models SET ... WHERE id = id] for a payload that changes the
    columns by [change] and does not mention [is_default]; the row written is
    stamped, and when it is flagged as default the row trigger clears the
    other rows. [None]: no row has this id. *)
Definition update_row (id : string) (change : AIModel -> AIModel) (now : string)
    (t : gmap string AIModel) : option (AIModel * gmap string AIModel) :=
  match t !! id with
  | Some m =>
      let m' := set_default (is_default m) now (change m) in
      Some (m', <[id := m']> (if is_default m then set_default false now <$> t else t))
  | None => None
  end.

(** [UPDATE ai_models SET is_default = false WHERE id != id]: the rows written
    are not default, the row trigger does nothing. *)
Definition update_clear_others (id : string) (now : string) (t : gmap string AIModel)
    : gmap string AIModel :=
  match t !! id with
  | Some m => <[id := m]> (set_default false now <$> t)
  | None => set_default false now <$> t
  end.

(** What [.single()] reports when no row comes back. *)
Definition no_rows : string :=
  "JSON object requested, multiple (or no) rows returned".

(** [ORDER BY is_default DESC, created_at DESC]: [a] may stand before [b].
    Time stamps are compared as the strings the store prints. *)
Definition listed_before (a b : AIModel) : Prop :=
  match is_default a, is_default b with
  | true, false => True
  | false, true => False
  | _, _ => String.le (created_at b) (created_at a)
  end.
Global Instance listed_before_dec : RelDecision listed_before.
Proof.
  intros a b. unfold listed_before.
  destruct (is_default a), (is_default b); apply _.
Defined.

(** [SELECT * FROM ai_models ORDER BY is_default DESC, created_at DESC] *)
Definition select_ordered (t : gmap string AIModel) : list AIModel :=
  merge_sort listed_before (map_to_list t).*2.

End Supabase.

(** ** AIService *)

Module PaperData.
Record t : Type := {
  name : string;
  author : string;
  year : option Z;            (* number | null *)
  abstract : option string;   (* string | null *)
  doi : option string         (* string | null *)
}.
End PaperData.

Module AIModelInput.
Record t : Type := {
  name : string;
  provider : string;
  api_key : string;
  base_url : option string;   (* base_url?: string *)
  model_name : string
}.
End AIModelInput.

(** Every field is optional: [None] leaves the column as it is. *)
Module AIModelUpdateInput.
Record t : Type := {
  name : option string;
  provider : option string;
  api_key : option string;
  base_url : option string;
  model_name : option string
}.
End AIModelUpdateInput.

Module AIService.

Definition NoModelConfigured : string :=
  "No AI model available. Please configure one in AI Settings.".
Definition EmptyCompletion : string := "No content in API response".
Definition ProviderNotImplemented (p : string) : string :=
  "Provider " +:+ p +:+ " is not implemented yet.".

(** [x || fallback] for a nullable string. *)
Definition opt_or (x : option string) (fallback : string) : string :=
  match x with
  | Some s => JS.or_else s fallback
  | None => fallback
  end.

Definition getDefaultModel : M (option AIModel) :=
  try_catch
    (let* q := db_call in
     match q with
     | DbOk => fun w =>
         match Supabase.select_defaults (ai_models w) with
         | [] => (Ok None, w)
         | [m] => (Ok (Some m), w)
         | _ => (Throw Supabase.multiple_rows, w)
         end
     | DbError e | DbReject e => throw e
     end)
    (fun _ => ret None).

Definition getModelById (id : string) : M (option AIModel) :=
  try_catch
    (let* q := db_call in
     match q with
     | DbOk => fun w => (Ok (ai_models w !! id), w)
     | DbError e | DbReject e => throw e
     end)
    (fun _ => ret None).

Definition clearDefaultModels : M bool :=
  try_catch
    (let* q := db_call in
     match q with
     | DbOk => fun w =>
         (Ok true, with_ai_models (Supabase.update_clear_defaults (now_iso w) (ai_models w)) w)
     | DbError e | DbReject e => throw e
     end)
    (fun _ => ret false).

Definition setAsDefault (id : string) : M bool :=
  try_catch
    (let* _ := clearDefaultModels in
     let* q := db_call in
     match q with
     | DbOk => fun w =>
         (Ok true, with_ai_models (Supabase.update_set_default id (now_iso w) (ai_models w)) w)
     | DbError e | DbReject e => throw e
     end)
    (fun _ => ret false).

(** *** Prompt augmentation *)

(** One element of [papers.map((paper, index) => `...`)]. *)
Definition paper_entry (index : nat) (paper : PaperData.t) : string :=
  JS.nl +:+ "PAPER " +:+ JS.of_Z (Z.of_nat index + 1) +:+ ":" +:+ JS.nl +:+
  "Title: " +:+ PaperData.name paper +:+ JS.nl +:+
  "Author: " +:+ JS.or_else (PaperData.author paper) "Unknown" +:+ JS.nl +:+
  "Year: " +:+ match PaperData.year paper with
               | Some y => if (y =? 0)%Z then "Unknown" else JS.of_Z y
               | None => "Unknown"
               end +:+ JS.nl +:+
  "Abstract: " +:+ opt_or (PaperData.abstract paper) "No abstract provided." +:+ JS.nl +:+
  "DOI: " +:+ opt_or (PaperData.doi paper) "N/A" +:+ JS.nl.

Definition paper_entries (papers : list PaperData.t) : list string :=
  imap paper_entry papers.

Definition papers_header : string :=
  "I want you to act as an academic research assistant. I'll provide you with information about academic papers, and you'll help answer questions about them."
  +:+ JS.nl +:+ JS.nl +:+ "CONTEXT:" +:+ JS.nl +:+
  "The following are summaries of academic papers related to the query:"
  +:+ JS.nl +:+ JS.nl.
Definition papers_question : string :=
  JS.nl +:+ JS.nl +:+
  "Based on the above academic papers, please answer the following question:"
  +:+ JS.nl.
Definition insufficient_instruction : string :=
  "If the papers don't contain information to answer the question, please state that clearly.".
Definition papers_footer : string :=
  JS.nl +:+ JS.nl +:+
  "Your response should be clear, factual, and directly reference the papers when appropriate. "
  +:+ insufficient_instruction.

Definition papers_prompt (papers : list PaperData.t) (prompt : string) : string :=
  papers_header +:+ JS.join JS.nl (paper_entries papers) +:+ papers_question
  +:+ prompt +:+ papers_footer.

Definition context_prompt (context prompt : string) : string :=
  "CONTEXT: " +:+ context +:+ JS.nl +:+ JS.nl +:+ "QUESTION: " +:+ prompt
  +:+ JS.nl +:+ JS.nl +:+
  "Please provide a helpful response based on the context provided.".

(** The [promptContent] of [generateCompletion]; an absent argument
    ([undefined]) is [None]. *)
Definition promptContent (prompt : string) (context : option string)
    (papers : option (list PaperData.t)) : string :=
  match papers with
  | Some ((_ :: _) as ps) => papers_prompt ps prompt
  | _ =>
      match context with
      | Some c => if JS.truthy c then context_prompt c prompt else prompt
      | None => prompt
      end
  end.

(** *** Provider builders *)

Definition chat_request (default_base : string) (m : AIModel) (prompt : string)
    : HttpRequest :=
  {| endpoint := opt_or (base_url m) default_base +:+ "/chat/completions";
     authorization := "Bearer " +:+ api_key m;
     model := model_name m;
     messages := [("user", prompt)] |}.

(** The body shared by the two implemented builders: one POST, then the
    first choice of the envelope. *)
Definition chat_completion (default_base : string) (m : AIModel) (prompt : string)
    : M string :=
  try_catch
    (let* response := fetch (chat_request default_base m prompt) in
     match response with
     | FetchRejects e => throw e
     | Response false status (Throw e) => throw e
     | Response false status (Ok errorData) =>
         throw (opt_or (error_message errorData) ("API Error: " +:+ JS.of_Z status))
     | Response true _ (Throw e) => throw e
     | Response true _ (Ok data) =>
         match choices data with
         | content :: _ => ret content
         | [] => throw EmptyCompletion
         end
     end)
    (fun e => throw e).

Definition generateSiliconFlowCompletion : AIModel -> string -> M string :=
  chat_completion "https://api.siliconflow.cn/v1".
Definition generateOpenRouterCompletion : AIModel -> string -> M string :=
  chat_completion "https://openrouter.ai/api/v1".
Definition generateOpenAICompletion (m : AIModel) (prompt : string) : M string :=
  throw "OpenAI API implementation not available yet".
Definition generateAnthropicCompletion (m : AIModel) (prompt : string) : M string :=
  throw "Anthropic API implementation not available yet".
Definition generateGoogleCompletion (m : AIModel) (prompt : string) : M string :=
  throw "Google API implementation not available yet".

Definition dispatch (m : AIModel) (prompt : string) : M string :=
  if String.eqb (provider m) "siliconflow" then generateSiliconFlowCompletion m prompt
  else if String.eqb (provider m) "openai" then generateOpenAICompletion m prompt
  else if String.eqb (provider m) "anthropic" then generateAnthropicCompletion m prompt
  else if String.eqb (provider m) "google" then generateGoogleCompletion m prompt
  else if String.eqb (provider m) "openrouter" then generateOpenRouterCompletion m prompt
  else throw (ProviderNotImplemented (provider m)).

Definition generateCompletion (prompt : string) (modelId : option string)
    (context : option string) (papers : option (list PaperData.t)) : M string :=
  try_catch
    (let* resolved :=
       match modelId with
       | Some id => if JS.truthy id then getModelById id else getDefaultModel
       | None => getDefaultModel
       end in
     match resolved with
     | None => throw NoModelConfigured
     | Some m => dispatch m (promptContent prompt context papers)
     end)
    (fun e => throw e).

(** *** The rest of the configuration store *)

Definition getModels : M (list AIModel) :=
  try_catch
    (let* q := db_call in
     match q with
     | DbOk => fun w => (Ok (Supabase.select_ordered (ai_models w)), w)
     | DbError e | DbReject e => throw e
     end)
    (fun _ => ret []).

(** [count !== null && count > 0] over the rows flagged as default. *)
Definition hasDefaultModel : M bool :=
  try_catch
    (let* q := db_call in
     match q with
     | DbOk => fun w =>
         (Ok (negb (Nat.eqb (length (Supabase.select_defaults (ai_models w))) 0)), w)
     | DbError e | DbReject e => throw e
     end)
    (fun _ => ret false).

(** The row [{...model, is_default}] as the store completes it. *)
Definition new_row (model : AIModelInput.t) (flag : bool) (now : string) : AIModel :=
  {| name := AIModelInput.name model;
     provider := AIModelInput.provider model;
     api_key := AIModelInput.api_key model;
     base_url := AIModelInput.base_url model;
     model_name := AIModelInput.model_name model;
     is_default := flag;
     created_at := now;
     updated_at := now |}.

(** [.from('ai_models').insert(row).select().single()], then
    [if (error) throw error; return data]. [id] is the id the store draws. *)
Definition insert_model (id : string) (model : AIModelInput.t) (flag : bool)
    : M (option AIModel) :=
  let* q := db_call in
  match q with
  | DbOk => fun w =>
      match Supabase.insert_row id (new_row model flag (now_iso w)) (now_iso w)
              (ai_models w) with
      | Some t => (Ok (Some (new_row model flag (now_iso w))), with_ai_models t w)
      | None => (Throw Supabase.duplicate_key, w)
      end
  | DbError e | DbReject e => throw e
  end.

(** [addModel]; [id] is the id the store draws for the new row. *)
Definition addModel (id : string) (model : AIModelInput.t) : M (option AIModel) :=
  try_catch
    (let* promote :=
       if JS.includes "default" (JS.toLowerCase (AIModelInput.name model))
       then ret true
       else (let* has := hasDefaultModel in ret (negb has)) in
     if promote : bool
     then (let* _ := clearDefaultModels in insert_model id model true)
     else insert_model id model false)
    (fun _ => ret None).

(** The columns [{...model}] writes. *)
Definition apply_update (u : AIModelUpdateInput.t) (m : AIModel) : AIModel :=
  {| name := default (name m) (AIModelUpdateInput.name u);
     provider := default (provider m) (AIModelUpdateInput.provider u);
     api_key := default (api_key m) (AIModelUpdateInput.api_key u);
     base_url := match AIModelUpdateInput.base_url u with
                 | Some b => Some b
                 | None => base_url m
                 end;
     model_name := default (model_name m) (AIModelUpdateInput.model_name u);
     is_default := is_default m;
     created_at := created_at m;
     updated_at := updated_at m |}.

Definition updateModel (id : string) (model : AIModelUpdateInput.t)
    : M (option AIModel) :=
  try_catch
    (let* q := db_call in
     match q with
     | DbOk => fun w =>
         match Supabase.update_row id (apply_update model) (now_iso w) (ai_models w) with
         | Some (data, t) => (Ok (Some data), with_ai_models t w)
         | None => (Throw Supabase.no_rows, w)
         end
     | DbError e | DbReject e => throw e
     end)
    (fun _ => ret None).

Definition deleteModel (id : string) : M bool :=
  try_catch
    (let* q := db_call in
     match q with
     | DbOk => fun w => (Ok true, with_ai_models (delete id (ai_models w)) w)
     | DbError e | DbReject e => throw e
     end)
    (fun _ => ret false).

End AIService.

(** ** PDFProcessingService *)

(** What pdf.js makes of the bytes of a file: [getDocument] rejects, or the
    document has pages, each of which gives its text items or fails. *)
Inductive PdfPage : Type :=
  | PageText (items : list string)
  | PageFails (message : string).
Inductive PdfDocument : Type :=
  | LoadFails (message : string)
  | Pages (pages : list PdfPage).

(** A file of the browser. [await file.arrayBuffer()] gives its bytes, which
    stand here for the document pdf.js makes of them, or rejects when the file
    cannot be read. *)
Module File.
Record t : Type := {
  name : string;
  size : Z;
  arrayBuffer : Result PdfDocument
}.
End File.

Module JSObject.
Definition truthy (v : JSValue) : bool :=
  match v with
  | JSUndefined | JSNull => false
  | JSBool b => b
  | JSNumber z => negb (z =? 0)%Z
  | JSString s => JS.truthy s
  end.
(** [a || b] *)
Definition or_else (a b : JSValue) : JSValue := if truthy a then a else b.
(** [o.k]; a missing key reads [undefined]. *)
Definition get (o : gmap string JSValue) (k : string) : JSValue :=
  default JSUndefined (o !! k).
(** [{...a, ...b}]: the later spread wins on a common key. *)
Definition spread (a b : gmap string JSValue) : gmap string JSValue := b ∪ a.
(** [String(v)] *)
Definition to_string (v : JSValue) : string :=
  match v with
  | JSUndefined => "undefined"
  | JSNull => "null"
  | JSBool true => "true"
  | JSBool false => "false"
  | JSNumber z => JS.of_Z z
  | JSString s => s
  end.
End JSObject.

Module PDFProcessingService.

Definition NoTextContent : string := "No text content found in PDF".
Definition extraction_failed (message : string) : string :=
  "Could not extract text from PDF: " +:+ message.

(** One turn of the page loop of [extractTextFromPDF]: a failing page is
    skipped. *)
Definition add_page (fullText : string) (page : PdfPage) : string :=
  match page with
  | PageText items => fullText +:+ JS.join " " items +:+ JS.nl +:+ JS.nl
  | PageFails _ => fullText
  end.
Definition page_loop (pages : list PdfPage) : string :=
  foldl add_page "" pages.

Definition extractTextFromPDF (d : PdfDocument) : Result string :=
  let body : Result string :=
    match d with
    | LoadFails e => Throw e
    | Pages pages =>
        let fullText := page_loop pages in
        if negb (JS.truthy fullText) then Throw NoTextContent
        else Ok (JS.trim fullText)
    end in
  match body with
  | Ok text => Ok text
  | Throw e => Throw (extraction_failed e)
  end.

(** [lowerLine.match(/method(s|ology)?/)]: the optional group never decides
    whether there is a match. *)
Definition matches_method (lowerLine : string) : bool :=
  JS.includes "method" lowerLine.

(** What one iteration of the loop of [convertTextToMarkdown] appends. *)
Definition emit (i : nat) (line : string) : string :=
  let lowerLine := JS.toLowerCase line in
  if JS.includes "abstract" lowerLine then JS.nl +:+ "## Abstract" +:+ JS.nl +:+ JS.nl
  else if JS.includes "introduction" lowerLine then JS.nl +:+ "## Introduction" +:+ JS.nl +:+ JS.nl
  else if matches_method lowerLine then JS.nl +:+ "## Methods" +:+ JS.nl +:+ JS.nl
  else if JS.includes "result" lowerLine then JS.nl +:+ "## Results" +:+ JS.nl +:+ JS.nl
  else if JS.includes "discussion" lowerLine then JS.nl +:+ "## Discussion" +:+ JS.nl +:+ JS.nl
  else if JS.includes "conclusion" lowerLine then JS.nl +:+ "## Conclusion" +:+ JS.nl +:+ JS.nl
  else if (i =? 0)%nat then "# " +:+ line +:+ JS.nl +:+ JS.nl
  else line +:+ JS.nl.

Fixpoint markdown_loop (i : nat) (lines : list string) (markdown : string) : string :=
  match lines with
  | [] => markdown
  | line :: rest => markdown_loop (S i) rest (markdown +:+ emit i line)
  end.

Definition content_lines (text : string) : list string :=
  filter (fun l => JS.truthy l = true) (JS.trim <$> JS.split_lines text).

Definition convertTextToMarkdown (text : string) : string :=
  markdown_loop 0 (content_lines text) "".

(** *** The two completion prompts *)

Definition quoted (s : string) : string := JS.dq +:+ s +:+ JS.dq.
Definition member (k v : string) : string := "  " +:+ quoted k +:+ ": " +:+ quoted v.

Definition initialPrompt (initialChunk : string) : string :=
  JS.join JS.nl [
    "Analyze this academic paper text and extract the following metadata. Return ONLY a JSON object with these fields (omit any fields you don't find):";
    "{";
    member "title" "paper title" +:+ ",";
    member "authors" "author names" +:+ ",";
    member "doi" "DOI if present" +:+ ",";
    member "year" "publication year (as a number)";
    "}";
    "";
    "Important:";
    "- Look for the title at the beginning of the text";
    "- Authors are usually listed after the title";
    "- DOI might be in the format " +:+ quoted "doi: 10.xxxx/xxxxx" +:+ " or "
      +:+ quoted "https://doi.org/10.xxxx/xxxxx";
    "- Year is usually a 4-digit number near the beginning of the paper";
    "";
    "Text:";
    initialChunk ].

Definition contentPrompt (contentChunk : string) : string :=
  JS.join JS.nl [
    "Analyze this academic paper excerpt and extract the following information. Return ONLY a JSON object with these fields (omit any fields you don't find):";
    "{";
    member "background" "brief summary of the paper's background and context" +:+ ",";
    member "research_question" "main research questions or objectives" +:+ ",";
    member "major_findings" "key findings and results" +:+ ",";
    member "suggestions" "future research suggestions or implications";
    "}";
    "";
    "Important:";
    "- Background: Look for sections like " +:+ quoted "Introduction" +:+ ", "
      +:+ quoted "Background" +:+ ", or " +:+ quoted "Abstract";
    "- Research Question: Look for explicit questions or objectives";
    "- Major Findings: Look for results, conclusions, or key findings";
    "- Suggestions: Look for future work, implications, or recommendations";
    "";
    "Text:";
    contentChunk ].

Section Pipeline.

(** [JSON.parse] on a text that starts with an opening brace: the decoded
    object, or [None] when it throws a [SyntaxError]. *)
Variable JSON_parse : string -> option (gmap string JSValue).

(** [let x = {}; try { const m = r.match(/\{[\s\S]*\}/); if (m) x = JSON.parse(m[0]) } catch {}] *)
Definition parse_partial (response : string) : gmap string JSValue :=
  match JS.match_braces response with
  | Some span =>
      match JSON_parse span with
      | Some o => o
      | None => ∅
      end
  | None => ∅
  end.

(** The record of the [catch] branch of [analyzeWithAI]. *)
Definition fallback (markdown : string) (w : World) : gmap string JSValue :=
  <["title" := JSString ""]>
    (<["authors" := JSString "Unknown"]>
       (<["year" := JSNumber (full_year w)]>
          (<["full_text" := JSString markdown]> ∅))).

Definition analyzeWithAI (markdown : string) : M (gmap string JSValue) :=
  try_catch
    (let initialChunk := JS.slice0 3000 markdown in
     let* metadataResponse :=
       AIService.generateCompletion (initialPrompt initialChunk) None None None in
     let metadata := parse_partial metadataResponse in
     let contentChunk := JS.slice0 6000 markdown in
     let* contentResponse :=
       AIService.generateCompletion (contentPrompt contentChunk) None None None in
     let content := parse_partial contentResponse in
     ret (<["full_text" := JSString markdown]> (JSObject.spread metadata content)))
    (fun _ => fun w => (Ok (fallback markdown w), w)).

(** The object [processPDF] returns on success. *)
Definition finalize (file : File.t) (markdown : string) (full_year : Z)
    (extractedData : gmap string JSValue) : gmap string JSValue :=
  <["full_text" := JSString markdown]>
    (<["year" := JSNumber full_year]>
       (<["authors" := JSObject.or_else (JSObject.get extractedData "authors")
                         (JSString "Unknown")]>
          (<["title" := JSObject.or_else (JSObject.get extractedData "title")
                          (JSString (JS.strip_pdf (File.name file)))]>
             extractedData))).

Definition processPDF (file : File.t) : M (gmap string JSValue) :=
  try_catch
    (let* buffer := fun w => (File.arrayBuffer file, w) in
     let* text :=
       try_catch
         (fun w => (extractTextFromPDF buffer, w))
         (fun e => throw e) in
     let markdown := convertTextToMarkdown text in
     try_catch
       (let* extractedData := analyzeWithAI markdown in
        fun w => (Ok (finalize file markdown (full_year w) extractedData), w))
       (fun aiError => throw aiError))
    (fun e => throw e).

End Pipeline.

End PDFProcessingService.

(** ** The PDF upload view: [sanitizeText], [processPDF] and the batch loop *)

Module ProcessingStatus.
Inductive t : Type := pending | uploading | processing | extracting | success | error.
End ProcessingStatus.

Module UploadedFile.
(** The fields [preview] and [processing] are never written and left out. *)
Record t : Type := {
  file : File.t;
  id : string;
  uploading : bool;
  processingStatus : option ProcessingStatus.t;
  processingProgress : option Z;
  extractedData : option (gmap string JSValue);
  error : option string;
  success : option bool
}.
End UploadedFile.

Module PDFUploadView.

Definition is_hex (c : ascii) : bool :=
  let n := Ascii.N_of_ascii c in
  (((48 <=? n) && (n <=? 57)) || ((65 <=? n) && (n <=? 70)) || ((97 <=? n) && (n <=? 102)))%N.

(** [.replace(/\\u[0-9a-fA-F]{4}/g, '')]: drop every backslash, [u] and four
    hexadecimal digits, scanning from the left. *)
Fixpoint strip_uescapes (s : string) : string :=
  match s with
  | "" => ""
  | String c tl =>
      match tl with
      | String u (String h1 (String h2 (String h3 (String h4 rest)))) =>
          if Ascii.eqb c "092"%char && Ascii.eqb u "u"%char
             && is_hex h1 && is_hex h2 && is_hex h3 && is_hex h4
          then strip_uescapes rest
          else String c (strip_uescapes tl)
      | _ => String c (strip_uescapes tl)
      end
  end.

(** [.replace(/[\u0000-\u0008\u000B-\u000C\u000E-\u001F]/g, '')] *)
Definition is_control (c : ascii) : bool :=
  let n := Ascii.N_of_ascii c in
  ((n <=? 8) || ((11 <=? n) && (n <=? 12)) || ((14 <=? n) && (n <=? 31)))%N.
Fixpoint strip_controls (s : string) : string :=
  match s with
  | "" => ""
  | String c rest =>
      if is_control c then strip_controls rest else String c (strip_controls rest)
  end.

(** [processedFile.extractedData?.k] *)
Definition field (f : UploadedFile.t) (k : string) : JSValue :=
  match UploadedFile.extractedData f with
  | Some o => JSObject.get o k
  | None => JSUndefined
  end.

Section View.

Variable JSON_parse : string -> option (gmap string JSValue).

(** [s.normalize('NFKD')], the compatibility decomposition of the Unicode
    standard, is a parameter of the view as [JSON.parse] is one of the
    pipeline. *)
Variable NFKD : string -> string.

Definition sanitizeText (text : JSValue) : option string :=
  match text with
  | JSNull | JSUndefined => None
  | _ =>
      Some (JS.trim (NFKD (strip_controls (strip_uescapes (JSObject.to_string text)))))
  end.

(** The view's [processPDF]. The [index] and the progress callback feed the
    display only; the progress kept is the one written last. *)
Definition processPDF (fileObj : UploadedFile.t) (index : nat) : M UploadedFile.t :=
  let updatedFile (status : ProcessingStatus.t) (progress : Z)
                  (data : option (gmap string JSValue)) (err : option string) :=
    {| UploadedFile.file := UploadedFile.file fileObj;
       UploadedFile.id := UploadedFile.id fileObj;
       UploadedFile.uploading := UploadedFile.uploading fileObj;
       UploadedFile.processingStatus := Some status;
       UploadedFile.processingProgress := Some progress;
       UploadedFile.extractedData := data;
       UploadedFile.error := err;
       UploadedFile.success := UploadedFile.success fileObj |} in
  try_catch
    (let* extractedData :=
       PDFProcessingService.processPDF JSON_parse (UploadedFile.file fileObj) in
     ret (updatedFile ProcessingStatus.success 100 (Some extractedData)
            (UploadedFile.error fileObj)))
    (fun message =>
       ret (updatedFile ProcessingStatus.error 0 (UploadedFile.extractedData fileObj)
              (Some (JS.or_else message "Failed to process PDF")))).

(** The payload of the insert into [pdf_uploads]; the store gives the id. *)
Definition pdf_record (pdf_id : nat) (fileObj processedFile : UploadedFile.t)
    (full_year : Z) : PdfUpload :=
  {| pdf_id := pdf_id;
     filename := File.name (UploadedFile.file fileObj);
     title := sanitizeText (field processedFile "title");
     authors := sanitizeText (field processedFile "authors");
     year := JSObject.or_else (field processedFile "year") (JSNumber full_year);
     doi := sanitizeText (field processedFile "doi");
     background := sanitizeText (field processedFile "background");
     research_question := sanitizeText (field processedFile "research_question");
     major_findings := sanitizeText (field processedFile "major_findings");
     suggestions := sanitizeText (field processedFile "suggestions");
     full_text := sanitizeText (field processedFile "full_text") |}.

(** The loop runs over the world and its local array [updatedFiles]. *)
Definition Loop : Type := (list UploadedFile.t * World)%type.

Definition lift {A} (c : M A) : MS Loop A :=
  fun '(updatedFiles, w) => let '(r, w') := c w in (r, (updatedFiles, w')).
(** [updatedFiles[i]] and [updatedFiles[i] = f(updatedFiles[i])] *)
Definition read (i : nat) (fallback : UploadedFile.t) : MS Loop UploadedFile.t :=
  fun '(updatedFiles, w) => (Ok (default fallback (updatedFiles !! i)), (updatedFiles, w)).
Definition write (i : nat) (f : UploadedFile.t) : MS Loop unit :=
  fun '(updatedFiles, w) => (Ok tt, (<[i := f]> updatedFiles, w)).

Definition set_uploading (b : bool) (f : UploadedFile.t) : UploadedFile.t :=
  {| UploadedFile.file := UploadedFile.file f; UploadedFile.id := UploadedFile.id f;
     UploadedFile.uploading := b;
     UploadedFile.processingStatus := UploadedFile.processingStatus f;
     UploadedFile.processingProgress := UploadedFile.processingProgress f;
     UploadedFile.extractedData := UploadedFile.extractedData f;
     UploadedFile.error := UploadedFile.error f;
     UploadedFile.success := UploadedFile.success f |}.
Definition set_pending (f : UploadedFile.t) : UploadedFile.t :=
  {| UploadedFile.file := UploadedFile.file f; UploadedFile.id := UploadedFile.id f;
     UploadedFile.uploading := false;
     UploadedFile.processingStatus := Some ProcessingStatus.pending;
     UploadedFile.processingProgress := Some 0;
     UploadedFile.extractedData := UploadedFile.extractedData f;
     UploadedFile.error := UploadedFile.error f;
     UploadedFile.success := UploadedFile.success f |}.
Definition set_failed (message : string) (f : UploadedFile.t) : UploadedFile.t :=
  {| UploadedFile.file := UploadedFile.file f; UploadedFile.id := UploadedFile.id f;
     UploadedFile.uploading := false;
     UploadedFile.processingStatus := Some ProcessingStatus.error;
     UploadedFile.processingProgress := Some 0;
     UploadedFile.extractedData := UploadedFile.extractedData f;
     UploadedFile.error := Some message;
     UploadedFile.success := Some false |}.

(** One awaited write of the loop: [error] set throws the prefixed message. *)
Definition awaited_write (failure : string) (commit : World -> World) : M unit :=
  let* q := db_call in
  match q with
  | DbOk => fun w => (Ok tt, commit w)
  | DbError e => throw (failure +:+ e)
  | DbReject e => throw e
  end.

(** The body of the [for] loop of [uploadAndProcessFiles] for index [i]. The
    calls of [setFiles] copy the array to the display and are left out; an
    insert that is applied returns its row, so the test for an empty [pdfData]
    has no run of its own. *)
Definition iteration (batchId : string) (i : nat) (fileObj : UploadedFile.t)
    : MS Loop unit :=
  let* _ := write i (set_uploading true fileObj) in
  try_catch
    (let* fileName := lift (fun w =>
         (Ok (JS.of_Z (now_ms w) +:+ "-" +:+ File.name (UploadedFile.file fileObj)), w)) in
     let* _ := lift (awaited_write "Failed to upload file: "
                       (fun w => with_pdfs_bucket (pdfs_bucket w ++ [fileName]) w)) in
     let* current := read i fileObj in
     let* _ := write i (set_pending current) in
     let* current := read i fileObj in
     let* processedFile := lift (processPDF current i) in
     let* _ := write i processedFile in
     let* pdfId := lift (fun w => (Ok (length (pdf_uploads w)), w)) in
     let* _ := lift (awaited_write "Failed to create PDF record: "
                       (fun w => with_pdf_uploads
                                   (pdf_uploads w ++
                                      [pdf_record pdfId fileObj processedFile (full_year w)]) w)) in
     lift (awaited_write "Failed to link PDF to batch: "
             (fun w => with_batch_pdfs (batch_pdfs w ++ [(batchId, pdfId)]) w)))
    (fun message =>
       let* current := read i fileObj in
       write i (set_failed message current)).

Fixpoint for_loop (batchId : string) (i : nat) (files : list UploadedFile.t)
    : MS Loop unit :=
  match files with
  | [] => ret tt
  | fileObj :: rest =>
      let* _ := iteration batchId i fileObj in
      for_loop batchId (S i) rest
  end.

(** [const updatedFiles = [...files]; for (let i = 0; i < files.length; i++) {...}] *)
Definition upload_loop (batchId : string) (files : list UploadedFile.t)
    : M (list UploadedFile.t) :=
  fun w =>
    match for_loop batchId 0 files (files, w) with
    | (Ok _, (updatedFiles, w')) => (Ok updatedFiles, w')
    | (Throw e, (_, w')) => (Throw e, w')
    end.

End View.

End PDFUploadView.

(** ** FirecrawlService.getApiKey *)

Module FirecrawlService.

Definition DEFAULT_API_KEY : string := "fc-71889ec5fbbd46838335b514190d059d".

(** [ORDER BY created_at DESC LIMIT 1]: a newest row (the first of them in
    table order; the store does not say which of several it gives). *)
Definition latest (rows : list ApiKeyRow) : option ApiKeyRow :=
  foldl (fun best r =>
           match best with
           | None => Some r
           | Some b => if (key_created_at b <? key_created_at r)%Z then Some r else Some b
           end) None rows.

(** The [try] block of [getApiKey]: [Some k] when it returns [k], [None] when
    control leaves the block without a [return]. [.single()] reports an
    error when there is no row. *)
Definition lookup : M (option string) :=
  try_catch
    (let* q := db_call in
     match q with
     | DbOk => fun w =>
         match latest (firecrawl_api_keys w) with
         | None => (Ok (Some DEFAULT_API_KEY), w)
         | Some data =>
             if JS.truthy (key_value data)
             then (Ok (Some (key_value data)),
                   with_cachedApiKey (Some (key_value data)) w)
             else (Ok None, w)
         end
     | DbError _ => ret (Some DEFAULT_API_KEY)
     | DbReject e => throw e
     end)
    (fun _ => ret None).

Definition getApiKey : M string :=
  fun w =>
    match cachedApiKey w with
    | Some k =>
        if JS.truthy k then (Ok k, w)
        else (let* r := lookup in ret (default DEFAULT_API_KEY r)) w
    | None => (let* r := lookup in ret (default DEFAULT_API_KEY r)) w
    end.

(** [.update({ api_key }).eq('id', existingKeys[0].id)]: the row that
    [select('id').limit(1)] gave, the first of the table. *)
Definition set_first_key (apiKey : string) (rows : list ApiKeyRow) : list ApiKeyRow :=
  match rows with
  | r :: rest => {| key_value := apiKey; key_created_at := key_created_at r |} :: rest
  | [] => []
  end.

(** [saveApiKey]. The error of the first lookup is not read: with [error] set
    [existingKeys] is null and the key is inserted. A refused write returns
    before the cache is touched. [initializeFirecrawlApp] is started and not
    awaited; what it does to the world is its call of [getApiKey]. *)
Definition saveApiKey (apiKey : string) : M unit :=
  try_catch
    (let* q := db_call in
     let* existing :=
       match q with
       | DbOk => fun w =>
           (Ok (match firecrawl_api_keys w with [] => false | _ => true end), w)
       | DbError _ => ret false
       | DbReject e => throw e
       end in
     let* q2 := db_call in
     match q2 with
     | DbOk =>
         let* _ := fun w =>
           (Ok tt,
            with_cachedApiKey (Some apiKey)
              (with_firecrawl_api_keys
                 (if existing : bool
                  then set_first_key apiKey (firecrawl_api_keys w)
                  else firecrawl_api_keys w ++
                         [{| key_value := apiKey; key_created_at := now_ms w |}])
                 w)) in
         let* _ := getApiKey in
         ret tt
     | DbError _ => ret tt
     | DbReject e => throw e
     end)
    (fun _ => ret tt).

Definition hasApiKey : M bool :=
  try_catch
    (let* q := db_call in
     match q with
     | DbOk => fun w =>
         (Ok (match firecrawl_api_keys w with [] => false | _ => true end), w)
     | DbError _ => ret false
     | DbReject e => throw e
     end)
    (fun _ => ret false).

End FirecrawlService.

(** ** The callers: the API key guard, the chat, the model check page *)

Module ApiKeyGuard.

(** [handleSaveApiKey] on the text typed; the state is [hasApiKey]
    ([None] while it is not known). *)
Definition handleSaveApiKey (apiKey : string) (hasApiKey : option bool)
    : M (option bool) :=
  if negb (JS.truthy (JS.trim apiKey)) then ret hasApiKey
  else
    try_catch
      (let* _ := FirecrawlService.saveApiKey apiKey in ret (Some true))
      (fun _ => ret hasApiKey).

End ApiKeyGuard.

Module Message.
Record t : Type := {
  role : string;        (* 'user' | 'assistant' | 'error' *)
  content : string;
  timestamp : Z
}.
End Message.

Module AIChat.

Definition no_response : string :=
  "Failed to get a response from the AI service. Please try again.".

(** [handleSubmit] on the text typed; the state is the list of messages. *)
Definition handleSubmit (initialContext : option string)
    (papers localPapers : list PaperData.t) (input : string) (isProcessing : bool)
    (messages : list Message.t) : M (list Message.t) :=
  if negb (JS.truthy (JS.trim input)) || isProcessing then ret messages
  else
    fun w =>
      let userMessage :=
        {| Message.role := "user"; Message.content := input;
           Message.timestamp := now_ms w |} in
      try_catch
        (let papersToUse := match localPapers with [] => papers | _ => localPapers end in
         let* response :=
           AIService.generateCompletion input None initialContext
             (match papersToUse with [] => None | _ => Some papersToUse end) in
         fun w' =>
           (Ok (messages ++ [userMessage] ++
                  [{| Message.role := "assistant"; Message.content := response;
                      Message.timestamp := now_ms w' |}]), w'))
        (fun message => fun w' =>
           (Ok (messages ++ [userMessage] ++
                  [{| Message.role := "error";
                      Message.content := "Error: " +:+ JS.or_else message no_response;
                      Message.timestamp := now_ms w' |}]), w'))
        w.

End AIChat.

Module CheckModels.

(** [setAsDefault] of the model check page: the answer to the first write is
    not read; the list is fetched again after the second. *)
Definition setAsDefault (id : string) : M unit :=
  try_catch
    (let* q := db_call in
     let* _ :=
       match q with
       | DbOk => fun w =>
           (Ok tt, with_ai_models
                     (Supabase.update_clear_others id (now_iso w) (ai_models w)) w)
       | DbError _ => ret tt
       | DbReject e => throw e
       end in
     let* q2 := db_call in
     match q2 with
     | DbOk =>
         let* _ := fun w =>
           (Ok tt, with_ai_models
                     (Supabase.update_set_default id (now_iso w) (ai_models w)) w) in
         let* _ := db_call in
         ret tt
     | DbError e | DbReject e => throw e
     end)
    (fun _ => ret tt).

End CheckModels.

(** ** A decoder for the flat objects the prompts ask for

    [JSON.parse] is a parameter of the pipeline. For the runs evaluated below,
    [JSON.parse_flat] decodes the JSON objects whose members are strings
    without escapes, integers, [true], [false] and [null], as [JSON.parse]
    does, and rejects every other text. *)

Module JSON.

Inductive state : Type :=
  | Start                                   (* before the opening brace *)
  | Open                                    (* a key or the closing brace *)
  | Key (acc : string)                      (* inside a key, reversed *)
  | Colon (k : string)
  | Value (k : string)
  | Str (k : string) (acc : string)         (* inside a string, reversed *)
  | Num (k : string) (neg : bool) (n : option Z)
  | Lit (k : string) (acc : string)         (* inside true, false, null *)
  | After                                   (* a comma or the closing brace *)
  | Next                                    (* after a comma: a key *)
  | Done.

Definition digit (c : ascii) : option Z :=
  let n := Ascii.N_of_ascii c in
  if ((48 <=? n) && (n <=? 57))%N then Some (Z.of_N n - 48) else None.
Definition is_letter (c : ascii) : bool :=
  let n := Ascii.N_of_ascii c in ((97 <=? n) && (n <=? 122))%N.
Definition printable (c : ascii) : bool := (32 <=? Ascii.N_of_ascii c)%N.

Definition after (o : gmap string JSValue) (c : ascii)
    : option (state * gmap string JSValue) :=
  if Ascii.is_space c then Some (After, o)
  else if Ascii.eqb c ","%char then Some (Next, o)
  else if Ascii.eqb c "}"%char then Some (Done, o)
  else None.

Definition literal (s : string) : option JSValue :=
  if String.eqb s "true" then Some (JSBool true)
  else if String.eqb s "false" then Some (JSBool false)
  else if String.eqb s "null" then Some JSNull
  else None.

Definition step (st : state) (o : gmap string JSValue) (c : ascii)
    : option (state * gmap string JSValue) :=
  match st with
  | Start =>
      if Ascii.is_space c then Some (Start, o)
      else if Ascii.eqb c "{"%char then Some (Open, o) else None
  | Open =>
      if Ascii.is_space c then Some (Open, o)
      else if Ascii.eqb c "}"%char then Some (Done, o)
      else if Ascii.eqb c "034"%char then Some (Key "", o) else None
  | Next =>
      if Ascii.is_space c then Some (Next, o)
      else if Ascii.eqb c "034"%char then Some (Key "", o) else None
  | Key acc =>
      if Ascii.eqb c "034"%char then Some (Colon (String.rev acc), o)
      else if Ascii.eqb c "092"%char || negb (printable c) then None
      else Some (Key (String c acc), o)
  | Colon k =>
      if Ascii.is_space c then Some (Colon k, o)
      else if Ascii.eqb c ":"%char then Some (Value k, o) else None
  | Value k =>
      if Ascii.is_space c then Some (Value k, o)
      else if Ascii.eqb c "034"%char then Some (Str k "", o)
      else if Ascii.eqb c "-"%char then Some (Num k true None, o)
      else if is_letter c then Some (Lit k (String c ""), o)
      else match digit c with
           | Some d => Some (Num k false (Some d), o)
           | None => None
           end
  | Str k acc =>
      if Ascii.eqb c "034"%char then Some (After, <[k := JSString (String.rev acc)]> o)
      else if Ascii.eqb c "092"%char || negb (printable c) then None
      else Some (Str k (String c acc), o)
  | Num k neg n =>
      match digit c, n with
      | Some d, None => Some (Num k neg (Some d), o)
      | Some d, Some m => if (m =? 0)%Z then None else Some (Num k neg (Some (10 * m + d)), o)
      | None, Some m => after (<[k := JSNumber (if neg then - m else m)]> o) c
      | None, None => None
      end
  | Lit k acc =>
      if is_letter c then Some (Lit k (String c acc), o)
      else match literal (String.rev acc) with
           | Some v => after (<[k := v]> o) c
           | None => None
           end
  | After => after o c
  | Done => if Ascii.is_space c then Some (Done, o) else None
  end.

Fixpoint run (st : state) (o : gmap string JSValue) (s : string)
    : option (gmap string JSValue) :=
  match s with
  | "" => match st with Done => Some o | _ => None end
  | String c rest =>
      match step st o c with
      | Some (st', o') => run st' o' rest
      | None => None
      end
  end.

Definition parse_flat (s : string) : option (gmap string JSValue) := run Start ∅ s.

End JSON.

(** ** Predicates of the statements *)

(** No row of [ai_models] is flagged as default. *)
Definition no_default (t : gmap string AIModel) : Prop :=
  forall i m, t !! i = Some m -> is_default m = false.

(** At most one row of [ai_models] is flagged as default. *)
Definition at_most_one_default (t : gmap string AIModel) : Prop :=
  forall i j mi mj, t !! i = Some mi -> t !! j = Some mj ->
    is_default mi = true -> is_default mj = true -> i = j.

(** The coming persistence call answers without error. *)
Definition next_db_ok (w : World) : bool :=
  match db_script w with
  | [] | DbOk :: _ => true
  | _ => false
  end.

(** [t] occurs in [s]. *)
Definition contains (t s : string) : Prop :=
  exists pre post, s = pre +:+ t +:+ post.

(** The usable cached key of [FirecrawlService]: a cached empty string is
    falsy and counts as no key. *)
Definition cached (w : World) : option string :=
  match cachedApiKey w with
  | Some k => if JS.truthy k then Some k else None
  | None => None
  end.

(** The lookup of [getApiKey] gives no key: the persistence call fails, or the
    table has no row, or its newest row holds an empty key. *)
Definition lookup_finds_no_key (w : World) : Prop :=
  next_db_ok w = false \/
  forall data, FirecrawlService.latest (firecrawl_api_keys w) = Some data ->
               key_value data = "".

(** The two awaited completion calls of [analyzeWithAI]. *)
Definition metadata_call (markdown : string) : M string :=
  AIService.generateCompletion
    (PDFProcessingService.initialPrompt (JS.slice0 3000 markdown)) None None None.
Definition content_call (markdown : string) : M string :=
  AIService.generateCompletion
    (PDFProcessingService.contentPrompt (JS.slice0 6000 markdown)) None None None.

(** Field [k] is in neither decoded response. *)
Definition unanswered (k : string) (metadata content : gmap string JSValue) : Prop :=
  metadata !! k = None /\ content !! k = None.

(** What the services never write while they await a provider: the upload
    tables and the clock's year. *)
Definition frame (w w' : World) : Prop :=
  pdf_uploads w' = pdf_uploads w /\ batch_pdfs w' = batch_pdfs w /\
  full_year w' = full_year w.

(** The item of a document that failed: status [error] and a message. *)
Definition failed (item : UploadedFile.t) : Prop :=
  UploadedFile.processingStatus item = Some ProcessingStatus.error /\
  is_Some (UploadedFile.error item).

(** How the loop leaves a document [f]: failed, or processed with status
    [success], its record in [pdf_uploads] and its link in [batch_pdfs]. [w] is
    the world the batch started in, [w'] the world it ended in. *)
Definition settled (NFKD : string -> string) (batchId : string)
    (f item : UploadedFile.t) (w w' : World) : Prop :=
  failed item \/
  (UploadedFile.processingStatus item = Some ProcessingStatus.success
   /\ UploadedFile.error item = UploadedFile.error f
   /\ exists pdfId,
        PDFUploadView.pdf_record NFKD pdfId f item (full_year w) ∈ pdf_uploads w'
        /\ (batchId, pdfId) ∈ batch_pdfs w').

(** The text holds code units below 128 only. *)
Definition ascii_text (s : string) : bool :=
  forallb (fun c => (Ascii.N_of_ascii c <? 128)%N) (String.list_ascii_of_string s).

(** The text [processPDF] works on: the bytes read and the text extracted from
    them, or the error of the first of the two steps that fails. *)
Definition extracted_text (file : File.t) : Result string :=
  match File.arrayBuffer file with
  | Ok buffer => PDFProcessingService.extractTextFromPDF buffer
  | Throw e => Throw e
  end.

(** What the structured responses of a run of [analyzeWithAI] answer: the
    members of the two decoded objects; nothing when a completion call raises,
    since no response is decoded then. *)
Definition decoded (JSON_parse : string -> option (gmap string JSValue))
    (markdown : string) (w : World) : gmap string JSValue :=
  match metadata_call markdown w with
  | (Ok r1, w1) =>
      match content_call markdown w1 with
      | (Ok r2, _) =>
          JSObject.spread (PDFProcessingService.parse_partial JSON_parse r1)
            (PDFProcessingService.parse_partial JSON_parse r2)
      | (Throw _, _) => ∅
      end
  | (Throw _, _) => ∅
  end.

(** The lookup of [generateCompletion] is answered and gives the configuration
    [m]: the row of the id passed, or the single row flagged as default. *)
Definition resolves (modelId : option string) (w : World) (m : AIModel) : Prop :=
  next_db_ok w = true /\
  match modelId with
  | Some id =>
      if JS.truthy id then ai_models w !! id = Some m
      else Supabase.select_defaults (ai_models w) = [m]
  | None => Supabase.select_defaults (ai_models w) = [m]
  end.

(** The persistence layer refuses none of the coming calls. *)
Definition no_refusal (w : World) : Prop :=
  Forall (fun o => o = DbOk) (db_script w).

(** Row [id] is flagged as default. *)
Definition default_at (t : gmap string AIModel) (id : string) : Prop :=
  exists m, t !! id = Some m /\ is_default m = true.

(** Row [id] is flagged as default and no other row is. *)
Definition sole_default (id : string) (t : gmap string AIModel) : Prop :=
  default_at t id /\
  forall j m, t !! j = Some m -> is_default m = true -> j = id.

(** The endpoint an implemented provider is called at when the configuration
    gives no [base_url]. *)
Definition default_base (m : AIModel) : string :=
  if String.eqb (provider m) "siliconflow" then "https://api.siliconflow.cn/v1"
  else "https://openrouter.ai/api/v1".

(** The line mentions one of the section keywords of [convertTextToMarkdown]. *)
Definition mentions_section (line : string) : bool :=
  let lowerLine := JS.toLowerCase line in
  JS.includes "abstract" lowerLine || JS.includes "introduction" lowerLine
  || PDFProcessingService.matches_method lowerLine || JS.includes "result" lowerLine
  || JS.includes "discussion" lowerLine || JS.includes "conclusion" lowerLine.

(** The rows of [firecrawl_api_keys] after a write of [saveApiKey] that is
    carried out: the first row updated, or a row inserted into the empty
    table. *)
Definition saved_rows (apiKey : string) (w : World) : list ApiKeyRow :=
  match firecrawl_api_keys w with
  | [] => [{| key_value := apiKey; key_created_at := now_ms w |}]
  | rows => FirecrawlService.set_first_key apiKey rows
  end.

(** The records [handleSubmit] of the chat passes to [generateCompletion]:
    its own list when it has one, else the list of its caller; [None] is
    [undefined]. *)
Definition papers_passed (papers localPapers : list PaperData.t)
    : option (list PaperData.t) :=
  match match localPapers with [] => papers | _ => localPapers end with
  | [] => None
  | ps => Some ps
  end.

(** ** Concrete runs *)

Module Examples.

Definition siliconflow_model : AIModel :=
  {| name := "SiliconFlow"; provider := "siliconflow"; api_key := "sk-test";
     base_url := None; model_name := "deepseek-ai/DeepSeek-V3";
     is_default := true; created_at := "2025-01-01T00:00:00.000Z";
     updated_at := "2025-01-01T00:00:00.000Z" |}.

(** One default model, empty tables, no scripted failure. *)
Definition world0 : World :=
  {| ai_models := {["m1" := siliconflow_model]};
     firecrawl_api_keys := [];
     pdf_uploads := []; batch_pdfs := []; pdfs_bucket := [];
     db_script := []; http_script := []; http_log := [];
     cachedApiKey := None;
     now_ms := 1735689600000; now_iso := "2025-01-01T00:00:00.000Z";
     full_year := 2025 |}.

(** A successful provider response with one choice. *)
Definition answer (content : string) : HttpOutcome :=
  Response true 200 (Ok {| error_message := None; choices := [content] |}).

(** The input of the markdown example of the specification. *)
Definition spec_text : string :=
  "My Title" +:+ JS.nl +:+ "Some intro" +:+ JS.nl +:+ "Abstract" +:+ JS.nl +:+
  "This is the abstract text".

(** A one-page scan: the page loads and has no text item. *)
Definition blank_file : File.t :=
  {| File.name := "scan.pdf"; File.size := 1000;
     File.arrayBuffer := Ok (Pages [PageText []]) |}.

(** A table in which two rows are flagged as default. *)
Definition two_defaults : World :=
  with_ai_models (<["m2" := siliconflow_model]> (ai_models world0)) world0.

(** No configuration at all. *)
Definition no_models : World := with_ai_models ∅ world0.

Definition graph_paper : PaperData.t :=
  {| PaperData.name := "Graph Theory"; PaperData.author := "A. Author";
     PaperData.year := Some 2019; PaperData.abstract := Some "On graphs.";
     PaperData.doi := None |}.
Definition number_paper : PaperData.t :=
  {| PaperData.name := "Number Theory"; PaperData.author := "";
     PaperData.year := None; PaperData.abstract := None;
     PaperData.doi := Some "10.1000/nt" |}.
Definition set_paper : PaperData.t :=
  {| PaperData.name := "Set Theory"; PaperData.author := "C. Author";
     PaperData.year := Some 2021; PaperData.abstract := None;
     PaperData.doi := None |}.
Definition three_papers : list PaperData.t := [graph_paper; number_paper; set_paper].

(** A structured response that answers the [doi] only. *)
Definition doi_only : string :=
  "{" +:+ JS.dq +:+ "doi" +:+ JS.dq +:+ ": " +:+ JS.dq +:+ "10.1000/xyz" +:+ JS.dq +:+ "}".

Definition text_file (name : string) (items : list string) : File.t :=
  {| File.name := name; File.size := 1000;
     File.arrayBuffer := Ok (Pages [PageText items]) |}.
(** A document without a page: the text extraction fails. *)
Definition empty_file (name : string) : File.t :=
  {| File.name := name; File.size := 1000; File.arrayBuffer := Ok (Pages []) |}.
(** A file as [onDrop] adds it to the view. *)
Definition dropped (id : string) (file : File.t) : UploadedFile.t :=
  {| UploadedFile.file := file; UploadedFile.id := id; UploadedFile.uploading := false;
     UploadedFile.processingStatus := Some ProcessingStatus.pending;
     UploadedFile.processingProgress := Some 0;
     UploadedFile.extractedData := None; UploadedFile.error := None;
     UploadedFile.success := Some false |}.

(** The batch of the specification: three files, the second without text. *)
Definition three_files : list UploadedFile.t :=
  [ dropped "f1" (text_file "one.pdf" ["Graph Theory"; "by A. Author"]);
    dropped "f2" (empty_file "two.pdf");
    dropped "f3" (text_file "three.pdf" ["Number Theory"]) ].
Definition batch_world : World :=
  with_http [answer doi_only; answer "{}"; answer "not json"; answer "{}"] [] world0.

Definition paper_pdf : UploadedFile.t :=
  dropped "f1" (text_file "paper.pdf" ["Graph Theory"]).
Definition paper_world : World := with_http [answer doi_only; answer "{}"] [] world0.

(** The texts of the runs evaluated below are ASCII texts, which the
    normalisation leaves as they are. *)
Definition NFKD (s : string) : string := s.

(** Two more configurations, neither flagged as default. *)
Definition openrouter_model : AIModel :=
  {| name := "OpenRouter"; provider := "openrouter"; api_key := "sk-or";
     base_url := Some "https://proxy.example/v1"; model_name := "mistral-7b";
     is_default := false; created_at := "2025-02-01T00:00:00.000Z";
     updated_at := "2025-02-01T00:00:00.000Z" |}.
Definition openai_model : AIModel :=
  {| name := "GPT"; provider := "openai"; api_key := "sk-oa";
     base_url := None; model_name := "gpt-4o";
     is_default := false; created_at := "2025-03-01T00:00:00.000Z";
     updated_at := "2025-03-01T00:00:00.000Z" |}.
(** The default model [m1] and the two others, [m2] and [m3]. *)
Definition three_models : World :=
  with_ai_models
    (<["m3" := openai_model]> (<["m2" := openrouter_model]> (ai_models world0))) world0.

(** What the settings form submits. *)
Definition plain_input : AIModelInput.t :=
  {| AIModelInput.name := "Mistral"; AIModelInput.provider := "openrouter";
     AIModelInput.api_key := "sk-or"; AIModelInput.base_url := None;
     AIModelInput.model_name := "mistral-7b" |}.
Definition default_input : AIModelInput.t :=
  {| AIModelInput.name := "My Default model"; AIModelInput.provider := "openrouter";
     AIModelInput.api_key := "sk-or"; AIModelInput.base_url := None;
     AIModelInput.model_name := "mistral-7b" |}.
Definition rename : AIModelUpdateInput.t :=
  {| AIModelUpdateInput.name := Some "Renamed"; AIModelUpdateInput.provider := None;
     AIModelUpdateInput.api_key := None; AIModelUpdateInput.base_url := None;
     AIModelUpdateInput.model_name := None |}.

(** Two stored keys; the first row of the table is the older one. *)
Definition two_keys : World :=
  with_firecrawl_api_keys
    [{| key_value := "fc-old"; key_created_at := 1 |};
     {| key_value := "fc-new"; key_created_at := 2 |}] world0.

End Examples.

Local Arguments PDFUploadView.processPDF : simpl never.
Local Arguments PDFUploadView.awaited_write : simpl never.
Local Arguments PDFProcessingService.finalize : simpl never.
Local Arguments JSObject.get : simpl never.
Local Arguments JSObject.spread : simpl never.
Local Arguments PDFUploadView.sanitizeText : simpl never.

(** ** Proof steps *)

(** Unfold one iteration of the batch loop on an explicit loop state, up to
    the awaited calls; read back the array cell written last. *)
Ltac run_iteration :=
  unfold PDFUploadView.iteration, bind, try_catch,
    PDFUploadView.lift, PDFUploadView.write, PDFUploadView.read; simpl.
Ltac read_back :=
  rewrite list_lookup_insert_eq by (rewrite ?length_insert; done); simpl.

Local Close Scope Z_scope.

(** * Properties *)

(** ** Markdown structuring *)

(** A line that mentions the keyword becomes the heading, wherever it stands
    and whatever else it says. *)
Lemma emit_abstract (i : nat) (line : string) :
  JS.includes "abstract" (JS.toLowerCase line) = true ->
  PDFProcessingService.emit i line = JS.nl +:+ "## Abstract" +:+ JS.nl +:+ JS.nl.
Proof. intros H. unfold PDFProcessingService.emit. by rewrite H. Qed.

(** C2, as the code has it: on the input of the specification the function
    emits the heading [# My Title], the body line [Some intro], and the heading
    [## Abstract] twice, once for the line [Abstract] and once for the line
    [This is the abstract text], whose lower-cased form contains the keyword;
    neither of the two lines is emitted as body text. *)
Theorem convertTextToMarkdown_spec_example :
  PDFProcessingService.convertTextToMarkdown Examples.spec_text =
  JS.join JS.nl
    ["# My Title"; ""; "Some intro"; ""; "## Abstract"; ""; ""; "## Abstract"; ""; ""].
Proof. vm_compute. reflexivity. Qed.

(** C2 as stated fails: the text of the fourth line occurs nowhere in the
    output, so it is not emitted as a body line. *)
Lemma convertTextToMarkdown_drops_abstract_text :
  JS.includes "This is the abstract text"
    (PDFProcessingService.convertTextToMarkdown Examples.spec_text) = false.
Proof. vm_compute. reflexivity. Qed.

(** ** Text extraction *)

Lemma truthy_append (a b : string) :
  JS.truthy (a +:+ b) = JS.truthy a || JS.truthy b.
Proof. by destruct a, b. Qed.

Lemma add_pages_truthy (acc : string) (pages : list PdfPage) :
  JS.truthy acc = true ->
  JS.truthy (foldl PDFProcessingService.add_page acc pages) = true.
Proof.
  revert acc. induction pages as [|[items|e] pages IH]; intros acc H; simpl; auto.
  apply IH. by rewrite truthy_append, H.
Qed.

Lemma add_pages_read (acc : string) (pages : list PdfPage) (items : list string) :
  PageText items ∈ pages ->
  JS.truthy (foldl PDFProcessingService.add_page acc pages) = true.
Proof.
  revert acc. induction pages as [|p pages IH]; intros acc H;
    [by apply elem_of_nil in H|].
  apply elem_of_cons in H as [<-|H]; simpl.
  - apply add_pages_truthy. rewrite !truthy_append. simpl.
    by rewrite !orb_true_r.
  - by apply IH.
Qed.

(** As soon as one page gives its text content, be it without any item, the
    extraction returns: the emptiness test reads the text before it is
    trimmed, and every page read has added its two line feeds. *)
Lemma extractTextFromPDF_page_read (pages : list PdfPage) (items : list string) :
  PageText items ∈ pages ->
  PDFProcessingService.extractTextFromPDF (Pages pages)
  = Ok (JS.trim (PDFProcessingService.page_loop pages)).
Proof.
  intros H. unfold PDFProcessingService.extractTextFromPDF,
    PDFProcessingService.page_loop.
  by rewrite (add_pages_read "" pages items H).
Qed.

(** The error is raised when no page could be read at all. *)
Lemma extractTextFromPDF_no_page_read (pages : list PdfPage) :
  Forall (fun p => exists e, p = PageFails e) pages ->
  PDFProcessingService.extractTextFromPDF (Pages pages)
  = Throw (PDFProcessingService.extraction_failed PDFProcessingService.NoTextContent).
Proof.
  intros H. unfold PDFProcessingService.extractTextFromPDF.
  assert (E : PDFProcessingService.page_loop pages = "").
  { unfold PDFProcessingService.page_loop.
    induction H as [|p pages [e ->] _ IH]; [done|]. simpl. exact IH. }
  by rewrite E.
Qed.

(** C9, the code at the failing input: for a document whose only page loads and
    has no text item, [extractTextFromPDF] returns the empty string instead of
    raising [NoTextContent], and [processPDF] goes on: it sends both completion
    prompts, with an empty text, and returns a record. *)
Theorem extractTextFromPDF_blank_page :
  PDFProcessingService.extractTextFromPDF (Pages [PageText []]) = Ok "" /\
  (PDFProcessingService.processPDF JSON.parse_flat Examples.blank_file
     (with_http [Examples.answer "{}"; Examples.answer "{}"] [] Examples.world0)).1
  = Ok (<["title" := JSString "scan"]>
          (<["authors" := JSString "Unknown"]>
             (<["year" := JSNumber 2025]> (<["full_text" := JSString ""]> ∅)))) /\
  messages <$>
    http_log
      (PDFProcessingService.processPDF JSON.parse_flat Examples.blank_file
         (with_http [Examples.answer "{}"; Examples.answer "{}"] [] Examples.world0)).2
  = [[("user", PDFProcessingService.initialPrompt "")];
     [("user", PDFProcessingService.contentPrompt "")]].
Proof. repeat split; vm_compute; reflexivity. Qed.

(** ** The Firecrawl API key *)

Lemma truthy_nonempty (k : string) : JS.truthy k = true -> k <> "".
Proof. by destruct k. Qed.
Lemma nonempty_truthy (k : string) : k <> "" -> JS.truthy k = true.
Proof. by destruct k. Qed.

Lemma lookup_returns (w : World) :
  exists r w', FirecrawlService.lookup w = (Ok r, w')
    /\ (forall k, r = Some k -> k <> "")
    /\ (lookup_finds_no_key w ->
        default FirecrawlService.DEFAULT_API_KEY r = FirecrawlService.DEFAULT_API_KEY).
Proof.
  unfold lookup_finds_no_key, next_db_ok, FirecrawlService.lookup, try_catch, bind, db_call.
  destruct (db_script w) as [|[| e | e] rest] eqn:S; simpl.
  1,2: destruct (FirecrawlService.latest (firecrawl_api_keys w)) as [data|] eqn:L; simpl;
       [destruct (JS.truthy (key_value data)) eqn:T|].
  all: eexists _, _; split; [reflexivity|]; split.
  all: try (intros k [= <-]; auto using truthy_nonempty; done).
  all: try done.
  all: intros [?|H]; try done; rewrite (H _ eq_refl) in T; done.
Qed.

(** C10: [getApiKey] always returns, and never the empty string; it returns
    the cached key when one is cached; without a cached key, when the lookup
    fails or finds no key, it returns the built-in default key. *)
Theorem getApiKey_total (w : World) :
  (exists k, (FirecrawlService.getApiKey w).1 = Ok k /\ k <> "") /\
  (forall c, cachedApiKey w = Some c -> c <> "" ->
             FirecrawlService.getApiKey w = (Ok c, w)) /\
  (cached w = None -> lookup_finds_no_key w ->
   (FirecrawlService.getApiKey w).1 = Ok FirecrawlService.DEFAULT_API_KEY).
Proof.
  destruct (lookup_returns w) as (r & w' & E & Hr & Hd).
  assert (D : default FirecrawlService.DEFAULT_API_KEY r <> "").
  { destruct r; simpl; [by apply Hr | done]. }
  unfold cached, FirecrawlService.getApiKey, bind.
  destruct (cachedApiKey w) as [c|]; [destruct (JS.truthy c) eqn:T|];
    rewrite ?E; simpl; repeat split.
  all: try (eexists; split; [reflexivity|]; auto using truthy_nonempty; done).
  all: try (intros c' [= <-] N; try done; rewrite (nonempty_truthy _ N) in T; done).
  all: try done.
  all: intros _ H; f_equal; auto.
Qed.

(** With a cached key the call returns it; with nothing cached and a failing
    lookup it returns the default key. *)
Lemma getApiKey_total_witness :
  FirecrawlService.getApiKey (with_cachedApiKey (Some "fc-user") Examples.world0)
  = (Ok "fc-user", with_cachedApiKey (Some "fc-user") Examples.world0) /\
  (FirecrawlService.getApiKey
     (with_db_script [DbError "connection refused"] Examples.world0)).1
  = Ok FirecrawlService.DEFAULT_API_KEY.
Proof.
  split.
  - apply (getApiKey_total (with_cachedApiKey (Some "fc-user") Examples.world0));
      [reflexivity | discriminate].
  - apply (getApiKey_total (with_db_script [DbError "connection refused"] Examples.world0));
      [reflexivity | left; reflexivity].
Defined.

(** ** Model configurations *)

Lemma select_defaults_none (t : gmap string AIModel) :
  no_default t -> Supabase.select_defaults t = [].
Proof.
  intros H. unfold Supabase.select_defaults.
  assert (E : filter (fun kv : string * AIModel => is_default kv.2 = true) t = ∅).
  { apply map_empty. intros i.
    destruct (filter _ t !! i) as [m|] eqn:L; [|done].
    apply map_lookup_filter_Some in L as [L D]. simpl in D.
    rewrite (H _ _ L) in D. discriminate. }
  rewrite E, map_to_list_empty. reflexivity.
Qed.

Lemma getDefaultModel_none (w : World) :
  no_default (ai_models w) ->
  exists w', AIService.getDefaultModel w = (Ok None, w')
    /\ http_log w' = http_log w /\ http_script w' = http_script w.
Proof.
  intros H. unfold AIService.getDefaultModel, try_catch, bind, db_call.
  destruct (db_script w) as [|[| e | e] rest] eqn:S; simpl;
    rewrite ?select_defaults_none by done; eauto.
Qed.

(** C5: without an explicit model id and without a configuration flagged as
    default, [generateCompletion] throws the no-model error, whatever the
    prompt, the context and the records, and no request goes out: the log of
    fetches and the provider's pending answers are as before the call. *)
Theorem generateCompletion_no_default
    (prompt : string) (context : option string)
    (papers : option (list PaperData.t)) (w : World) :
  no_default (ai_models w) ->
  exists w', AIService.generateCompletion prompt None context papers w
             = (Throw AIService.NoModelConfigured, w')
    /\ http_log w' = http_log w /\ http_script w' = http_script w.
Proof.
  intros H.
  destruct (getDefaultModel_none w H) as (w' & E & L & S).
  exists w'. split; [|done].
  unfold AIService.generateCompletion, try_catch, bind. by rewrite E.
Qed.

(** No configuration at all: the call throws and nothing is fetched. *)
Lemma generateCompletion_no_default_witness :
  exists w', AIService.generateCompletion "Summarise." None None None Examples.no_models
             = (Throw AIService.NoModelConfigured, w')
    /\ http_log w' = http_log Examples.no_models
    /\ http_script w' = http_script Examples.no_models.
Proof.
  apply (generateCompletion_no_default "Summarise." None None Examples.no_models).
  intros i m H. simpl in H. rewrite lookup_empty in H. discriminate.
Defined.

(** The same holds when the id passed is the empty string, which is falsy. *)
Lemma generateCompletion_empty_id
    (prompt : string) (context : option string)
    (papers : option (list PaperData.t)) (w : World) :
  no_default (ai_models w) ->
  exists w', AIService.generateCompletion prompt (Some "") context papers w
             = (Throw AIService.NoModelConfigured, w')
    /\ http_log w' = http_log w /\ http_script w' = http_script w.
Proof.
  intros H.
  destruct (getDefaultModel_none w H) as (w' & E & L & S).
  exists w'. split; [|done].
  unfold AIService.generateCompletion, try_catch, bind. simpl. by rewrite E.
Qed.

Lemma clear_no_default (now : string) (t : gmap string AIModel) :
  no_default (Supabase.update_clear_defaults now t).
Proof.
  intros i m. unfold Supabase.update_clear_defaults. rewrite lookup_fmap.
  destruct (t !! i) as [m0|]; simpl; [|done].
  intros [= <-]. destruct (is_default m0) eqn:D; simpl; done.
Qed.

Lemma no_default_at_most_one (t : gmap string AIModel) :
  no_default t -> at_most_one_default t.
Proof. intros H i j mi mj Li _ Di _. rewrite (H _ _ Li) in Di. discriminate. Qed.

(** The write that flags a row keeps the invariant: the row trigger clears
    every other row. *)
Lemma set_default_at_most_one (id now : string) (t : gmap string AIModel) :
  at_most_one_default t -> at_most_one_default (Supabase.update_set_default id now t).
Proof.
  intros H. unfold Supabase.update_set_default.
  destruct (t !! id) as [m|] eqn:L; [|done].
  intros i j mi mj Li Lj Di Dj.
  destruct (decide (i = id)) as [->|Ni], (decide (j = id)) as [->|Nj]; [done|..].
  - rewrite lookup_insert_ne, lookup_fmap in Lj by done.
    destruct (t !! j); simplify_eq/=.
  - rewrite lookup_insert_ne, lookup_fmap in Li by done.
    destruct (t !! i); simplify_eq/=.
  - rewrite lookup_insert_ne, lookup_fmap in Li by done.
    destruct (t !! i); simplify_eq/=.
Qed.

(** C4: after a call of [setAsDefault], at most one configuration is flagged as
    default, for every prior table (also one with several defaults) and every
    id. The call is one whose clearing write the persistence layer carries out;
    the answer to the second write is free. *)
Theorem setAsDefault_at_most_one_default (id : string) (w : World) :
  next_db_ok w = true ->
  at_most_one_default (ai_models (AIService.setAsDefault id w).2).
Proof.
  unfold next_db_ok, AIService.setAsDefault, AIService.clearDefaultModels,
    try_catch, bind, db_call.
  destruct (db_script w) as [|[| e | e] [|[| e' | e'] rest]] eqn:S; simpl;
    rewrite ?S; simpl; intros H; try discriminate;
    auto using set_default_at_most_one, no_default_at_most_one, clear_no_default.
Qed.

(** From a table with two defaults, with no write refused. *)
Lemma setAsDefault_at_most_one_default_witness :
  next_db_ok Examples.two_defaults = true /\
  at_most_one_default (ai_models (AIService.setAsDefault "m2" Examples.two_defaults).2).
Proof.
  split; [reflexivity|].
  apply (setAsDefault_at_most_one_default "m2" Examples.two_defaults).
  reflexivity.
Defined.

(** When the persistence layer refuses a write, [clearDefaultModels] and
    [setAsDefault] swallow the error; the call still keeps the invariant of a
    table that had it, whatever is refused: a second write that is carried out
    fires the row trigger of the table. *)
Lemma setAsDefault_keeps_invariant (id : string) (w : World) :
  at_most_one_default (ai_models w) ->
  at_most_one_default (ai_models (AIService.setAsDefault id w).2).
Proof.
  unfold AIService.setAsDefault, AIService.clearDefaultModels,
    try_catch, bind, db_call.
  destruct (db_script w) as [|[| e | e] [|[| e' | e'] rest]] eqn:S; simpl;
    rewrite ?S; simpl; intros H;
    auto using set_default_at_most_one, no_default_at_most_one, clear_no_default.
Qed.

(** From the table with two defaults: only the row asked for is flagged
    afterwards. *)
Example setAsDefault_two_defaults :
  is_default <$> ai_models Examples.two_defaults
  = <["m2" := true]> {["m1" := true]} /\
  is_default <$> ai_models (AIService.setAsDefault "m2" Examples.two_defaults).2
  = <["m2" := true]> {["m1" := false]}.
Proof. split; vm_compute; reflexivity. Qed.

(** ** Prompt augmentation *)

Lemma append_assoc (a b c : string) : (a +:+ b) +:+ c = a +:+ b +:+ c.
Proof.
  induction a as [|x a IH]; [done|]. unfold String.app in *. simpl. by rewrite IH.
Qed.
Lemma append_nil_r (a : string) : a +:+ "" = a.
Proof.
  induction a as [|x a IH]; [done|]. unfold String.app in *. simpl. by rewrite IH.
Qed.

Lemma contains_refl (t : string) : contains t t.
Proof. exists "", "". by rewrite append_nil_r. Qed.
Lemma contains_app_l (t a b : string) : contains t a -> contains t (a +:+ b).
Proof. intros (pre & post & ->). exists pre, (post +:+ b). by rewrite !append_assoc. Qed.
Lemma contains_app_r (t a b : string) : contains t b -> contains t (a +:+ b).
Proof. intros (pre & post & ->). exists (a +:+ pre), post. by rewrite !append_assoc. Qed.

Lemma contains_join (t sep x : string) (l : list string) :
  x ∈ l -> contains t x -> contains t (JS.join sep l).
Proof.
  intros Hx Ht. induction l as [|y l IH]; [by apply elem_of_nil in Hx|].
  apply elem_of_cons in Hx as [->|Hx].
  - destruct l; simpl; [done|]. by apply contains_app_l.
  - destruct l as [|z l]; [by apply elem_of_nil in Hx|].
    change (JS.join sep (y :: z :: l)) with (y +:+ sep +:+ JS.join sep (z :: l)).
    by apply contains_app_r, contains_app_r, IH.
Qed.

Lemma paper_entry_title (i : nat) (paper : PaperData.t) :
  contains ("Title: " +:+ PaperData.name paper) (AIService.paper_entry i paper).
Proof.
  unfold AIService.paper_entry.
  do 5 apply contains_app_r.
  rewrite <- append_assoc. apply contains_app_l, contains_refl.
Qed.

Lemma listing_titles (papers : list PaperData.t) (paper : PaperData.t) :
  paper ∈ papers ->
  contains ("Title: " +:+ PaperData.name paper)
    (JS.join JS.nl (AIService.paper_entries papers)).
Proof.
  intros H. apply list_elem_of_lookup in H as [i Hi].
  eapply contains_join; [|apply (paper_entry_title i)].
  unfold AIService.paper_entries. by apply elem_of_lookup_imap_2.
Qed.

Lemma footer_instruction :
  contains AIService.insufficient_instruction AIService.papers_footer.
Proof. unfold AIService.papers_footer. do 3 apply contains_app_r. apply contains_refl. Qed.

(** *** What [generateCompletion] sends *)

Lemma chat_completion_log (base : string) (m : AIModel) (p : string) (w : World) :
  http_log (AIService.chat_completion base m p w).2
  = http_log w ++ [AIService.chat_request base m p].
Proof.
  unfold AIService.chat_completion, try_catch, bind, fetch.
  destruct (http_script w) as [|[e|[] st [b|e]] rest]; simpl; try done.
  destruct (choices b); done.
Qed.

Lemma dispatch_log (m : AIModel) (p : string) (w : World) :
  http_log (AIService.dispatch m p w).2 = http_log w \/
  exists req, http_log (AIService.dispatch m p w).2 = http_log w ++ [req]
              /\ messages req = [("user", p)].
Proof.
  unfold AIService.dispatch, AIService.generateSiliconFlowCompletion,
    AIService.generateOpenRouterCompletion.
  repeat case_match; try (left; reflexivity);
    right; eexists; (split; [apply chat_completion_log|reflexivity]).
Qed.

Lemma getDefaultModel_log (w : World) :
  http_log (AIService.getDefaultModel w).2 = http_log w.
Proof.
  unfold AIService.getDefaultModel, try_catch, bind, db_call.
  destruct (db_script w) as [|[| e | e] rest]; simpl; try done;
    destruct (Supabase.select_defaults _) as [|? [|]]; done.
Qed.
Lemma getModelById_log (id : string) (w : World) :
  http_log (AIService.getModelById id w).2 = http_log w.
Proof.
  unfold AIService.getModelById, try_catch, bind, db_call.
  destruct (db_script w) as [|[| e | e] rest]; done.
Qed.

(** A call sends nothing, or one request whose single user turn is the
    augmented prompt. *)
Lemma generateCompletion_log
    (prompt : string) (modelId context : option string)
    (papers : option (list PaperData.t)) (w : World) :
  http_log (AIService.generateCompletion prompt modelId context papers w).2 = http_log w \/
  exists req,
    http_log (AIService.generateCompletion prompt modelId context papers w).2
    = http_log w ++ [req]
    /\ messages req = [("user", AIService.promptContent prompt context papers)].
Proof.
  unfold AIService.generateCompletion, try_catch, bind.
  set (resolve := match modelId with
                  | Some id => if JS.truthy id then AIService.getModelById id
                               else AIService.getDefaultModel
                  | None => AIService.getDefaultModel
                  end).
  assert (L : http_log (resolve w).2 = http_log w).
  { subst resolve. destruct modelId as [id|]; [destruct (JS.truthy id)|];
      auto using getDefaultModel_log, getModelById_log. }
  destruct (resolve w) as [[[m|]|e] w1]; simpl in *; auto.
  destruct (dispatch_log m (AIService.promptContent prompt context papers) w1)
    as [E|(req & E & Hm)]; rewrite <- L.
  - left. destruct (AIService.dispatch m _ w1) as [[]]; done.
  - right. exists req. destruct (AIService.dispatch m _ w1) as [[]]; done.
Qed.

Lemma dispatch_implemented (m : AIModel) (p : string) :
  provider m = "siliconflow" \/ provider m = "openrouter" ->
  AIService.dispatch m p = AIService.chat_completion (default_base m) m p.
Proof.
  unfold AIService.dispatch, default_base. intros [-> | ->]; reflexivity.
Qed.

(** A lookup that is answered, and finds the configuration, sends nothing. *)
Lemma resolves_lookup (modelId : option string) (w : World) (m : AIModel) :
  resolves modelId w m ->
  exists w0,
    match modelId with
    | Some id => if JS.truthy id then AIService.getModelById id
                 else AIService.getDefaultModel
    | None => AIService.getDefaultModel
    end w = (Ok (Some m), w0)
    /\ http_log w0 = http_log w.
Proof.
  intros [Hn Hr]. unfold next_db_ok in Hn.
  unfold AIService.getModelById, AIService.getDefaultModel, try_catch, bind, db_call.
  destruct modelId as [id|]; [destruct (JS.truthy id)|];
    destruct (db_script w) as [|[|e|e] rest]; try done; simpl; rewrite Hr; by eexists.
Qed.

(** With a siliconflow or openrouter configuration resolved, the call sends
    exactly one request, the one its builder makes of the augmented prompt. *)
Lemma generateCompletion_resolved_log
    (prompt : string) (modelId context : option string)
    (papers : option (list PaperData.t)) (w : World) (m : AIModel) :
  resolves modelId w m ->
  provider m = "siliconflow" \/ provider m = "openrouter" ->
  http_log (AIService.generateCompletion prompt modelId context papers w).2
  = http_log w ++
    [AIService.chat_request (default_base m) m
       (AIService.promptContent prompt context papers)].
Proof.
  intros R P. destruct (resolves_lookup modelId w m R) as (w0 & E & L).
  unfold AIService.generateCompletion, try_catch, bind.
  rewrite E, (dispatch_implemented _ _ P).
  pose proof (chat_completion_log (default_base m) m
                (AIService.promptContent prompt context papers) w0) as C.
  destruct (AIService.chat_completion _ _ _ w0) as [[c|e] w1]; simpl in *;
    by rewrite C, L.
Qed.

(** C7: with a non-empty list of records, the prompt is the research-assistant
    template whatever the free-text context is; the template is a header, a
    listing in which the title of every record occurs, the question line, the
    caller's prompt, and a footer that holds the instruction to state clearly
    when the papers do not contain the information; a call sends nothing or
    one request, which carries exactly this prompt as its single user turn;
    and a call whose lookup is answered with a siliconflow or openrouter
    configuration does send it: one request goes out, the one the builder
    makes of the template for this configuration. *)
Theorem generateCompletion_papers_prompt
    (prompt : string) (modelId context : option string)
    (p : PaperData.t) (ps : list PaperData.t) (w : World) :
  AIService.promptContent prompt context (Some (p :: ps))
  = AIService.papers_prompt (p :: ps) prompt /\
  (exists listing,
      AIService.papers_prompt (p :: ps) prompt
      = AIService.papers_header +:+ listing +:+ AIService.papers_question
        +:+ prompt +:+ AIService.papers_footer
      /\ forall paper, paper ∈ p :: ps ->
                       contains ("Title: " +:+ PaperData.name paper) listing) /\
  contains AIService.insufficient_instruction AIService.papers_footer /\
  (http_log (AIService.generateCompletion prompt modelId context (Some (p :: ps)) w).2
   = http_log w \/
   exists req,
     http_log (AIService.generateCompletion prompt modelId context (Some (p :: ps)) w).2
     = http_log w ++ [req]
     /\ messages req = [("user", AIService.papers_prompt (p :: ps) prompt)]) /\
  (forall m, resolves modelId w m ->
     provider m = "siliconflow" \/ provider m = "openrouter" ->
     http_log (AIService.generateCompletion prompt modelId context (Some (p :: ps)) w).2
     = http_log w ++
       [{| endpoint :=
             AIService.opt_or (base_url m) (default_base m) +:+ "/chat/completions";
           authorization := "Bearer " +:+ api_key m;
           model := model_name m;
           messages := [("user", AIService.papers_prompt (p :: ps) prompt)] |}]).
Proof.
  split; [reflexivity|]. split; [|split; [|split]].
  - eexists. split; [reflexivity|]. intros paper H. by apply listing_titles.
  - apply footer_instruction.
  - apply (generateCompletion_log prompt modelId context (Some (p :: ps)) w).
  - intros m R P.
    apply (generateCompletion_resolved_log prompt modelId context (Some (p :: ps)) w m R P).
Qed.

(** Three records, a context and the default siliconflow configuration: the
    three titles occur in the listing of the prompt, and the request that
    goes out carries the template, not the context wrapping. *)
Lemma generateCompletion_papers_prompt_witness :
  (exists listing,
    AIService.papers_prompt Examples.three_papers "Which paper treats graphs?"
    = AIService.papers_header +:+ listing +:+ AIService.papers_question
      +:+ "Which paper treats graphs?" +:+ AIService.papers_footer
    /\ contains "Title: Graph Theory" listing
    /\ contains "Title: Number Theory" listing
    /\ contains "Title: Set Theory" listing) /\
  http_log (AIService.generateCompletion "Which paper treats graphs?" None
              (Some "a context") (Some Examples.three_papers) Examples.world0).2
  = [{| endpoint := "https://api.siliconflow.cn/v1/chat/completions";
        authorization := "Bearer sk-test";
        model := "deepseek-ai/DeepSeek-V3";
        messages :=
          [("user", AIService.papers_prompt Examples.three_papers
                      "Which paper treats graphs?")] |}].
Proof.
  destruct (generateCompletion_papers_prompt "Which paper treats graphs?" None
              (Some "a context") Examples.graph_paper
              [Examples.number_paper; Examples.set_paper] Examples.world0)
    as (_ & (listing & E & H) & _ & _ & S).
  split.
  - exists listing. split; [exact E|].
    repeat split;
      [apply (H Examples.graph_paper)
      |apply (H Examples.number_paper)
      |apply (H Examples.set_paper)];
      repeat constructor.
  - apply (S Examples.siliconflow_model).
    + split; reflexivity.
    + left. reflexivity.
Defined.

(** The same three records with a context and a default model: one request
    goes out, and its user turn is the template, not the context wrapping. *)
Example generateCompletion_three_papers_sent :
  messages <$>
    http_log (AIService.generateCompletion "Which paper treats graphs?" None
                (Some "a context") (Some Examples.three_papers)
                (with_http [Examples.answer "The first."] [] Examples.world0)).2
  = [[("user", AIService.papers_prompt Examples.three_papers "Which paper treats graphs?")]].
Proof. vm_compute. reflexivity. Qed.

(** ** The metadata pipeline *)

Lemma frame_refl (w : World) : frame w w.
Proof. by repeat split. Qed.
Lemma frame_trans (w1 w2 w3 : World) : frame w1 w2 -> frame w2 w3 -> frame w1 w3.
Proof. unfold frame. intros (?&?&?) (?&?&?). repeat split; congruence. Qed.

Lemma db_call_frame (w : World) : frame w (db_call w).2.
Proof. unfold db_call. destruct (db_script w); by repeat split. Qed.
Lemma fetch_frame (req : HttpRequest) (w : World) : frame w (fetch req w).2.
Proof. unfold fetch. destruct (http_script w); by repeat split. Qed.

Lemma getDefaultModel_frame (w : World) : frame w (AIService.getDefaultModel w).2.
Proof.
  unfold AIService.getDefaultModel, try_catch, bind.
  pose proof (db_call_frame w) as F.
  destruct (db_call w) as [[[| e | e]|e] w1]; simpl in *; try done.
  destruct (Supabase.select_defaults _) as [|? [|]]; done.
Qed.
Lemma getModelById_frame (id : string) (w : World) :
  frame w (AIService.getModelById id w).2.
Proof.
  unfold AIService.getModelById, try_catch, bind.
  pose proof (db_call_frame w) as F.
  destruct (db_call w) as [[[| e | e]|e] w1]; simpl in *; done.
Qed.
Lemma chat_completion_frame (base : string) (m : AIModel) (p : string) (w : World) :
  frame w (AIService.chat_completion base m p w).2.
Proof.
  unfold AIService.chat_completion, try_catch, bind.
  pose proof (fetch_frame (AIService.chat_request base m p) w) as F.
  destruct (fetch _ w) as [[[e|[] st [b|e]]|e] w1]; simpl in *; try done.
  destruct (choices b); done.
Qed.
Lemma dispatch_frame (m : AIModel) (p : string) (w : World) :
  frame w (AIService.dispatch m p w).2.
Proof.
  unfold AIService.dispatch, AIService.generateSiliconFlowCompletion,
    AIService.generateOpenRouterCompletion.
  repeat case_match; auto using chat_completion_frame, frame_refl.
Qed.
Lemma generateCompletion_frame
    (prompt : string) (modelId context : option string)
    (papers : option (list PaperData.t)) (w : World) :
  frame w (AIService.generateCompletion prompt modelId context papers w).2.
Proof.
  unfold AIService.generateCompletion, try_catch, bind.
  set (resolve := match modelId with
                  | Some id => if JS.truthy id then AIService.getModelById id
                               else AIService.getDefaultModel
                  | None => AIService.getDefaultModel
                  end).
  assert (F : frame w (resolve w).2).
  { subst resolve. destruct modelId as [id|]; [destruct (JS.truthy id)|];
      auto using getDefaultModel_frame, getModelById_frame. }
  destruct (resolve w) as [[[m|]|e] w1]; simpl in *; auto.
  pose proof (dispatch_frame m (AIService.promptContent prompt context papers) w1) as G.
  destruct (AIService.dispatch m _ w1) as [[]]; simpl in *; eauto using frame_trans.
Qed.

Lemma metadata_call_frame (markdown : string) (w : World) :
  frame w (metadata_call markdown w).2.
Proof. apply generateCompletion_frame. Qed.
Lemma content_call_frame (markdown : string) (w : World) :
  frame w (content_call markdown w).2.
Proof. apply generateCompletion_frame. Qed.

(** While nothing is refused, nothing will be: the calls only use up answers
    of the persistence layer. *)
Lemma db_call_calm (w : World) : no_refusal w -> no_refusal (db_call w).2.
Proof.
  unfold no_refusal, db_call. intros H. destruct (db_script w) as [|o rest] eqn:S; simpl.
  - by rewrite S.
  - by inversion H.
Qed.
Lemma fetch_calm (req : HttpRequest) (w : World) :
  no_refusal w -> no_refusal (fetch req w).2.
Proof. unfold fetch. by destruct (http_script w). Qed.
Lemma getDefaultModel_calm (w : World) :
  no_refusal w -> no_refusal (AIService.getDefaultModel w).2.
Proof.
  intros Q. unfold AIService.getDefaultModel, try_catch, bind.
  pose proof (db_call_calm w Q) as F.
  destruct (db_call w) as [[[| e | e]|e] w1]; simpl in *; try done.
  destruct (Supabase.select_defaults _) as [|? [|]]; done.
Qed.
Lemma getModelById_calm (id : string) (w : World) :
  no_refusal w -> no_refusal (AIService.getModelById id w).2.
Proof.
  intros Q. unfold AIService.getModelById, try_catch, bind.
  pose proof (db_call_calm w Q) as F.
  destruct (db_call w) as [[[| e | e]|e] w1]; simpl in *; done.
Qed.
Lemma chat_completion_calm (base : string) (m : AIModel) (p : string) (w : World) :
  no_refusal w -> no_refusal (AIService.chat_completion base m p w).2.
Proof.
  intros Q. unfold AIService.chat_completion, try_catch, bind.
  pose proof (fetch_calm (AIService.chat_request base m p) w Q) as F.
  destruct (fetch _ w) as [[[e|[] st [b|e]]|e] w1]; simpl in *; try done.
  destruct (choices b); done.
Qed.
Lemma dispatch_calm (m : AIModel) (p : string) (w : World) :
  no_refusal w -> no_refusal (AIService.dispatch m p w).2.
Proof.
  intros Q. unfold AIService.dispatch, AIService.generateSiliconFlowCompletion,
    AIService.generateOpenRouterCompletion.
  repeat case_match; auto using chat_completion_calm.
Qed.
Lemma generateCompletion_calm
    (prompt : string) (modelId context : option string)
    (papers : option (list PaperData.t)) (w : World) :
  no_refusal w ->
  no_refusal (AIService.generateCompletion prompt modelId context papers w).2.
Proof.
  intros Q. unfold AIService.generateCompletion, try_catch, bind.
  set (resolve := match modelId with
                  | Some id => if JS.truthy id then AIService.getModelById id
                               else AIService.getDefaultModel
                  | None => AIService.getDefaultModel
                  end).
  assert (F : no_refusal (resolve w).2).
  { subst resolve. destruct modelId as [id|]; [destruct (JS.truthy id)|];
      auto using getDefaultModel_calm, getModelById_calm. }
  destruct (resolve w) as [[[m|]|e] w1]; simpl in *; auto.
  pose proof (dispatch_calm m (AIService.promptContent prompt context papers) w1 F) as G.
  destruct (AIService.dispatch m _ w1) as [[]]; simpl in *; done.
Qed.

Section PipelineFacts.

Variable JSON_parse : string -> option (gmap string JSValue).

Lemma analyzeWithAI_calls (markdown : string) (w : World) :
  PDFProcessingService.analyzeWithAI JSON_parse markdown w
  = match metadata_call markdown w with
    | (Ok r1, w1) =>
        match content_call markdown w1 with
        | (Ok r2, w2) =>
            (Ok (<["full_text" := JSString markdown]>
                   (JSObject.spread (PDFProcessingService.parse_partial JSON_parse r1)
                      (PDFProcessingService.parse_partial JSON_parse r2))), w2)
        | (Throw _, w2) => (Ok (PDFProcessingService.fallback markdown w2), w2)
        end
    | (Throw _, w1) => (Ok (PDFProcessingService.fallback markdown w1), w1)
    end.
Proof.
  unfold PDFProcessingService.analyzeWithAI, metadata_call, content_call, try_catch, bind.
  destruct (AIService.generateCompletion _ None None None w) as [[r1|e1] w1]; [|done].
  destruct (AIService.generateCompletion _ None None None w1) as [[r2|e2] w2]; done.
Qed.

Lemma fallback_frame (markdown : string) (w w' : World) :
  frame w w' ->
  PDFProcessingService.fallback markdown w' = PDFProcessingService.fallback markdown w.
Proof. intros (_&_&E). unfold PDFProcessingService.fallback. by rewrite E. Qed.

Lemma analyzeWithAI_frame (markdown : string) (w : World) :
  frame w (PDFProcessingService.analyzeWithAI JSON_parse markdown w).2.
Proof.
  rewrite analyzeWithAI_calls.
  pose proof (metadata_call_frame markdown w) as F1.
  destruct (metadata_call markdown w) as [[r1|e1] w1]; simpl in *; [|done].
  pose proof (content_call_frame markdown w1) as F2.
  destruct (content_call markdown w1) as [[r2|e2] w2]; simpl in *;
    eauto using frame_trans.
Qed.

(** [analyzeWithAI] never throws, and what it returns has [full_text] set to
    the markdown. *)
Lemma analyzeWithAI_returns (markdown : string) (w : World) :
  exists d, (PDFProcessingService.analyzeWithAI JSON_parse markdown w).1 = Ok d
            /\ d !! "full_text" = Some (JSString markdown).
Proof.
  rewrite analyzeWithAI_calls.
  destruct (metadata_call markdown w) as [[r1|e1] w1]; simpl; [|by eexists].
  destruct (content_call markdown w1) as [[r2|e2] w2]; simpl; eexists; split; try done.
  by rewrite lookup_insert_eq.
Qed.

(** [processPDF] of the service over the text it works on. *)
Lemma service_processPDF_steps (file : File.t) (w : World) :
  PDFProcessingService.processPDF JSON_parse file w
  = match extracted_text file with
    | Ok text =>
        match PDFProcessingService.analyzeWithAI JSON_parse
                (PDFProcessingService.convertTextToMarkdown text) w with
        | (Ok extractedData, w1) =>
            (Ok (PDFProcessingService.finalize file
                   (PDFProcessingService.convertTextToMarkdown text) (full_year w1)
                   extractedData), w1)
        | (Throw e, w1) => (Throw e, w1)
        end
    | Throw e => (Throw e, w)
    end.
Proof.
  unfold PDFProcessingService.processPDF, extracted_text, try_catch, bind.
  destruct (File.arrayBuffer file) as [buffer|e]; [|done].
  destruct (PDFProcessingService.extractTextFromPDF buffer) as [text|e]; [|done].
  by destruct (PDFProcessingService.analyzeWithAI JSON_parse _ w) as [[d|e] w1].
Qed.

(** C1: when the metadata completion call throws, or when it returns and the
    content completion call throws, [analyzeWithAI] does not throw: for every
    markdown it returns to its caller the record with an empty [title],
    [authors] "Unknown", the current year and the markdown as [full_text]. *)
Theorem analyzeWithAI_completion_raises (markdown : string) (w : World) :
  (exists e, (metadata_call markdown w).1 = Throw e) \/
  (exists r w1 e, metadata_call markdown w = (Ok r, w1)
                  /\ (content_call markdown w1).1 = Throw e) ->
  (PDFProcessingService.analyzeWithAI JSON_parse markdown w).1
  = Ok (<["title" := JSString ""]>
          (<["authors" := JSString "Unknown"]>
             (<["year" := JSNumber (full_year w)]>
                (<["full_text" := JSString markdown]> ∅)))).
Proof.
  change (<["title" := _]> _) with (PDFProcessingService.fallback markdown w).
  rewrite analyzeWithAI_calls.
  intros [(e & H)|(r & w1 & e & H1 & H2)].
  - pose proof (metadata_call_frame markdown w) as F1.
    destruct (metadata_call markdown w) as [[r1|e1] w1]; simpl in *; [done|].
    by rewrite (fallback_frame _ _ _ F1).
  - pose proof (metadata_call_frame markdown w) as F1.
    rewrite H1 in *. simpl in *.
    pose proof (content_call_frame markdown w1) as F2.
    destruct (content_call markdown w1) as [[r2|e2] w2]; simpl in *; [done|].
    by rewrite (fallback_frame _ _ _ (frame_trans _ _ _ F1 F2)).
Qed.

(** C8: when the metadata call returns a text in which no brace span is found,
    or whose span does not decode, the partial metadata object is empty and
    the pipeline does not throw: it returns a record whose [full_text] is the
    markdown; when the content call returns too, this record is the decoded
    content with [full_text] added. *)
Theorem analyzeWithAI_metadata_parse_failure
    (markdown : string) (w : World) (r1 : string) (w1 : World) :
  metadata_call markdown w = (Ok r1, w1) ->
  (JS.match_braces r1 = None \/
   exists span, JS.match_braces r1 = Some span /\ JSON_parse span = None) ->
  PDFProcessingService.parse_partial JSON_parse r1 = ∅ /\
  (exists d, (PDFProcessingService.analyzeWithAI JSON_parse markdown w).1 = Ok d
             /\ d !! "full_text" = Some (JSString markdown)) /\
  (forall r2 w2, content_call markdown w1 = (Ok r2, w2) ->
     PDFProcessingService.analyzeWithAI JSON_parse markdown w
     = (Ok (<["full_text" := JSString markdown]>
              (PDFProcessingService.parse_partial JSON_parse r2)), w2)).
Proof.
  intros H1 Hbad.
  assert (E : PDFProcessingService.parse_partial JSON_parse r1 = ∅).
  { unfold PDFProcessingService.parse_partial.
    destruct Hbad as [->|(span & -> & ->)]; done. }
  split; [done|]. split; [apply analyzeWithAI_returns|].
  intros r2 w2 H2. rewrite analyzeWithAI_calls, H1, H2, E.
  unfold JSObject.spread. by rewrite (right_id_L ∅ (∪)).
Qed.

End PipelineFacts.

(** The content call finds the connection dead after the metadata call was
    answered: the fallback record comes back. *)
Lemma analyzeWithAI_completion_raises_witness :
  (exists r w1,
      metadata_call "# Graph Theory" (with_http [Examples.answer "{}"] [] Examples.world0)
      = (Ok r, w1)
      /\ (content_call "# Graph Theory" w1).1 = Throw "Failed to fetch") /\
  (PDFProcessingService.analyzeWithAI JSON.parse_flat "# Graph Theory"
     (with_http [Examples.answer "{}"] [] Examples.world0)).1
  = Ok (<["title" := JSString ""]>
          (<["authors" := JSString "Unknown"]>
             (<["year" := JSNumber 2025]>
                (<["full_text" := JSString "# Graph Theory"]> ∅)))).
Proof.
  split.
  - eexists _, _. split; [vm_compute; reflexivity|]. vm_compute. reflexivity.
  - apply (analyzeWithAI_completion_raises JSON.parse_flat "# Graph Theory"
             (with_http [Examples.answer "{}"] [] Examples.world0)).
    right. eexists _, _, _. split; [vm_compute; reflexivity|]. vm_compute. reflexivity.
Defined.

(** The metadata call is answered with prose, the content call with a JSON
    object: the record holds the decoded content and the markdown. *)
Lemma analyzeWithAI_metadata_parse_failure_witness :
  JS.match_braces "I could not find any metadata." = None /\
  (PDFProcessingService.analyzeWithAI JSON.parse_flat "# Graph Theory"
     (with_http [Examples.answer "I could not find any metadata.";
                 Examples.answer Examples.doi_only] [] Examples.world0)).1
  = Ok (<["full_text" := JSString "# Graph Theory"]>
          (PDFProcessingService.parse_partial JSON.parse_flat Examples.doi_only)).
Proof.
  split; [reflexivity|].
  destruct (analyzeWithAI_metadata_parse_failure JSON.parse_flat "# Graph Theory"
              (with_http [Examples.answer "I could not find any metadata.";
                          Examples.answer Examples.doi_only] [] Examples.world0)
              "I could not find any metadata."
              (metadata_call "# Graph Theory"
                 (with_http [Examples.answer "I could not find any metadata.";
                             Examples.answer Examples.doi_only] [] Examples.world0)).2)
    as (_ & _ & H).
  - vm_compute. reflexivity.
  - left. reflexivity.
  - erewrite H; [reflexivity|]. vm_compute. reflexivity.
Defined.

(** ** What is persisted for a document *)

Section ViewFacts.

Variable JSON_parse : string -> option (gmap string JSValue).
Variable NFKD : string -> string.

(** The normalisation leaves a text of code units below 128 as it is. *)
Hypothesis NFKD_ascii : forall s, ascii_text s = true -> NFKD s = s.

Lemma get_unanswered (k markdown : string) (metadata content : gmap string JSValue) :
  k <> "full_text" -> unanswered k metadata content ->
  JSObject.get (<["full_text" := JSString markdown]> (JSObject.spread metadata content)) k
  = JSUndefined.
Proof.
  intros Hk [Hm Hc]. unfold JSObject.get, JSObject.spread.
  rewrite lookup_insert_ne by done.
  by rewrite (proj2 (lookup_union_None content metadata k) (conj Hc Hm)).
Qed.

(** What [processPDF] makes of the fallback record of [analyzeWithAI]: the
    empty title is falsy, so the title becomes the file name without its
    extension. *)
Lemma finalize_fallback_title (file : File.t) (markdown : string) (w : World) :
  JSObject.get
    (PDFProcessingService.finalize file markdown (full_year w)
       (PDFProcessingService.fallback markdown w)) "title"
  = JSString (JS.strip_pdf (File.name file)).
Proof.
  unfold PDFProcessingService.finalize, PDFProcessingService.fallback, JSObject.get.
  rewrite !lookup_insert_ne by done. by rewrite !lookup_insert_eq.
Qed.

(** A field that the responses of the run do not answer is not in the record
    [analyzeWithAI] returns, but for the fields the fallback record sets. *)
Lemma analyzed_absent (markdown : string) (w : World) (k : string) :
  decoded JSON_parse markdown w !! k = None -> k <> "full_text" ->
  exists d w1,
    PDFProcessingService.analyzeWithAI JSON_parse markdown w = (Ok d, w1)
    /\ full_year w1 = full_year w
    /\ (JSObject.get d k = JSUndefined
        \/ d = PDFProcessingService.fallback markdown w1).
Proof.
  intros A Hk. pose proof (analyzeWithAI_frame JSON_parse markdown w) as (_ & _ & Fy).
  revert A Fy. unfold decoded. rewrite analyzeWithAI_calls.
  destruct (metadata_call markdown w) as [[r1|e1] w1]; [|by eexists _, _; eauto].
  destruct (content_call markdown w1) as [[r2|e2] w2]; [|by eexists _, _; eauto].
  intros A Fy. eexists _, _. split; [reflexivity|]. split; [done|]. left.
  apply get_unanswered; [done|]. by apply lookup_union_None in A as [? ?].
Qed.

Lemma finalize_get_other (file : File.t) (markdown : string) (y : Z)
    (d : gmap string JSValue) (k : string) :
  k <> "full_text" -> k <> "year" -> k <> "authors" -> k <> "title" ->
  JSObject.get (PDFProcessingService.finalize file markdown y d) k = JSObject.get d k.
Proof.
  intros. unfold PDFProcessingService.finalize, JSObject.get.
  by rewrite !lookup_insert_ne by done.
Qed.

Lemma fallback_get_other (markdown : string) (w : World) (k : string) :
  k <> "full_text" -> k <> "year" -> k <> "authors" -> k <> "title" ->
  JSObject.get (PDFProcessingService.fallback markdown w) k = JSUndefined.
Proof.
  intros. unfold PDFProcessingService.fallback, JSObject.get.
  by rewrite !lookup_insert_ne by done.
Qed.

(** C3, as the code has it, for every run of the pipeline on a document.
    When the text of the document is extracted, whether the completion calls
    return or raise: a field among [doi], [background], [research_question],
    [major_findings] and [suggestions] that the responses do not answer is
    NULL in the record; an absent [title] is replaced by the file name without
    its [.pdf] extension, an absent [authors] by "Unknown", an absent [year]
    by the current year. When the text cannot be extracted, for a document
    that was not processed before: every field of the record is NULL but
    [year], which is the current year. *)
Theorem persisted_record_of_absent_fields
    (fileObj : UploadedFile.t) (index : nat) (w : World) :
  (forall text,
     extracted_text (UploadedFile.file fileObj) = Ok text ->
     exists processedFile w2,
       PDFUploadView.processPDF JSON_parse fileObj index w = (Ok processedFile, w2) /\
       forall pdfId,
         let row := PDFUploadView.pdf_record NFKD pdfId fileObj processedFile (full_year w) in
         let absent k :=
           decoded JSON_parse (PDFProcessingService.convertTextToMarkdown text) w !! k
           = None in
         (absent "doi" -> doi row = None) /\
         (absent "background" -> background row = None) /\
         (absent "research_question" -> research_question row = None) /\
         (absent "major_findings" -> major_findings row = None) /\
         (absent "suggestions" -> suggestions row = None) /\
         (absent "title" ->
          title row = PDFUploadView.sanitizeText NFKD
                        (JSString (JS.strip_pdf (File.name (UploadedFile.file fileObj))))) /\
         (absent "authors" -> authors row = Some "Unknown") /\
         (absent "year" -> year row = JSNumber (full_year w))) /\
  (forall e,
     extracted_text (UploadedFile.file fileObj) = Throw e ->
     UploadedFile.extractedData fileObj = None ->
     exists processedFile,
       PDFUploadView.processPDF JSON_parse fileObj index w = (Ok processedFile, w) /\
       forall pdfId,
         let row := PDFUploadView.pdf_record NFKD pdfId fileObj processedFile (full_year w) in
         title row = None /\ authors row = None /\ doi row = None /\
         background row = None /\ research_question row = None /\
         major_findings row = None /\ suggestions row = None /\
         full_text row = None /\ year row = JSNumber (full_year w)).
Proof.
  split.
  - intros text Ht.
    set (markdown := PDFProcessingService.convertTextToMarkdown text).
    destruct (analyzeWithAI_returns JSON_parse markdown w) as (d & Ed & _).
    pose proof (analyzeWithAI_frame JSON_parse markdown w) as (_ & _ & Fy).
    destruct (PDFProcessingService.analyzeWithAI JSON_parse markdown w)
      as [r w2] eqn:Ea. simpl in Ed, Fy. subst r.
    eexists _, w2. split.
    { unfold PDFUploadView.processPDF, try_catch, bind.
      rewrite service_processPDF_steps, Ht. fold markdown. rewrite Ea. reflexivity. }
    intros pdfId row absent. subst row absent.
    unfold PDFUploadView.pdf_record, PDFUploadView.field; simpl.
    assert (O : forall k, decoded JSON_parse markdown w !! k = None -> k <> "full_text" ->
                JSObject.get d k = JSUndefined
                \/ d = PDFProcessingService.fallback markdown w2).
    { intros k A Hk. destruct (analyzed_absent markdown w k A Hk) as (d' & w' & E & _ & H).
      rewrite Ea in E. by injection E as <- <-. }
    repeat split.
    1-5: intros A; rewrite finalize_get_other by done;
         destruct (O _ A ltac:(done)) as [->| ->]; [done|];
         by rewrite fallback_get_other by done.
    + intros A. unfold PDFProcessingService.finalize, JSObject.get at 1.
      rewrite !lookup_insert_ne by done. rewrite lookup_insert_eq. simpl.
      destruct (O _ A ltac:(done)) as [->| ->]; [done|].
      unfold PDFProcessingService.fallback, JSObject.get.
      by rewrite lookup_insert_eq.
    + intros A. unfold PDFProcessingService.finalize, JSObject.get at 1.
      rewrite !lookup_insert_ne by done. rewrite lookup_insert_eq. simpl.
      assert (JSObject.or_else (JSObject.get d "authors") (JSString "Unknown")
              = JSString "Unknown") as ->.
      { destruct (O _ A ltac:(done)) as [->| ->]; [done|].
        unfold PDFProcessingService.fallback, JSObject.get.
        rewrite lookup_insert_ne by done. by rewrite lookup_insert_eq. }
      unfold PDFUploadView.sanitizeText. simpl. by rewrite NFKD_ascii.
    + intros _. unfold PDFProcessingService.finalize, JSObject.get at 1.
      rewrite lookup_insert_ne by done. rewrite lookup_insert_eq. simpl. rewrite Fy.
      unfold JSObject.or_else. by destruct (JSObject.truthy _).
  - intros e He Hn. eexists. split.
    { unfold PDFUploadView.processPDF, try_catch, bind.
      rewrite service_processPDF_steps, He. reflexivity. }
    intros pdfId row. subst row.
    unfold PDFUploadView.pdf_record, PDFUploadView.field; simpl. rewrite Hn.
    repeat split.
Qed.

End ViewFacts.

(** The responses answer the [doi] only: [background] stays NULL and the
    title is the file name without its extension. *)
Lemma persisted_record_of_absent_fields_witness :
  exists processedFile,
    (PDFUploadView.processPDF JSON.parse_flat Examples.paper_pdf 0 Examples.paper_world).1
    = Ok processedFile
    /\ background (PDFUploadView.pdf_record Examples.NFKD 0 Examples.paper_pdf
                     processedFile 2025) = None
    /\ title (PDFUploadView.pdf_record Examples.NFKD 0 Examples.paper_pdf
                processedFile 2025)
       = Some "paper"
    /\ authors (PDFUploadView.pdf_record Examples.NFKD 0 Examples.paper_pdf
                  processedFile 2025)
       = Some "Unknown".
Proof.
  destruct (persisted_record_of_absent_fields JSON.parse_flat Examples.NFKD
              (fun s _ => eq_refl) Examples.paper_pdf 0 Examples.paper_world)
    as [H _].
  destruct (H "Graph Theory" eq_refl) as (processedFile & w2 & E & F).
  exists processedFile. rewrite E. split; [reflexivity|].
  destruct (F 0%nat) as (_ & Hb & _ & _ & _ & Ht & Ha & _). split; [|split].
  - apply Hb. vm_compute. reflexivity.
  - etrans; [apply Ht; vm_compute; reflexivity|]. vm_compute. reflexivity.
  - apply Ha. vm_compute. reflexivity.
Defined.

(** C3 as stated fails: neither response holds a title, authors or a year, and
    the record the batch loop persists for [paper.pdf] has the title "paper",
    the authors "Unknown" and the year 2025. *)
Lemma persisted_record_fabricates_title :
  unanswered "title"
    (PDFProcessingService.parse_partial JSON.parse_flat Examples.doi_only)
    (PDFProcessingService.parse_partial JSON.parse_flat "{}") /\
  unanswered "authors"
    (PDFProcessingService.parse_partial JSON.parse_flat Examples.doi_only)
    (PDFProcessingService.parse_partial JSON.parse_flat "{}") /\
  unanswered "year"
    (PDFProcessingService.parse_partial JSON.parse_flat Examples.doi_only)
    (PDFProcessingService.parse_partial JSON.parse_flat "{}") /\
  (fun r => (filename r, title r, authors r, year r, doi r)) <$>
    pdf_uploads
      (PDFUploadView.upload_loop JSON.parse_flat Examples.NFKD "batch-1" [Examples.paper_pdf]
         Examples.paper_world).2
  = [("paper.pdf", Some "paper", Some "Unknown", JSNumber 2025, Some "10.1000/xyz")].
Proof. repeat split; vm_compute; reflexivity. Qed.

(** ** The batch loop *)

Section LoopFacts.

Variable JSON_parse : string -> option (gmap string JSValue).
Variable NFKD : string -> string.

Lemma service_processPDF_frame (file : File.t) (w : World) :
  frame w (PDFProcessingService.processPDF JSON_parse file w).2.
Proof.
  rewrite service_processPDF_steps.
  destruct (extracted_text file) as [text|e]; simpl; [|apply frame_refl].
  pose proof (analyzeWithAI_frame JSON_parse
                (PDFProcessingService.convertTextToMarkdown text) w) as F.
  destruct (PDFProcessingService.analyzeWithAI _ _ w) as [[d|e] w1]; simpl in *; done.
Qed.

(** The view's [processPDF] never throws: a failure is in the item it returns. *)
Lemma view_processPDF_returns (f : UploadedFile.t) (w : World) :
  exists item w',
    (forall i, PDFUploadView.processPDF JSON_parse f i w = (Ok item, w'))
    /\ frame w w'
    /\ (failed item \/
        (UploadedFile.processingStatus item = Some ProcessingStatus.success
         /\ UploadedFile.error item = UploadedFile.error f)).
Proof.
  unfold PDFUploadView.processPDF, try_catch, bind.
  pose proof (service_processPDF_frame (UploadedFile.file f) w) as F.
  destruct (PDFProcessingService.processPDF _ _ w) as [[d|e] w1]; simpl in *;
    eexists _, _; (split; [intros i; reflexivity|]); (split; [done|]).
  - right. done.
  - left. split; [done|]. by eexists.
Qed.

Lemma awaited_write_ok (failure : string) (commit : World -> World) (w w1 : World) :
  PDFUploadView.awaited_write failure commit w = (Ok tt, w1) ->
  exists w0, w1 = commit w0 /\ frame w w0.
Proof.
  unfold PDFUploadView.awaited_write, bind.
  pose proof (db_call_frame w) as F.
  destruct (db_call w) as [[[| e | e]|e] w0]; simpl in *; intros [= <-]. eauto.
Qed.
Lemma awaited_write_throw (failure : string) (commit : World -> World)
    (w : World) (e : string) (w1 : World) :
  PDFUploadView.awaited_write failure commit w = (Throw e, w1) -> frame w w1.
Proof.
  unfold PDFUploadView.awaited_write, bind.
  pose proof (db_call_frame w) as F.
  destruct (db_call w) as [[[| e' | e']|e'] w0]; simpl in *; intros [= <- <-]; done.
Qed.

Lemma set_failed_failed (e : string) (item : UploadedFile.t) :
  failed (PDFUploadView.set_failed e item).
Proof. split; [done|]. by eexists. Qed.

(** One iteration never throws. It writes one item at its index, and the item
    and the world after it do not depend on the rest of the array: the item is
    failed, or it is processed and its record and link are appended. *)
Lemma iteration_alone (b : string) (f : UploadedFile.t) (w : World) :
  exists item w',
    (forall arr i, i < length arr ->
       PDFUploadView.iteration JSON_parse NFKD b i f (arr, w)
       = (Ok tt, (<[i := item]> arr, w')))
    /\ pdf_uploads w `prefix_of` pdf_uploads w'
    /\ batch_pdfs w `prefix_of` batch_pdfs w'
    /\ full_year w' = full_year w
    /\ settled NFKD b f item w w'.
Proof.
  set (f1 := PDFUploadView.set_uploading true f).
  set (fileName := JS.of_Z (now_ms w) +:+ "-" +:+ File.name (UploadedFile.file f)).
  destruct (PDFUploadView.awaited_write "Failed to upload file: "
              (fun w => with_pdfs_bucket (pdfs_bucket w ++ [fileName]) w) w)
    as [[[]|e1] w1] eqn:E1.
  2:{ (* the upload fails *)
    apply awaited_write_throw in E1 as F1. destruct F1 as (H0&H1&?).
    exists (PDFUploadView.set_failed e1 f1), w1. split; [|repeat split].
    - intros arr i Hi. run_iteration. fold fileName. rewrite E1. simpl.
      read_back. by rewrite list_insert_insert_eq.
    - by rewrite H0.
    - by rewrite H1.
    - done.
    - left. apply set_failed_failed. }
  apply awaited_write_ok in E1 as F1. destruct F1 as (w0 & Hw1 & F0).
  destruct (view_processPDF_returns (PDFUploadView.set_pending f1) w1)
    as (processed & w2 & E2 & F2 & Hp).
  set (pdfId := length (pdf_uploads w2)).
  destruct (PDFUploadView.awaited_write "Failed to create PDF record: "
              (fun w => with_pdf_uploads
                          (pdf_uploads w ++
                             [PDFUploadView.pdf_record NFKD pdfId f processed (full_year w)]) w) w2)
    as [[[]|e3] w3] eqn:E3.
  2:{ (* the insert fails *)
    apply awaited_write_throw in E3 as F3.
    assert (F : frame w w3).
    { eapply frame_trans; [|eapply frame_trans; [exact F2|exact F3]].
      subst w1. destruct F0 as (?&?&?). by repeat split. }
    destruct F as (H0&H1&?).
    exists (PDFUploadView.set_failed e3 processed), w3. split; [|repeat split].
    - intros arr i Hi. run_iteration. fold fileName. rewrite E1. simpl.
      read_back. read_back. rewrite E2. simpl. fold pdfId. rewrite E3. simpl.
      read_back. by rewrite !list_insert_insert_eq.
    - by rewrite H0.
    - by rewrite H1.
    - done.
    - left. apply set_failed_failed. }
  apply awaited_write_ok in E3 as F3. destruct F3 as (w2' & Hw3 & F2').
  assert (F : frame w w2').
  { eapply frame_trans; [|eapply frame_trans; [exact F2|exact F2']].
    subst w1. destruct F0 as (?&?&?). by repeat split. }
  assert (Hid : pdfId = length (pdf_uploads w)).
  { subst pdfId. destruct F2 as (->&_). subst w1. simpl. by destruct F0 as (->&_). }
  destruct (PDFUploadView.awaited_write "Failed to link PDF to batch: "
              (fun w => with_batch_pdfs (batch_pdfs w ++ [(b, pdfId)]) w) w3)
    as [[[]|e4] w4] eqn:E4.
  2:{ (* the link fails *)
    apply awaited_write_throw in E4 as F4.
    destruct F as (Hu&Hb&Hy). destruct F4 as (Hu4&Hb4&Hy4).
    exists (PDFUploadView.set_failed e4 processed), w4. split; [|repeat split].
    - intros arr i Hi. run_iteration. fold fileName. rewrite E1. simpl.
      read_back. read_back. rewrite E2. simpl. fold pdfId. rewrite E3. simpl.
      rewrite E4. simpl. read_back. by rewrite !list_insert_insert_eq.
    - rewrite Hu4. subst w3. simpl. rewrite Hu. by apply prefix_app_r.
    - rewrite Hb4. subst w3. simpl. by rewrite Hb.
    - rewrite Hy4. subst w3. simpl. done.
    - left. apply set_failed_failed. }
  apply awaited_write_ok in E4 as F4. destruct F4 as (w3' & Hw4 & F3').
  destruct F as (Hu&Hb&Hy). destruct F3' as (Hu3&Hb3&Hy3).
  exists processed, w4. split; [|repeat split].
  - intros arr i Hi. run_iteration. fold fileName. rewrite E1. simpl.
    read_back. read_back. rewrite E2. simpl. fold pdfId. rewrite E3. simpl.
    rewrite E4. simpl. by rewrite !list_insert_insert_eq.
  - subst w4. simpl. rewrite Hu3. subst w3. simpl. rewrite Hu. by apply prefix_app_r.
  - subst w4. simpl. rewrite Hb3. subst w3. simpl. rewrite Hb. by apply prefix_app_r.
  - subst w4. simpl. rewrite Hy3. subst w3. simpl. done.
  - destruct Hp as [Hp|[Hs He]]; [by left|right].
    split; [done|]. split; [done|].
    exists pdfId. split.
    + subst w4. simpl. rewrite Hu3. subst w3. simpl. rewrite Hy.
      apply elem_of_app. right. by apply list_elem_of_singleton.
    + subst w4. simpl. apply elem_of_app. right. by apply list_elem_of_singleton.
Qed.

Lemma for_loop_cons (b : string) (i : nat) (f : UploadedFile.t)
    (rest arr : list UploadedFile.t) (w : World) (item : UploadedFile.t) (w1 : World) :
  PDFUploadView.iteration JSON_parse NFKD b i f (arr, w) = (Ok tt, (<[i := item]> arr, w1)) ->
  PDFUploadView.for_loop JSON_parse NFKD b i (f :: rest) (arr, w)
  = PDFUploadView.for_loop JSON_parse NFKD b (S i) rest (<[i := item]> arr, w1).
Proof. intros E. simpl. unfold bind at 1. by rewrite E. Qed.

(** The world the loop leaves does not depend on the array it writes to. *)
Lemma for_loop_world (b : string) (files : list UploadedFile.t) :
  forall i1 arr1 i2 arr2 w,
    i1 + length files <= length arr1 -> i2 + length files <= length arr2 ->
    (PDFUploadView.for_loop JSON_parse NFKD b i1 files (arr1, w)).2.2
    = (PDFUploadView.for_loop JSON_parse NFKD b i2 files (arr2, w)).2.2.
Proof.
  induction files as [|f rest IH]; intros i1 arr1 i2 arr2 w H1 H2; [done|].
  simpl in H1, H2.
  destruct (iteration_alone b f w) as (item & w1 & E & _).
  rewrite (for_loop_cons _ _ _ _ _ _ _ _ (E arr1 i1 ltac:(lia))).
  rewrite (for_loop_cons _ _ _ _ _ _ _ _ (E arr2 i2 ltac:(lia))).
  apply IH; rewrite length_insert; lia.
Qed.

Lemma settled_later (b : string) (f item : UploadedFile.t) (w0 w w1 w' : World) :
  full_year w = full_year w0 ->
  pdf_uploads w1 `prefix_of` pdf_uploads w' ->
  batch_pdfs w1 `prefix_of` batch_pdfs w' ->
  settled NFKD b f item w w1 -> settled NFKD b f item w0 w'.
Proof.
  intros Hy [k1 Hu] [k2 Hb] [?|(?&?&pdfId&?&?)]; [by left|right].
  split; [done|]. split; [done|]. exists pdfId. rewrite <- Hy, Hu, Hb.
  split; apply elem_of_app; by left.
Qed.

Lemma alone_of_iteration (b : string) (f : UploadedFile.t) (w : World)
    (item : UploadedFile.t) (w1 : World) :
  (forall arr i, i < length arr ->
     PDFUploadView.iteration JSON_parse NFKD b i f (arr, w) = (Ok tt, (<[i := item]> arr, w1))) ->
  PDFUploadView.upload_loop JSON_parse NFKD b [f] w = (Ok [item], w1).
Proof.
  intros E. unfold PDFUploadView.upload_loop.
  rewrite (for_loop_cons _ _ _ _ _ _ _ _ (E [f] 0 ltac:(simpl; lia))). done.
Qed.

Lemma for_loop_spec (b : string) (files : list UploadedFile.t) :
  forall i arr w, i + length files <= length arr ->
    exists arr' w',
      PDFUploadView.for_loop JSON_parse NFKD b i files (arr, w) = (Ok tt, (arr', w'))
      /\ length arr' = length arr
      /\ (forall j, j < i -> arr' !! j = arr !! j)
      /\ pdf_uploads w `prefix_of` pdf_uploads w'
      /\ batch_pdfs w `prefix_of` batch_pdfs w'
      /\ full_year w' = full_year w
      /\ forall k f, files !! k = Some f ->
           exists item w_after,
             arr' !! (i + k) = Some item
             /\ PDFUploadView.upload_loop JSON_parse NFKD b [f]
                  (PDFUploadView.for_loop JSON_parse NFKD b i (take k files) (arr, w)).2.2
                = (Ok [item], w_after)
             /\ settled NFKD b f item w w'.
Proof.
  induction files as [|f rest IH]; intros i arr w Hlen.
  { exists arr, w. repeat split; try done. }
  simpl in Hlen.
  destruct (iteration_alone b f w) as (item & w1 & E & Hu & Hb & Hy & Hs).
  destruct (IH (S i) (<[i := item]> arr) w1)
    as (arr' & w' & EL & Hl & Hk & Hu' & Hb' & Hy' & Hf).
  { rewrite length_insert. lia. }
  exists arr', w'.
  rewrite (for_loop_cons _ _ _ _ _ _ _ _ (E arr i ltac:(lia))).
  split; [done|]. split; [by rewrite Hl, length_insert|].
  split; [intros j Hj; rewrite Hk by lia; apply list_lookup_insert_ne; lia|].
  split; [by etrans|]. split; [by etrans|]. split; [congruence|].
  intros [|k] g Hg.
  - injection Hg as <-. exists item, w1. rewrite Nat.add_0_r.
    split; [rewrite Hk by lia; apply list_lookup_insert_eq; lia|].
    split; [simpl; by apply alone_of_iteration|].
    eapply settled_later; [reflexivity|exact Hu'|exact Hb'|exact Hs].
  - simpl in Hg. destruct (Hf k g Hg) as (it & wa & L & A & St).
    exists it, wa. split; [by rewrite <- Nat.add_succ_comm|].
    split.
    + change (take (S k) (f :: rest)) with (f :: take k rest).
      rewrite (for_loop_cons _ _ _ _ _ _ _ _ (E arr i ltac:(lia))). exact A.
    + eapply settled_later; [exact Hy|reflexivity|reflexivity|exact St].
Qed.

Lemma analyzeWithAI_calm (markdown : string) (w : World) :
  no_refusal w -> no_refusal (PDFProcessingService.analyzeWithAI JSON_parse markdown w).2.
Proof.
  intros Q. rewrite analyzeWithAI_calls. unfold metadata_call, content_call.
  pose proof (generateCompletion_calm
                (PDFProcessingService.initialPrompt (JS.slice0 3000 markdown))
                None None None w Q) as F1.
  destruct (AIService.generateCompletion _ None None None w) as [[r1|e1] w1];
    simpl in *; [|done].
  pose proof (generateCompletion_calm
                (PDFProcessingService.contentPrompt (JS.slice0 6000 markdown))
                None None None w1 F1) as F2.
  destruct (AIService.generateCompletion _ None None None w1) as [[r2|e2] w2]; done.
Qed.

Lemma awaited_write_quiet (failure : string) (commit : World -> World) (w : World) :
  no_refusal w ->
  exists w0, PDFUploadView.awaited_write failure commit w = (Ok tt, commit w0)
    /\ frame w w0 /\ no_refusal w0.
Proof.
  unfold no_refusal, PDFUploadView.awaited_write, bind, db_call. intros Q.
  destruct (db_script w) as [|o rest] eqn:S.
  - exists w. rewrite S. split; [done|]. split; [apply frame_refl|done].
  - inversion Q as [|? ? -> Qr]; subst. eexists. split; [reflexivity|].
    split; [by repeat split|done].
Qed.

(** The view's [processPDF] while nothing is refused: the item says whether
    the text of the file was extracted. *)
Lemma view_processPDF_quiet (f : UploadedFile.t) (w : World) :
  no_refusal w ->
  exists item w',
    (forall i, PDFUploadView.processPDF JSON_parse f i w = (Ok item, w'))
    /\ no_refusal w'
    /\ (forall text, extracted_text (UploadedFile.file f) = Ok text ->
          UploadedFile.processingStatus item = Some ProcessingStatus.success
          /\ UploadedFile.error item = UploadedFile.error f)
    /\ (forall e, extracted_text (UploadedFile.file f) = Throw e ->
          UploadedFile.processingStatus item = Some ProcessingStatus.error
          /\ UploadedFile.error item = Some (JS.or_else e "Failed to process PDF")).
Proof.
  intros Q. unfold PDFUploadView.processPDF, try_catch, bind.
  rewrite service_processPDF_steps.
  destruct (extracted_text (UploadedFile.file f)) as [text|e].
  - destruct (analyzeWithAI_returns JSON_parse
                (PDFProcessingService.convertTextToMarkdown text) w) as (d & Ed & _).
    pose proof (analyzeWithAI_calm (PDFProcessingService.convertTextToMarkdown text) w Q)
      as Q1.
    destruct (PDFProcessingService.analyzeWithAI JSON_parse _ w) as [[d'|e'] w1];
      simpl in *; [|done].
    eexists _, w1. split; [intros i; reflexivity|]. split; [done|]. split; [done|].
    intros e [=].
  - eexists _, w. split; [intros i; reflexivity|]. split; [done|]. split.
    + intros text [=].
    + by intros e' [= <-].
Qed.

(** One iteration while nothing is refused: the three writes are carried out,
    and the item is the one the view's [processPDF] gives. *)
Lemma iteration_quiet (b : string) (f : UploadedFile.t) (w : World) :
  no_refusal w ->
  exists item w',
    (forall arr i, i < length arr ->
       PDFUploadView.iteration JSON_parse NFKD b i f (arr, w)
       = (Ok tt, (<[i := item]> arr, w')))
    /\ no_refusal w'
    /\ (forall text, extracted_text (UploadedFile.file f) = Ok text ->
          UploadedFile.processingStatus item = Some ProcessingStatus.success
          /\ UploadedFile.error item = UploadedFile.error f)
    /\ (forall e, extracted_text (UploadedFile.file f) = Throw e ->
          UploadedFile.processingStatus item = Some ProcessingStatus.error
          /\ UploadedFile.error item = Some (JS.or_else e "Failed to process PDF")).
Proof.
  intros Q.
  set (f1 := PDFUploadView.set_uploading true f).
  set (fileName := JS.of_Z (now_ms w) +:+ "-" +:+ File.name (UploadedFile.file f)).
  destruct (awaited_write_quiet "Failed to upload file: "
              (fun w => with_pdfs_bucket (pdfs_bucket w ++ [fileName]) w) w Q)
    as (w0 & E1 & _ & Q0).
  set (w1 := with_pdfs_bucket (pdfs_bucket w0 ++ [fileName]) w0) in *.
  destruct (view_processPDF_quiet (PDFUploadView.set_pending f1) w1 Q0)
    as (processed & w2 & E2 & Q2 & Vs & Ve).
  set (pdfId := length (pdf_uploads w2)).
  destruct (awaited_write_quiet "Failed to create PDF record: "
              (fun w => with_pdf_uploads
                          (pdf_uploads w ++
                             [PDFUploadView.pdf_record NFKD pdfId f processed (full_year w)]) w)
              w2 Q2) as (w2' & E3 & _ & Q2').
  match type of E3 with _ = (Ok tt, ?x) => set (w3 := x) in * end.
  destruct (awaited_write_quiet "Failed to link PDF to batch: "
              (fun w => with_batch_pdfs (batch_pdfs w ++ [(b, pdfId)]) w) w3 Q2')
    as (w3' & E4 & _ & Q3').
  match type of E4 with _ = (Ok tt, ?x) => set (w4 := x) in * end.
  exists processed, w4. split; [|split; [done|split; [exact Vs|exact Ve]]].
  intros arr i Hi. run_iteration. fold fileName. rewrite E1. simpl.
  read_back. read_back. rewrite E2. simpl. fold pdfId. rewrite E3. simpl.
  rewrite E4. simpl. by rewrite !list_insert_insert_eq.
Qed.

Lemma for_loop_quiet (b : string) (files : list UploadedFile.t) :
  forall i arr w, no_refusal w -> i + length files <= length arr ->
    exists arr' w',
      PDFUploadView.for_loop JSON_parse NFKD b i files (arr, w) = (Ok tt, (arr', w'))
      /\ forall k f, files !! k = Some f ->
           exists item,
             arr' !! (i + k) = Some item
             /\ (forall text, extracted_text (UploadedFile.file f) = Ok text ->
                   UploadedFile.processingStatus item = Some ProcessingStatus.success
                   /\ UploadedFile.error item = UploadedFile.error f)
             /\ (forall e, extracted_text (UploadedFile.file f) = Throw e ->
                   UploadedFile.processingStatus item = Some ProcessingStatus.error
                   /\ UploadedFile.error item
                      = Some (JS.or_else e "Failed to process PDF")).
Proof.
  induction files as [|f rest IH]; intros i arr w Q Hlen.
  { exists arr, w. split; [done|]. intros k f [=]. }
  simpl in Hlen.
  destruct (iteration_quiet b f w Q) as (item & w1 & E & Q1 & Vs & Ve).
  destruct (IH (S i) (<[i := item]> arr) w1 Q1)
    as (arr' & w' & EL & Hf); [rewrite length_insert; lia|].
  destruct (for_loop_spec b rest (S i) (<[i := item]> arr) w1)
    as (arr'' & w'' & EL' & _ & Hk & _); [rewrite length_insert; lia|].
  rewrite EL in EL'. injection EL' as <- <-.
  exists arr', w'.
  rewrite (for_loop_cons _ _ _ _ _ _ _ _ (E arr i ltac:(lia))).
  split; [done|]. intros [|k] g Hg.
  - injection Hg as <-. exists item. rewrite Nat.add_0_r.
    split; [rewrite Hk by lia; apply list_lookup_insert_eq; lia|done].
  - simpl in Hg. destruct (Hf k g Hg) as (it & L & V).
    exists it. split; [by rewrite <- Nat.add_succ_comm|done].
Qed.

(** C6: the batch loop never aborts and reports one item per file. The item
    of a file is the item the loop gives when it processes this file alone, in
    the world its predecessors left, whether they failed or not; and it is
    either failed, with status [error] and a message of its own, or processed,
    with status [success], its record in [pdf_uploads] and its link in
    [batch_pdfs] at the end of the batch. While the persistence layer refuses
    nothing, the text extraction alone decides: every file whose text is
    extracted comes out with status [success] and is persisted, record and
    link, whatever happened to the other files, and a file whose text cannot
    be extracted comes out with status [error] and the message of its own
    failure. *)
Theorem upload_loop_isolates_failures
    (batchId : string) (files : list UploadedFile.t) (w : World) :
  exists report w',
    PDFUploadView.upload_loop JSON_parse NFKD batchId files w = (Ok report, w')
    /\ length report = length files
    /\ (forall i fileObj, files !! i = Some fileObj ->
         exists item w_after,
           report !! i = Some item
           /\ PDFUploadView.upload_loop JSON_parse NFKD batchId [fileObj]
                (PDFUploadView.upload_loop JSON_parse NFKD batchId (take i files) w).2
              = (Ok [item], w_after)
           /\ settled NFKD batchId fileObj item w w')
    /\ (no_refusal w ->
        forall i fileObj item, files !! i = Some fileObj -> report !! i = Some item ->
          (forall text, extracted_text (UploadedFile.file fileObj) = Ok text ->
             UploadedFile.processingStatus item = Some ProcessingStatus.success
             /\ UploadedFile.error item = UploadedFile.error fileObj
             /\ exists pdfId,
                  PDFUploadView.pdf_record NFKD pdfId fileObj item (full_year w)
                    ∈ pdf_uploads w'
                  /\ (batchId, pdfId) ∈ batch_pdfs w')
          /\ (forall e, extracted_text (UploadedFile.file fileObj) = Throw e ->
                UploadedFile.processingStatus item = Some ProcessingStatus.error
                /\ UploadedFile.error item
                   = Some (JS.or_else e "Failed to process PDF"))).
Proof.
  destruct (for_loop_spec batchId files 0 files w ltac:(simpl; lia))
    as (report & w' & E & Hl & _ & _ & _ & _ & Hf).
  exists report, w'. unfold PDFUploadView.upload_loop at 1. rewrite E.
  split; [done|]. split; [done|]. split.
  - intros i f Hi. destruct (Hf i f Hi) as (item & wa & L & A & St).
    exists item, wa. split; [done|]. split; [|done].
    assert (W : (PDFUploadView.upload_loop JSON_parse NFKD batchId (take i files) w).2
                = (PDFUploadView.for_loop JSON_parse NFKD batchId 0 (take i files)
                     (files, w)).2.2).
    { unfold PDFUploadView.upload_loop.
      destruct (for_loop_spec batchId (take i files) 0 (take i files) w ltac:(simpl; lia))
        as (r1 & w1 & E1 & _).
      rewrite E1. simpl.
      rewrite (for_loop_world batchId (take i files) 0 files 0 (take i files) w), E1;
        [done|..]; simpl; rewrite ?length_take; lia. }
    by rewrite W.
  - intros Q i f item Hi Li.
    destruct (for_loop_quiet batchId files 0 files w Q ltac:(simpl; lia))
      as (report' & w'' & E' & Hq).
    rewrite E in E'. injection E' as <- <-.
    destruct (Hq i f Hi) as (item' & Li' & Vs & Ve). simpl in Li'.
    rewrite Li in Li'. injection Li' as <-.
    destruct (Hf i f Hi) as (item'' & _ & Li'' & _ & St). simpl in Li''.
    rewrite Li in Li''. injection Li'' as <-.
    split; [|exact Ve].
    intros text Ht. destruct (Vs text Ht) as [Hs He]. split; [done|]. split; [done|].
    destruct St as [[Hf' _]|(_ & _ & Hp)]; [congruence|exact Hp].
Qed.

End LoopFacts.

(** The batch of the specification: the second of three files has no text.
    The first and the third are processed and persisted; the second is
    reported with status [error] and the message of the extraction. *)
Example upload_loop_three_files :
  match PDFUploadView.upload_loop JSON.parse_flat Examples.NFKD "batch-1"
          Examples.three_files Examples.batch_world with
  | (Ok report, w') =>
      (UploadedFile.processingStatus <$> report,
       UploadedFile.error <$> report,
       (fun r => (filename r, title r, doi r)) <$> pdf_uploads w',
       batch_pdfs w')
  | (Throw _, _) => ([], [], [], [])
  end
  = ([Some ProcessingStatus.success; Some ProcessingStatus.error;
      Some ProcessingStatus.success],
     [None;
      Some "Could not extract text from PDF: No text content found in PDF";
      None],
     [("one.pdf", Some "one", Some "10.1000/xyz");
      ("two.pdf", None, None);
      ("three.pdf", Some "three", None)],
     [("batch-1", 0); ("batch-1", 1); ("batch-1", 2)]).
Proof. vm_compute. reflexivity. Qed.

(** The batch of the specification, with nothing refused: the third file,
    after the failure of the second, comes out with status [success] and is
    persisted, and the second with status [error] and the message of its
    extraction. *)
Lemma upload_loop_isolates_failures_witness :
  exists report w' second third,
    PDFUploadView.upload_loop JSON.parse_flat Examples.NFKD "batch-1"
      Examples.three_files Examples.batch_world = (Ok report, w')
    /\ length report = 3
    /\ report !! 1 = Some second
    /\ UploadedFile.processingStatus second = Some ProcessingStatus.error
    /\ UploadedFile.error second
       = Some "Could not extract text from PDF: No text content found in PDF"
    /\ report !! 2 = Some third
    /\ UploadedFile.processingStatus third = Some ProcessingStatus.success
    /\ (exists pdfId,
          PDFUploadView.pdf_record Examples.NFKD pdfId
            (Examples.dropped "f3" (Examples.text_file "three.pdf" ["Number Theory"]))
            third 2025 ∈ pdf_uploads w'
          /\ ("batch-1", pdfId) ∈ batch_pdfs w').
Proof.
  destruct (upload_loop_isolates_failures JSON.parse_flat Examples.NFKD "batch-1"
              Examples.three_files Examples.batch_world) as (report & w' & E & L & H & V).
  destruct (H 1 (Examples.dropped "f2" (Examples.empty_file "two.pdf")) eq_refl)
    as (second & _ & H2 & _).
  destruct (H 2 (Examples.dropped "f3" (Examples.text_file "three.pdf" ["Number Theory"]))
              eq_refl) as (third & _ & H3 & _).
  destruct (V (Forall_nil_2 _) 1 _ second eq_refl H2) as [_ V2].
  destruct (V (Forall_nil_2 _) 2 _ third eq_refl H3) as [V3 _].
  destruct (V2 "Could not extract text from PDF: No text content found in PDF" eq_refl)
    as [S2 E2].
  destruct (V3 "Number Theory" eq_refl) as (S3 & _ & P3).
  exists report, w', second, third. repeat split; assumption.
Defined.

(** * The rest of the services *)

(** ** The store of AI configurations *)

Lemma db_call_quiet (w : World) :
  no_refusal w ->
  exists w', db_call w = (Ok DbOk, w') /\ no_refusal w'
    /\ ai_models w' = ai_models w /\ firecrawl_api_keys w' = firecrawl_api_keys w
    /\ cachedApiKey w' = cachedApiKey w /\ now_iso w' = now_iso w
    /\ now_ms w' = now_ms w
    /\ http_log w' = http_log w /\ http_script w' = http_script w.
Proof.
  unfold no_refusal, db_call. intros H.
  destruct (db_script w) as [|o rest] eqn:S.
  - exists w. rewrite S. repeat split; done.
  - inversion H as [|? ? -> Hr]; subst. eexists. split; [reflexivity|].
    repeat split; done.
Qed.

Lemma db_call_models (w : World) : ai_models (db_call w).2 = ai_models w.
Proof. unfold db_call. by destruct (db_script w). Qed.

Lemma try_catch_ret_world {St A} (c : MS St A) (x : A) (w : St) :
  (try_catch c (fun _ => ret x) w).2 = (c w).2.
Proof. unfold try_catch, ret. by destruct (c w) as [[a|e] w']. Qed.

Lemma bind_world {St A B} (c : MS St A) (k : A -> MS St B) (P : St -> Prop) (w : St) :
  P (c w).2 -> (forall a w', P w' -> P (k a w').2) -> P (bind c k w).2.
Proof. unfold bind. destruct (c w) as [[a|e] w']; simpl; eauto. Qed.

Lemma select_defaults_sole (id : string) (t : gmap string AIModel) (m : AIModel) :
  sole_default id t -> t !! id = Some m -> Supabase.select_defaults t = [m].
Proof.
  intros [(m0 & L0 & D0) Hu] L. rewrite L in L0. injection L0 as <-.
  unfold Supabase.select_defaults.
  assert (E : filter (fun kv : string * AIModel => is_default kv.2 = true) t = {[id := m]}).
  { apply map_eq. intros j. destruct (decide (j = id)) as [->|N].
    - rewrite lookup_singleton_eq. apply map_lookup_filter_Some. done.
    - rewrite lookup_singleton_ne by done.
      destruct (filter _ t !! j) as [mj|] eqn:F; [|done].
      apply map_lookup_filter_Some in F as [Lj Dj]. simpl in Dj.
      by rewrite (Hu _ _ Lj Dj) in N. }
  rewrite E, map_to_list_singleton. done.
Qed.

Lemma select_defaults_default_at (t : gmap string AIModel) (j : string) :
  default_at t j -> Supabase.select_defaults t <> [].
Proof.
  intros (m & L & D). unfold Supabase.select_defaults. intros E.
  apply fmap_nil_inv, map_to_list_empty_iff in E.
  assert (F : filter (fun kv : string * AIModel => is_default kv.2 = true) t !! j = Some m)
    by by apply map_lookup_filter_Some.
  by rewrite E in F.
Qed.

Lemma getDefaultModel_sole (id : string) (m : AIModel) (w : World) :
  no_refusal w -> sole_default id (ai_models w) -> ai_models w !! id = Some m ->
  exists w', AIService.getDefaultModel w = (Ok (Some m), w') /\ no_refusal w'
    /\ ai_models w' = ai_models w /\ http_log w' = http_log w
    /\ http_script w' = http_script w.
Proof.
  intros Q S L. destruct (db_call_quiet w Q) as (w' & E & Q' & A & _ & _ & _ & _ & Hl & Hs).
  exists w'. unfold AIService.getDefaultModel, try_catch, bind. rewrite E. simpl.
  rewrite A, (select_defaults_sole id _ m S L). done.
Qed.

Lemma getModelById_quiet (id : string) (w : World) :
  no_refusal w ->
  exists w', AIService.getModelById id w = (Ok (ai_models w !! id), w')
    /\ no_refusal w' /\ ai_models w' = ai_models w /\ http_log w' = http_log w
    /\ http_script w' = http_script w.
Proof.
  intros Q. destruct (db_call_quiet w Q) as (wa & Ea & Qa & Aa & _ & _ & _ & _ & Hl & Hs).
  exists wa. unfold AIService.getModelById, try_catch, bind. rewrite Ea. simpl.
  by rewrite Aa.
Qed.

Lemma clear_lookup (now : string) (t : gmap string AIModel) (id : string) (m : AIModel) :
  t !! id = Some m ->
  Supabase.update_clear_defaults now t !! id
  = Some (if is_default m then Supabase.set_default false now m else m).
Proof. intros L. unfold Supabase.update_clear_defaults. by rewrite lookup_fmap, L. Qed.

Lemma fmap_clear_idem (now : string) (t : gmap string AIModel) :
  Supabase.set_default false now <$> Supabase.update_clear_defaults now t
  = Supabase.set_default false now <$> t.
Proof.
  unfold Supabase.update_clear_defaults. rewrite <- map_fmap_compose.
  apply map_fmap_ext. intros j m _. simpl. by destruct (is_default m).
Qed.

(** A row written as default is the only default: the row trigger has cleared
    the others. *)
Lemma insert_default_sole (id : string) (m : AIModel) (now : string)
    (t : gmap string AIModel) :
  is_default m = true -> sole_default id (<[id := m]> (Supabase.set_default false now <$> t)).
Proof.
  intros D. split.
  - exists m. by rewrite lookup_insert_eq.
  - intros j mj Lj Dj. destruct (decide (j = id)) as [->|N]; [done|].
    rewrite lookup_insert_ne, lookup_fmap in Lj by done.
    destruct (t !! j); simplify_eq/=.
Qed.

Lemma sole_default_delete (id : string) (t : gmap string AIModel) :
  sole_default id t -> no_default (delete id t).
Proof.
  intros [_ Hu] j m Lj. apply lookup_delete_Some in Lj as [N Lj].
  destruct (is_default m) eqn:D; [|done]. by rewrite (Hu _ _ Lj D) in N.
Qed.

Lemma singleton_sole_default (id : string) (m : AIModel) :
  is_default m = true -> sole_default id {[id := m]}.
Proof.
  intros D. split.
  - exists m. by rewrite lookup_singleton_eq.
  - intros j mj Lj _. by apply lookup_singleton_Some in Lj as [-> _].
Qed.

Lemma sole_default_at_most_one (id : string) (t : gmap string AIModel) :
  sole_default id t -> at_most_one_default t.
Proof.
  intros [_ Hu] i j mi mj Li Lj Di Dj. by rewrite (Hu _ _ Li Di), (Hu _ _ Lj Dj).
Qed.

(** The two writes of [setAsDefault] when none is refused and the row exists. *)
Lemma setAsDefault_quiet (id : string) (m : AIModel) (w : World) :
  no_refusal w -> ai_models w !! id = Some m ->
  exists w1,
    AIService.setAsDefault id w = (Ok true, w1)
    /\ no_refusal w1
    /\ ai_models w1
       = <[id := Supabase.set_default true (now_iso w) m]>
           (Supabase.set_default false (now_iso w) <$> ai_models w).
Proof.
  intros Q L.
  destruct (db_call_quiet w Q) as (wa & Ea & Qa & Aa & _ & _ & Na & _).
  set (wb := with_ai_models (Supabase.update_clear_defaults (now_iso wa) (ai_models wa)) wa).
  destruct (db_call_quiet wb Qa) as (wc & Ec & Qc & Ac & _ & _ & Nc & _).
  eexists. unfold AIService.setAsDefault, AIService.clearDefaultModels, try_catch, bind.
  rewrite Ea. simpl. fold wb. rewrite Ec. simpl. split; [reflexivity|].
  split; [done|]. simpl.
  rewrite Ac, Nc. subst wb. simpl. rewrite Aa, Na.
  unfold Supabase.update_set_default. rewrite (clear_lookup _ _ _ _ L).
  rewrite fmap_clear_idem. f_equal. by destruct (is_default m).
Qed.

(** X1: when no write is refused, [setAsDefault] on the id of a stored
    configuration returns [true] and leaves this configuration as the only
    default; [getDefaultModel] then returns it, flagged and stamped. *)
Theorem setAsDefault_then_getDefaultModel (id : string) (m : AIModel) (w : World) :
  no_refusal w -> ai_models w !! id = Some m ->
  exists w1 w2,
    AIService.setAsDefault id w = (Ok true, w1)
    /\ sole_default id (ai_models w1)
    /\ AIService.getDefaultModel w1
       = (Ok (Some (Supabase.set_default true (now_iso w) m)), w2).
Proof.
  intros Q L. destruct (setAsDefault_quiet id m w Q L) as (w1 & E1 & Q1 & A1).
  assert (S1 : sole_default id (ai_models w1)) by (rewrite A1; by apply insert_default_sole).
  assert (L1 : ai_models w1 !! id = Some (Supabase.set_default true (now_iso w) m))
    by by rewrite A1, lookup_insert_eq.
  destruct (getDefaultModel_sole id _ w1 Q1 S1 L1) as (w2 & E2 & _).
  by exists w1, w2.
Qed.

Lemma setAsDefault_then_getDefaultModel_witness :
  exists w1 w2,
    AIService.setAsDefault "m2" Examples.three_models = (Ok true, w1)
    /\ sole_default "m2" (ai_models w1)
    /\ AIService.getDefaultModel w1
       = (Ok (Some (Supabase.set_default true "2025-01-01T00:00:00.000Z"
                      Examples.openrouter_model)), w2).
Proof.
  apply (setAsDefault_then_getDefaultModel "m2" Examples.openrouter_model
           Examples.three_models).
  - apply Forall_nil_2.
  - reflexivity.
Defined.

(** X2: [setAsDefault] on an id that no row has still returns [true]; it has
    cleared every default and flagged none, so the store is left without a
    default and a completion without a model id throws the no-model error. *)
Theorem setAsDefault_unknown_id (id prompt : string) (context : option string)
    (papers : option (list PaperData.t)) (w : World) :
  no_refusal w -> ai_models w !! id = None ->
  exists w1 w2,
    AIService.setAsDefault id w = (Ok true, w1)
    /\ no_default (ai_models w1)
    /\ AIService.generateCompletion prompt None context papers w1
       = (Throw AIService.NoModelConfigured, w2).
Proof.
  intros Q L.
  destruct (db_call_quiet w Q) as (wa & Ea & Qa & Aa & _ & _ & Na & _).
  set (wb := with_ai_models (Supabase.update_clear_defaults (now_iso wa) (ai_models wa)) wa).
  destruct (db_call_quiet wb Qa) as (wc & Ec & Qc & Ac & _ & _ & Nc & _).
  set (w1 := with_ai_models (Supabase.update_set_default id (now_iso wc) (ai_models wc)) wc).
  assert (E : AIService.setAsDefault id w = (Ok true, w1)).
  { unfold AIService.setAsDefault, AIService.clearDefaultModels, try_catch, bind.
    rewrite Ea. simpl. fold wb. rewrite Ec. done. }
  assert (N1 : no_default (ai_models w1)).
  { subst w1. simpl. unfold Supabase.update_set_default.
    assert (ai_models wc !! id = None) as ->.
    { rewrite Ac. subst wb. simpl. unfold Supabase.update_clear_defaults.
      by rewrite lookup_fmap, Aa, L. }
    rewrite Ac. subst wb. simpl. apply clear_no_default. }
  destruct (getDefaultModel_none w1 N1) as (w2 & E2 & _).
  exists w1, w2. split; [done|]. split; [done|].
  unfold AIService.generateCompletion, try_catch, bind. by rewrite E2.
Qed.

Lemma setAsDefault_unknown_id_witness :
  exists w1 w2,
    AIService.setAsDefault "no-such-id" Examples.world0 = (Ok true, w1)
    /\ ai_models w1 !! "m1"
       = Some (Supabase.set_default false "2025-01-01T00:00:00.000Z"
                 Examples.siliconflow_model)
    /\ AIService.generateCompletion "Summarise." None None None w1
       = (Throw AIService.NoModelConfigured, w2).
Proof.
  destruct (setAsDefault_unknown_id "no-such-id" "Summarise." None None Examples.world0)
    as (w1 & w2 & E & _ & G).
  - apply Forall_nil_2.
  - reflexivity.
  - exists w1, w2. split; [exact E|]. split; [|exact G].
    vm_compute in E. injection E as <-. reflexivity.
Defined.

(** X3: [setAsDefault] and [addModel] are not atomic. When the clearing write
    is carried out and the write after it is refused, [setAsDefault] returns
    [false], [addModel] of a model named as a default returns [null], and the
    store is left without any default. *)
Theorem refused_write_after_clearing (o : DbOutcome) (rest : list DbOutcome) (w : World) :
  db_script w = DbOk :: o :: rest -> o <> DbOk ->
  (forall id, exists w1,
      AIService.setAsDefault id w = (Ok false, w1) /\ no_default (ai_models w1))
  /\ (forall id model,
        JS.includes "default" (JS.toLowerCase (AIModelInput.name model)) = true ->
        exists w1,
          AIService.addModel id model w = (Ok None, w1) /\ no_default (ai_models w1)).
Proof.
  intros S Ho. split.
  - intros id. unfold AIService.setAsDefault, AIService.clearDefaultModels,
      try_catch, bind, db_call. rewrite S. simpl.
    destruct o as [|e|e]; [done|..]; eexists; (split; [reflexivity|]); simpl;
      apply clear_no_default.
  - intros id model I. unfold AIService.addModel, try_catch. unfold bind at 1.
    rewrite I. simpl. unfold bind, AIService.clearDefaultModels,
      AIService.insert_model, try_catch, bind, db_call. rewrite S. simpl.
    destruct o as [|e|e]; [done|..]; eexists; (split; [reflexivity|]); simpl;
      apply clear_no_default.
Qed.

Lemma refused_write_after_clearing_witness :
  exists w1 w2,
    AIService.setAsDefault "m1"
      (with_db_script [DbOk; DbError "timeout"] Examples.world0) = (Ok false, w1)
    /\ Supabase.select_defaults (ai_models w1) = []
    /\ AIService.addModel "m9" Examples.default_input
         (with_db_script [DbOk; DbError "timeout"] Examples.world0) = (Ok None, w2)
    /\ Supabase.select_defaults (ai_models w2) = [].
Proof.
  destruct (refused_write_after_clearing (DbError "timeout") []
              (with_db_script [DbOk; DbError "timeout"] Examples.world0))
    as [H1 H2]; [reflexivity|discriminate|].
  destruct (H1 "m1") as (w1 & E1 & N1).
  destruct (H2 "m9" Examples.default_input) as (w2 & E2 & N2); [reflexivity|].
  exists w1, w2. split; [exact E1|]. split; [by apply select_defaults_none|].
  split; [exact E2|]. by apply select_defaults_none.
Defined.

Lemma insert_row_at_most_one (id : string) (m : AIModel) (now : string)
    (t t' : gmap string AIModel) :
  at_most_one_default t -> Supabase.insert_row id m now t = Some t' ->
  at_most_one_default t'.
Proof.
  unfold Supabase.insert_row. intros H. destruct (t !! id) eqn:L; [done|].
  intros [= <-]. intros i j mi mj Li Lj Di Dj.
  destruct (is_default m) eqn:D.
  - destruct (decide (i = id)) as [->|Ni], (decide (j = id)) as [->|Nj]; [done|..].
    + rewrite lookup_insert_ne, lookup_fmap in Lj by done. destruct (t !! j); simplify_eq/=.
    + rewrite lookup_insert_ne, lookup_fmap in Li by done. destruct (t !! i); simplify_eq/=.
    + rewrite lookup_insert_ne, lookup_fmap in Li by done. destruct (t !! i); simplify_eq/=.
  - destruct (decide (i = id)) as [->|Ni].
    { rewrite lookup_insert_eq in Li. simplify_eq. congruence. }
    destruct (decide (j = id)) as [->|Nj].
    { rewrite lookup_insert_eq in Lj. simplify_eq. congruence. }
    rewrite lookup_insert_ne in Li, Lj by done. eauto.
Qed.

Lemma update_row_at_most_one (id : string) (change : AIModel -> AIModel) (now : string)
    (t : gmap string AIModel) (data : AIModel) (t' : gmap string AIModel) :
  at_most_one_default t -> Supabase.update_row id change now t = Some (data, t') ->
  at_most_one_default t'.
Proof.
  unfold Supabase.update_row. intros H. destruct (t !! id) as [m|] eqn:L; [|done].
  intros [= <- <-]. intros i j mi mj Li Lj Di Dj.
  destruct (is_default m) eqn:D.
  - destruct (decide (i = id)) as [->|Ni], (decide (j = id)) as [->|Nj]; [done|..].
    + rewrite lookup_insert_ne, lookup_fmap in Lj by done. destruct (t !! j); simplify_eq/=.
    + rewrite lookup_insert_ne, lookup_fmap in Li by done. destruct (t !! i); simplify_eq/=.
    + rewrite lookup_insert_ne, lookup_fmap in Li by done. destruct (t !! i); simplify_eq/=.
  - destruct (decide (i = id)) as [->|Ni].
    { rewrite lookup_insert_eq in Li. simplify_eq. }
    destruct (decide (j = id)) as [->|Nj].
    { rewrite lookup_insert_eq in Lj. simplify_eq. }
    rewrite lookup_insert_ne in Li, Lj by done. eauto.
Qed.

Lemma delete_at_most_one (id : string) (t : gmap string AIModel) :
  at_most_one_default t -> at_most_one_default (delete id t).
Proof.
  intros H i j mi mj Li Lj. apply lookup_delete_Some in Li as [_ Li].
  apply lookup_delete_Some in Lj as [_ Lj]. eauto.
Qed.

Lemma insert_model_at_most_one (id : string) (model : AIModelInput.t) (flag : bool)
    (w : World) :
  at_most_one_default (ai_models w) ->
  at_most_one_default (ai_models (AIService.insert_model id model flag w).2).
Proof.
  intros H. unfold AIService.insert_model, bind.
  pose proof (db_call_models w) as A.
  destruct (db_call w) as [[[|e|e]|e] w1]; simpl in *; rewrite ?A; try done.
  destruct (Supabase.insert_row _ _ _ _) as [t'|] eqn:I; simpl; rewrite ?A; [|done].
  eapply insert_row_at_most_one; [|exact I]. by rewrite ?A.
Qed.

Lemma clearDefaultModels_at_most_one (w : World) :
  at_most_one_default (ai_models w) ->
  at_most_one_default (ai_models (AIService.clearDefaultModels w).2).
Proof.
  intros H. unfold AIService.clearDefaultModels, try_catch, bind.
  pose proof (db_call_models w) as A.
  destruct (db_call w) as [[[|e|e]|e] w1]; simpl in *; rewrite ?A; try done.
  apply no_default_at_most_one, clear_no_default.
Qed.

Lemma hasDefaultModel_models (w : World) :
  ai_models (AIService.hasDefaultModel w).2 = ai_models w.
Proof.
  unfold AIService.hasDefaultModel, try_catch, bind.
  pose proof (db_call_models w) as A.
  by destruct (db_call w) as [[[|e|e]|e] w1].
Qed.

(** X4: whatever the persistence layer answers, [addModel], [updateModel] and
    [deleteModel] keep the invariant that at most one configuration is the
    default. *)
Theorem store_writes_keep_at_most_one_default (w : World) :
  at_most_one_default (ai_models w) ->
  (forall id model,
     at_most_one_default (ai_models (AIService.addModel id model w).2)) /\
  (forall id model,
     at_most_one_default (ai_models (AIService.updateModel id model w).2)) /\
  (forall id, at_most_one_default (ai_models (AIService.deleteModel id w).2)).
Proof.
  intros H. repeat split.
  - intros id model. unfold AIService.addModel. rewrite try_catch_ret_world.
    apply (bind_world _ _ (fun w => at_most_one_default (ai_models w))).
    + destruct (JS.includes _ _); [done|].
      apply (bind_world _ _ (fun w => at_most_one_default (ai_models w))); [|done].
      by rewrite hasDefaultModel_models.
    + intros [] w0 H0.
      * apply (bind_world _ _ (fun w => at_most_one_default (ai_models w))).
        -- by apply clearDefaultModels_at_most_one.
        -- intros _ w1. apply insert_model_at_most_one.
      * by apply insert_model_at_most_one.
  - intros id model. unfold AIService.updateModel, try_catch, bind.
    pose proof (db_call_models w) as A.
    destruct (db_call w) as [[[|e|e]|e] w1]; simpl in *; rewrite ?A; try done.
    destruct (Supabase.update_row _ _ _ _) as [[data t']|] eqn:U; simpl; rewrite ?A; [|done].
    eapply update_row_at_most_one; [|exact U]. by rewrite ?A.
  - intros id. unfold AIService.deleteModel, try_catch, bind.
    pose proof (db_call_models w) as A.
    destruct (db_call w) as [[[|e|e]|e] w1]; simpl in *; rewrite ?A; try done.
    by apply delete_at_most_one.
Qed.

Lemma store_writes_keep_at_most_one_default_witness :
  at_most_one_default
    (ai_models (AIService.addModel "m9" Examples.default_input Examples.world0).2)
  /\ at_most_one_default
       (ai_models (AIService.updateModel "m1" Examples.rename Examples.world0).2)
  /\ at_most_one_default (ai_models (AIService.deleteModel "m1" Examples.world0).2).
Proof.
  destruct (store_writes_keep_at_most_one_default Examples.world0) as (H1 & H2 & H3).
  - apply (sole_default_at_most_one "m1"). by apply singleton_sole_default.
  - split; [apply H1|split; [apply H2|apply H3]].
Defined.

Lemma clearDefaultModels_quiet (w : World) :
  no_refusal w ->
  exists w', AIService.clearDefaultModels w = (Ok true, w') /\ no_refusal w'
    /\ ai_models w' = Supabase.update_clear_defaults (now_iso w) (ai_models w)
    /\ now_iso w' = now_iso w.
Proof.
  intros Q. destruct (db_call_quiet w Q) as (wa & Ea & Qa & Aa & _ & _ & Na & _).
  eexists. unfold AIService.clearDefaultModels, try_catch, bind. rewrite Ea. simpl.
  split; [reflexivity|]. simpl. by rewrite Aa, Na.
Qed.

Lemma hasDefaultModel_quiet (w : World) :
  no_refusal w ->
  exists w', AIService.hasDefaultModel w
             = (Ok (negb (Nat.eqb (length (Supabase.select_defaults (ai_models w))) 0)), w')
    /\ no_refusal w' /\ ai_models w' = ai_models w /\ now_iso w' = now_iso w.
Proof.
  intros Q. destruct (db_call_quiet w Q) as (wa & Ea & Qa & Aa & _ & _ & Na & _).
  exists wa. unfold AIService.hasDefaultModel, try_catch, bind. rewrite Ea. simpl.
  by rewrite Aa.
Qed.

Lemma insert_model_quiet (id : string) (model : AIModelInput.t) (flag : bool) (w : World) :
  no_refusal w -> ai_models w !! id = None ->
  exists w', AIService.insert_model id model flag w
             = (Ok (Some (AIService.new_row model flag (now_iso w))), w')
    /\ no_refusal w'
    /\ ai_models w'
       = <[id := AIService.new_row model flag (now_iso w)]>
           (if flag then Supabase.set_default false (now_iso w) <$> ai_models w
            else ai_models w).
Proof.
  intros Q L. destruct (db_call_quiet w Q) as (wa & Ea & Qa & Aa & _ & _ & Na & _).
  eexists. unfold AIService.insert_model, bind. rewrite Ea. simpl.
  unfold Supabase.insert_row. rewrite Aa, L, Na. simpl. done.
Qed.

(** The promoting branch of [addModel]. *)
Lemma promote_quiet (id : string) (model : AIModelInput.t) (w : World) :
  no_refusal w -> ai_models w !! id = None ->
  exists w1,
    (let* _ := AIService.clearDefaultModels in AIService.insert_model id model true) w
    = (Ok (Some (AIService.new_row model true (now_iso w))), w1)
    /\ no_refusal w1
    /\ ai_models w1
       = <[id := AIService.new_row model true (now_iso w)]>
           (Supabase.set_default false (now_iso w) <$> ai_models w).
Proof.
  intros Q L. destruct (clearDefaultModels_quiet w Q) as (wa & Ea & Qa & Aa & Na).
  assert (La : ai_models wa !! id = None).
  { rewrite Aa. unfold Supabase.update_clear_defaults. by rewrite lookup_fmap, L. }
  destruct (insert_model_quiet id model true wa Qa La) as (w1 & E1 & Q1 & A1).
  exists w1. unfold bind. rewrite Ea, E1, Na. split; [done|]. split; [done|].
  by rewrite A1, Na, Aa, fmap_clear_idem.
Qed.

(** X5: when no write is refused, a model added under a fresh id becomes the
    only default if its name contains "default" in any letter case, or if the
    store has no default; [getDefaultModel] then returns it. *)
Theorem addModel_becomes_default (id : string) (model : AIModelInput.t) (w : World) :
  no_refusal w -> ai_models w !! id = None ->
  JS.includes "default" (JS.toLowerCase (AIModelInput.name model)) = true
  \/ no_default (ai_models w) ->
  exists w1 w2,
    AIService.addModel id model w
    = (Ok (Some (AIService.new_row model true (now_iso w))), w1)
    /\ sole_default id (ai_models w1)
    /\ AIService.getDefaultModel w1
       = (Ok (Some (AIService.new_row model true (now_iso w))), w2).
Proof.
  intros Q L C.
  assert (exists w1, AIService.addModel id model w
                     = (Ok (Some (AIService.new_row model true (now_iso w))), w1)
            /\ no_refusal w1
            /\ ai_models w1
               = <[id := AIService.new_row model true (now_iso w)]>
                   (Supabase.set_default false (now_iso w) <$> ai_models w))
    as (w1 & E1 & Q1 & A1).
  { unfold AIService.addModel, try_catch. unfold bind at 1.
    destruct (JS.includes _ _) eqn:I.
    - simpl. destruct (promote_quiet id model w Q L) as (w1 & E1 & R). exists w1.
      by rewrite E1.
    - destruct C as [C|C]; [done|].
      destruct (hasDefaultModel_quiet w Q) as (wa & Ea & Qa & Aa & Na).
      rewrite (select_defaults_none _ C) in Ea. simpl in Ea.
      unfold bind at 1. rewrite Ea. simpl.
      rewrite <- Aa in L. destruct (promote_quiet id model wa Qa L) as (w1 & E1 & R).
      exists w1. rewrite E1, Na, Aa in *. done. }
  assert (S1 : sole_default id (ai_models w1)) by (rewrite A1; by apply insert_default_sole).
  assert (L1 : ai_models w1 !! id = Some (AIService.new_row model true (now_iso w)))
    by by rewrite A1, lookup_insert_eq.
  destruct (getDefaultModel_sole id _ w1 Q1 S1 L1) as (w2 & E2 & _).
  exists w1, w2. done.
Qed.

Lemma addModel_becomes_default_witness :
  exists w1 w2,
    AIService.addModel "m9" Examples.default_input Examples.world0
    = (Ok (Some (AIService.new_row Examples.default_input true
                   "2025-01-01T00:00:00.000Z")), w1)
    /\ sole_default "m9" (ai_models w1)
    /\ AIService.getDefaultModel w1
       = (Ok (Some (AIService.new_row Examples.default_input true
                      "2025-01-01T00:00:00.000Z")), w2).
Proof.
  apply (addModel_becomes_default "m9" Examples.default_input Examples.world0).
  - apply Forall_nil_2.
  - reflexivity.
  - left. reflexivity.
Defined.

(** X6: when no write is refused, the store has a default and the name of the
    new model does not contain "default", the model is added as it is, not
    as default, and no other row is written. *)
Theorem addModel_beside_default (id j : string) (model : AIModelInput.t) (w : World) :
  no_refusal w -> ai_models w !! id = None ->
  JS.includes "default" (JS.toLowerCase (AIModelInput.name model)) = false ->
  default_at (ai_models w) j ->
  exists w1,
    AIService.addModel id model w
    = (Ok (Some (AIService.new_row model false (now_iso w))), w1)
    /\ ai_models w1 = <[id := AIService.new_row model false (now_iso w)]> (ai_models w).
Proof.
  intros Q L I D.
  destruct (hasDefaultModel_quiet w Q) as (wa & Ea & Qa & Aa & Na).
  pose proof (select_defaults_default_at _ _ D) as Hd.
  destruct (Supabase.select_defaults (ai_models w)) as [|d ds] eqn:Sd; [done|].
  simpl in Ea. rewrite <- Aa in L.
  destruct (insert_model_quiet id model false wa Qa L) as (w1 & E1 & Q1 & A1).
  exists w1. unfold AIService.addModel, try_catch. unfold bind at 1. rewrite I.
  unfold bind at 1. rewrite Ea. simpl. rewrite E1, A1, Na, Aa. done.
Qed.

Lemma addModel_beside_default_witness :
  exists w1,
    AIService.addModel "m9" Examples.plain_input Examples.world0
    = (Ok (Some (AIService.new_row Examples.plain_input false
                   "2025-01-01T00:00:00.000Z")), w1)
    /\ ai_models w1
       = <["m9" := AIService.new_row Examples.plain_input false
                     "2025-01-01T00:00:00.000Z"]> (ai_models Examples.world0).
Proof.
  apply (addModel_beside_default "m9" "m1" Examples.plain_input Examples.world0).
  - apply Forall_nil_2.
  - reflexivity.
  - reflexivity.
  - exists Examples.siliconflow_model. split; reflexivity.
Defined.

(** X7: [hasDefaultModel] answers [false] when its lookup is refused, so
    [addModel] then promotes the new model although its name does not ask for
    it: with the later writes carried out, the new model is the only default,
    whatever default the store had. *)
Theorem addModel_refused_check_promotes (id : string) (model : AIModelInput.t)
    (o : DbOutcome) (rest : list DbOutcome) (w : World) :
  db_script w = o :: rest -> o <> DbOk -> Forall (fun o => o = DbOk) rest ->
  ai_models w !! id = None ->
  JS.includes "default" (JS.toLowerCase (AIModelInput.name model)) = false ->
  exists w1,
    AIService.addModel id model w
    = (Ok (Some (AIService.new_row model true (now_iso w))), w1)
    /\ sole_default id (ai_models w1).
Proof.
  intros S Ho Hr L I.
  assert (Eh : AIService.hasDefaultModel w = (Ok false, with_db_script rest w)).
  { unfold AIService.hasDefaultModel, try_catch, bind, db_call. rewrite S.
    by destruct o. }
  assert (Q : no_refusal (with_db_script rest w)) by done.
  destruct (promote_quiet id model (with_db_script rest w) Q L) as (w1 & E1 & Q1 & A1).
  exists w1. unfold AIService.addModel, try_catch. unfold bind at 1. rewrite I.
  unfold bind at 1. rewrite Eh. simpl. simpl in E1. rewrite E1. split; [done|].
  rewrite A1. by apply insert_default_sole.
Qed.

Lemma addModel_refused_check_promotes_witness :
  exists w1,
    AIService.addModel "m9" Examples.plain_input
      (with_db_script [DbError "timeout"] Examples.world0)
    = (Ok (Some (AIService.new_row Examples.plain_input true
                   "2025-01-01T00:00:00.000Z")), w1)
    /\ sole_default "m9" (ai_models w1).
Proof.
  apply (addModel_refused_check_promotes "m9" Examples.plain_input (DbError "timeout") []
           (with_db_script [DbError "timeout"] Examples.world0)).
  - reflexivity.
  - discriminate.
  - apply Forall_nil_2.
  - reflexivity.
  - reflexivity.
Defined.

(** X8: deleting the only default promotes no other configuration: the row
    is gone, no default is left, and a completion without a model id throws
    the no-model error. *)
Theorem deleteModel_of_default (id prompt : string) (context : option string)
    (papers : option (list PaperData.t)) (w : World) :
  no_refusal w -> sole_default id (ai_models w) ->
  exists w1 w2,
    AIService.deleteModel id w = (Ok true, w1)
    /\ ai_models w1 = delete id (ai_models w)
    /\ AIService.generateCompletion prompt None context papers w1
       = (Throw AIService.NoModelConfigured, w2).
Proof.
  intros Q S. destruct (db_call_quiet w Q) as (wa & Ea & Qa & Aa & _).
  set (w1 := with_ai_models (delete id (ai_models wa)) wa).
  assert (N1 : no_default (ai_models w1)).
  { subst w1. simpl. rewrite Aa. by apply sole_default_delete. }
  destruct (getDefaultModel_none w1 N1) as (w2 & E2 & _).
  exists w1, w2. unfold AIService.deleteModel, try_catch, bind. rewrite Ea. simpl.
  split; [done|]. split; [by rewrite Aa|].
  unfold AIService.generateCompletion, try_catch, bind. by rewrite E2.
Qed.

Lemma deleteModel_of_default_witness :
  exists w1 w2,
    AIService.deleteModel "m1" Examples.world0 = (Ok true, w1)
    /\ ai_models w1 = delete "m1" (ai_models Examples.world0)
    /\ AIService.generateCompletion "Summarise." None None None w1
       = (Throw AIService.NoModelConfigured, w2).
Proof.
  apply (deleteModel_of_default "m1" "Summarise." None None Examples.world0).
  - apply Forall_nil_2.
  - by apply singleton_sole_default.
Defined.

(** X9: [updateModel] never changes which configuration is the default,
    whatever the persistence layer answers: in a store with at most one
    default, a row is flagged after the call exactly when it was before. *)
Theorem updateModel_keeps_default (id j : string) (model : AIModelUpdateInput.t)
    (w : World) :
  at_most_one_default (ai_models w) ->
  default_at (ai_models (AIService.updateModel id model w).2) j
  <-> default_at (ai_models w) j.
Proof.
  intros H. unfold AIService.updateModel, try_catch, bind.
  pose proof (db_call_models w) as A.
  destruct (db_call w) as [[[|e|e]|e] w1]; simpl in *; rewrite ?A; try done.
  unfold Supabase.update_row.
  destruct (ai_models w !! id) as [m|] eqn:L; simpl; rewrite ?A; [|done].
  unfold default_at. destruct (decide (j = id)) as [->|N].
  - rewrite lookup_insert_eq, L. split; intros (m' & [= <-] & D); eauto.
  - rewrite lookup_insert_ne by done. destruct (is_default m) eqn:D; [|done].
    rewrite lookup_fmap. split.
    + intros (m' & L' & D'). destruct (ai_models w !! j); simplify_eq/=.
    + intros (m' & L' & D'). by destruct N; eapply H.
Qed.

Lemma updateModel_keeps_default_witness :
  default_at (ai_models (AIService.updateModel "m1" Examples.rename Examples.world0).2) "m1"
  <-> default_at (ai_models Examples.world0) "m1".
Proof.
  apply (updateModel_keeps_default "m1" "m1" Examples.rename Examples.world0).
  apply (sole_default_at_most_one "m1"). by apply singleton_sole_default.
Defined.

Lemma listed_before_trans : Transitive Supabase.listed_before.
Proof.
  intros a b c. unfold Supabase.listed_before.
  destruct (is_default a), (is_default b), (is_default c); try done;
    intros H1 H2; by etrans.
Qed.

Lemma listed_before_total : Total Supabase.listed_before.
Proof.
  intros a b. unfold Supabase.listed_before.
  destruct (is_default a), (is_default b); auto;
    destruct (total String.le (created_at a) (created_at b)); auto.
Qed.

Lemma StronglySorted_lookup_lt {A} (R : relation A) (l : list A) (i j : nat) (a b : A) :
  StronglySorted R l -> i < j -> l !! i = Some a -> l !! j = Some b -> R a b.
Proof.
  intros H. revert i j. induction H as [|x l H IH F]; intros i j Hij Li Lj; [done|].
  destruct j as [|j]; [lia|]. simpl in Lj. destruct i as [|i].
  - simpl in Li. injection Li as <-. rewrite Forall_forall in F.
    apply F. by eapply list_elem_of_lookup_2.
  - simpl in Li. apply (IH i j); [lia|done..].
Qed.

(** X10: when its lookup is not refused, [getModels] returns every stored
    configuration once, and each configuration stands before the ones after
    it in the order of the query: defaults first, newer before older. *)
Theorem getModels_order (w : World) :
  no_refusal w ->
  exists l w1,
    AIService.getModels w = (Ok l, w1)
    /\ l ≡ₚ (map_to_list (ai_models w)).*2
    /\ forall i j a b, i < j -> l !! i = Some a -> l !! j = Some b ->
         Supabase.listed_before a b.
Proof.
  intros Q. destruct (db_call_quiet w Q) as (wa & Ea & Qa & Aa & _).
  exists (Supabase.select_ordered (ai_models w)), wa.
  unfold AIService.getModels, try_catch, bind. rewrite Ea. simpl. rewrite Aa.
  split; [done|]. split.
  - apply merge_sort_Permutation.
  - intros i j a b. apply StronglySorted_lookup_lt.
    apply (StronglySorted_merge_sort _ (Transitive0:=listed_before_trans)
             (Total0:=listed_before_total)).
Qed.

Lemma getModels_order_witness :
  exists l w1,
    AIService.getModels Examples.three_models = (Ok l, w1)
    /\ l ≡ₚ (map_to_list (ai_models Examples.three_models)).*2
    /\ name <$> l = ["SiliconFlow"; "GPT"; "OpenRouter"].
Proof.
  destruct (getModels_order Examples.three_models) as (l & w1 & E & P & _);
    [apply Forall_nil_2|].
  exists l, w1. split; [exact E|]. split; [exact P|].
  vm_compute in E. injection E as <- _. reflexivity.
Defined.

(** ** Providers and responses *)

Lemma dispatch_unimplemented (m : AIModel) (p : string) (w : World) :
  provider m <> "siliconflow" -> provider m <> "openrouter" ->
  exists e, AIService.dispatch m p w = (Throw e, w)
    /\ (provider m <> "openai" -> provider m <> "anthropic" -> provider m <> "google" ->
        e = AIService.ProviderNotImplemented (provider m)).
Proof.
  intros N1 N2. unfold AIService.dispatch.
  destruct (String.eqb_spec (provider m) "siliconflow"); [done|].
  destruct (String.eqb_spec (provider m) "openai"); [by eexists|].
  destruct (String.eqb_spec (provider m) "anthropic"); [by eexists|].
  destruct (String.eqb_spec (provider m) "google"); [by eexists|].
  destruct (String.eqb_spec (provider m) "openrouter"); [done|].
  by eexists.
Qed.

(** X11: for a configuration whose provider is neither siliconflow nor
    openrouter, [generateCompletion] throws without sending any request; for
    a provider that has no builder at all the message names the provider. *)
Theorem generateCompletion_unimplemented_provider (id prompt : string)
    (context : option string) (papers : option (list PaperData.t))
    (m : AIModel) (w : World) :
  no_refusal w -> JS.truthy id = true -> ai_models w !! id = Some m ->
  provider m <> "siliconflow" -> provider m <> "openrouter" ->
  exists e w1,
    AIService.generateCompletion prompt (Some id) context papers w = (Throw e, w1)
    /\ http_log w1 = http_log w
    /\ (provider m <> "openai" -> provider m <> "anthropic" -> provider m <> "google" ->
        e = AIService.ProviderNotImplemented (provider m)).
Proof.
  intros Q T L N1 N2.
  destruct (getModelById_quiet id w Q) as (wa & Ea & Qa & Aa & Hl & Hs).
  destruct (dispatch_unimplemented m (AIService.promptContent prompt context papers)
              wa N1 N2) as (e & Ed & He).
  exists e, wa. unfold AIService.generateCompletion, try_catch, bind.
  rewrite T, Ea, L, Ed. done.
Qed.

Lemma generateCompletion_unimplemented_provider_witness :
  exists w1,
    AIService.generateCompletion "Summarise." (Some "m3") None None
      (with_http [Examples.answer "Hello"] [] Examples.three_models)
    = (Throw "OpenAI API implementation not available yet", w1)
    /\ http_log w1 = [].
Proof.
  destruct (generateCompletion_unimplemented_provider "m3" "Summarise." None None
              Examples.openai_model
              (with_http [Examples.answer "Hello"] [] Examples.three_models))
    as (e & w1 & E & L & _).
  - apply Forall_nil_2.
  - reflexivity.
  - reflexivity.
  - discriminate.
  - discriminate.
  - exists w1. split; [|exact L].
    rewrite E. vm_compute in E. injection E as <- _. reflexivity.
Defined.

(** X12: for a siliconflow or openrouter configuration chosen by its id,
    [generateCompletion] sends exactly one request: to the configured
    [base_url], or the provider's own when none is configured, at
    [/chat/completions], with the key as bearer token, the configured model
    name, and the augmented prompt as the only user turn. *)
Theorem generateCompletion_request (id prompt : string)
    (context : option string) (papers : option (list PaperData.t))
    (m : AIModel) (w : World) :
  no_refusal w -> JS.truthy id = true -> ai_models w !! id = Some m ->
  provider m = "siliconflow" \/ provider m = "openrouter" ->
  http_log (AIService.generateCompletion prompt (Some id) context papers w).2
  = http_log w ++
    [{| endpoint := AIService.opt_or (base_url m) (default_base m) +:+ "/chat/completions";
        authorization := "Bearer " +:+ api_key m;
        model := model_name m;
        messages := [("user", AIService.promptContent prompt context papers)] |}].
Proof.
  intros Q T L P.
  destruct (getModelById_quiet id w Q) as (wa & Ea & Qa & Aa & Hl & Hs).
  unfold AIService.generateCompletion, try_catch, bind.
  rewrite T, Ea, L, (dispatch_implemented _ _ P).
  pose proof (chat_completion_log (default_base m) m
                (AIService.promptContent prompt context papers) wa) as C.
  destruct (AIService.chat_completion _ _ _ wa) as [[c|e] w1]; simpl in *;
    by rewrite C, Hl.
Qed.

Lemma generateCompletion_request_witness :
  http_log (AIService.generateCompletion "Summarise." (Some "m2") (Some "a context") None
              Examples.three_models).2
  = [{| endpoint := "https://proxy.example/v1/chat/completions";
        authorization := "Bearer sk-or";
        model := "mistral-7b";
        messages := [("user", AIService.context_prompt "a context" "Summarise.")] |}].
Proof.
  apply (generateCompletion_request "m2" "Summarise." (Some "a context") None
           Examples.openrouter_model Examples.three_models).
  - apply Forall_nil_2.
  - reflexivity.
  - reflexivity.
  - right. reflexivity.
Defined.

(** X13: what [generateCompletion] makes of the answer to its request, for a
    siliconflow or openrouter configuration: the first choice of a successful
    response; the empty-completion error when it has no choice; for an error
    status the message of the response body, or "API Error: " and the status
    when the body has none; the rejection of [fetch] as it is. *)
Theorem generateCompletion_response (id prompt : string)
    (context : option string) (papers : option (list PaperData.t))
    (m : AIModel) (o : HttpOutcome) (rest : list HttpOutcome) (w : World) :
  no_refusal w -> JS.truthy id = true -> ai_models w !! id = Some m ->
  provider m = "siliconflow" \/ provider m = "openrouter" ->
  http_script w = o :: rest ->
  let result := (AIService.generateCompletion prompt (Some id) context papers w).1 in
  (forall status data content others,
     o = Response true status (Ok data) -> choices data = content :: others ->
     result = Ok content)
  /\ (forall status data,
        o = Response true status (Ok data) -> choices data = [] ->
        result = Throw AIService.EmptyCompletion)
  /\ (forall status data,
        o = Response false status (Ok data) -> error_message data = None ->
        result = Throw ("API Error: " +:+ JS.of_Z status))
  /\ (forall status data message,
        o = Response false status (Ok data) -> error_message data = Some message ->
        JS.truthy message = true -> result = Throw message)
  /\ (forall e, o = FetchRejects e -> result = Throw e).
Proof.
  intros Q T L P S.
  destruct (getModelById_quiet id w Q) as (wa & Ea & Qa & Aa & Hl & Hs).
  unfold AIService.generateCompletion, try_catch, bind.
  rewrite T, Ea, L, (dispatch_implemented _ _ P).
  unfold AIService.chat_completion, try_catch, bind, fetch. rewrite Hs, S.
  repeat split.
  - intros st data c cs -> Hc. simpl. by rewrite Hc.
  - intros st data -> Hc. simpl. by rewrite Hc.
  - intros st data -> He. simpl. by rewrite He.
  - intros st data msg -> He Ht. simpl. rewrite He. simpl.
    unfold JS.or_else. by rewrite Ht.
  - by intros e ->.
Qed.

Lemma generateCompletion_response_witness :
  (AIService.generateCompletion "Summarise." (Some "m2") None None
     (with_http [Response false 429 (Ok {| error_message := None; choices := [] |})] []
        Examples.three_models)).1
  = Throw "API Error: 429".
Proof.
  destruct (generateCompletion_response "m2" "Summarise." None None
              Examples.openrouter_model
              (Response false 429 (Ok {| error_message := None; choices := [] |})) []
              (with_http [Response false 429 (Ok {| error_message := None; choices := [] |})]
                 [] Examples.three_models))
    as (_ & _ & H & _).
  - apply Forall_nil_2.
  - reflexivity.
  - reflexivity.
  - right. reflexivity.
  - reflexivity.
  - apply (H 429%Z {| error_message := None; choices := [] |}); reflexivity.
Defined.

(** X14: a model id that no row has is not replaced by the default
    configuration: the call throws the no-model error and sends nothing;
    and a refused lookup of the configuration is reported as the same
    no-model error, whether a configuration is stored or not. *)
Theorem generateCompletion_model_not_found (prompt : string)
    (context : option string) (papers : option (list PaperData.t)) (w : World) :
  (forall id, JS.truthy id = true -> ai_models w !! id = None ->
     exists w1,
       AIService.generateCompletion prompt (Some id) context papers w
       = (Throw AIService.NoModelConfigured, w1)
       /\ http_log w1 = http_log w)
  /\ (forall modelId o rest, db_script w = o :: rest -> o <> DbOk ->
        AIService.generateCompletion prompt modelId context papers w
        = (Throw AIService.NoModelConfigured, with_db_script rest w)).
Proof.
  split.
  - intros id T L. unfold AIService.generateCompletion, try_catch, bind. rewrite T.
    unfold AIService.getModelById, try_catch, bind, db_call.
    destruct (db_script w) as [|[|e|e] rest]; simpl; rewrite ?L; by eexists.
  - intros modelId o rest S Ho. unfold AIService.generateCompletion, try_catch, bind.
    assert (E : match modelId with
                | Some id => if JS.truthy id then AIService.getModelById id
                             else AIService.getDefaultModel
                | None => AIService.getDefaultModel
                end w = (Ok None, with_db_script rest w)).
    { unfold AIService.getModelById, AIService.getDefaultModel, try_catch, bind, db_call.
      destruct modelId as [id|]; [destruct (JS.truthy id)|]; rewrite S; by destruct o. }
    by rewrite E.
Qed.

(** ** The PDF pipeline *)

(** X15: a page that fails to load or to give its text is skipped: the
    extraction gives what it gives for the document without this page. *)
Theorem extractTextFromPDF_skips_failing_page (before after : list PdfPage) (e : string) :
  PDFProcessingService.extractTextFromPDF (Pages (before ++ PageFails e :: after))
  = PDFProcessingService.extractTextFromPDF (Pages (before ++ after)).
Proof.
  unfold PDFProcessingService.extractTextFromPDF, PDFProcessingService.page_loop.
  by rewrite !foldl_app.
Qed.

Lemma extractTextFromPDF_throws (d : PdfDocument) (e : string) :
  PDFProcessingService.extractTextFromPDF d = Throw e ->
  exists cause, e = PDFProcessingService.extraction_failed cause.
Proof.
  unfold PDFProcessingService.extractTextFromPDF.
  destruct d as [m|pages]; [intros [= <-]; by eexists|].
  destruct (negb _); [intros [= <-]; by eexists|done].
Qed.

Lemma dispatch_ok_log (m : AIModel) (p : string) (w : World) (r : string) (w1 : World) :
  AIService.dispatch m p w = (Ok r, w1) ->
  exists req, http_log w1 = http_log w ++ [req] /\ messages req = [("user", p)].
Proof.
  unfold AIService.dispatch, AIService.generateSiliconFlowCompletion,
    AIService.generateOpenRouterCompletion.
  repeat case_match; try done; intros E.
  all: match goal with
       | H : AIService.chat_completion ?b _ _ _ = _ |- _ =>
           exists (AIService.chat_request b m p); split; [|reflexivity];
           pose proof (chat_completion_log b m p w) as L; by rewrite H in L
       end.
Qed.

(** A completion that returns has sent its request. *)
Lemma generateCompletion_ok_log (prompt : string) (modelId context : option string)
    (papers : option (list PaperData.t)) (w : World) (r : string) (w1 : World) :
  AIService.generateCompletion prompt modelId context papers w = (Ok r, w1) ->
  exists req, http_log w1 = http_log w ++ [req]
    /\ messages req = [("user", AIService.promptContent prompt context papers)].
Proof.
  unfold AIService.generateCompletion, try_catch, bind.
  set (resolve := match modelId with
                  | Some id => if JS.truthy id then AIService.getModelById id
                               else AIService.getDefaultModel
                  | None => AIService.getDefaultModel
                  end).
  assert (L : http_log (resolve w).2 = http_log w).
  { subst resolve. destruct modelId as [id|]; [destruct (JS.truthy id)|];
      auto using getDefaultModel_log, getModelById_log. }
  destruct (resolve w) as [[[m|]|e] w0]; simpl in *; try done.
  destruct (AIService.dispatch m _ w0) as [[c|e] w2] eqn:D; [|done].
  intros [= <- <-]. rewrite <- L. by eapply dispatch_ok_log.
Qed.

(** [s.slice(0, n)] is the prefix of [s] of length [min n s.length]. *)
Lemma slice0_prefix (n : Z) (s : string) :
  (0 <= n)%Z ->
  (exists rest, s = JS.slice0 n s +:+ rest)
  /\ Z.of_nat (String.length (JS.slice0 n s)) = Z.min n (Z.of_nat (String.length s)).
Proof.
  intros Hn. unfold JS.slice0.
  assert (G : forall k t, (exists rest, t = String.substring 0 k t +:+ rest)
                          /\ String.length (String.substring 0 k t)
                             = Nat.min k (String.length t)).
  { induction k as [|k IH]; intros t.
    - destruct t; simpl; split; try done; by eexists.
    - destruct t as [|c t]; simpl; [split; [by exists ""|done]|].
      destruct (IH t) as [[rest E] L]. split; [|by rewrite L].
      exists rest. unfold String.app in *. simpl. by rewrite <- E. }
  destruct (G (Z.to_nat n) s) as [E L]. split; [done|]. rewrite L. lia.
Qed.

Section PipelineRequests.

Variable JSON_parse : string -> option (gmap string JSValue).

(** X16: [analyzeWithAI] sends at most two requests, in this order: the
    metadata prompt over the first 3000 characters of the markdown, then the
    content prompt over its first 6000 characters; a shorter markdown is sent
    whole. *)
Theorem analyzeWithAI_requests (markdown : string) (w : World) :
  exists sent initialChunk contentChunk,
    http_log (PDFProcessingService.analyzeWithAI JSON_parse markdown w).2
    = http_log w ++ sent
    /\ (messages <$> sent) `prefix_of`
       [[("user", PDFProcessingService.initialPrompt initialChunk)];
        [("user", PDFProcessingService.contentPrompt contentChunk)]]
    /\ (exists rest, markdown = initialChunk +:+ rest)
    /\ Z.of_nat (String.length initialChunk)
       = Z.min 3000 (Z.of_nat (String.length markdown))
    /\ (exists rest, markdown = contentChunk +:+ rest)
    /\ Z.of_nat (String.length contentChunk)
       = Z.min 6000 (Z.of_nat (String.length markdown)).
Proof.
  assert (exists sent,
             http_log (PDFProcessingService.analyzeWithAI JSON_parse markdown w).2
             = http_log w ++ sent
             /\ (messages <$> sent) `prefix_of`
                [[("user", PDFProcessingService.initialPrompt (JS.slice0 3000 markdown))];
                 [("user", PDFProcessingService.contentPrompt (JS.slice0 6000 markdown))]])
    as (sent & Hs & Hp).
  { rewrite analyzeWithAI_calls.
    destruct (metadata_call markdown w) as [[r1|e1] w1] eqn:E1.
    - apply generateCompletion_ok_log in E1 as (req1 & L1 & M1).
      pose proof (generateCompletion_log
                    (PDFProcessingService.contentPrompt (JS.slice0 6000 markdown))
                    None None None w1) as L2.
      fold (content_call markdown) in L2.
      assert (exists sent, http_log (content_call markdown w1).2 = http_log w ++ sent
                /\ (messages <$> sent) `prefix_of`
                   [[("user", PDFProcessingService.initialPrompt (JS.slice0 3000 markdown))];
                    [("user", PDFProcessingService.contentPrompt (JS.slice0 6000 markdown))]])
        as (sent & Hs & Hp).
      { destruct L2 as [L2|(req2 & L2 & M2)]; rewrite L2, L1.
        - exists [req1]. split; [done|]. simpl. rewrite M1. by eexists [_].
        - exists [req1; req2]. split; [by rewrite <- app_assoc|]. simpl.
          rewrite M1, M2. done. }
      exists sent. by destruct (content_call markdown w1) as [[r2|e2] w2].
    - pose proof (generateCompletion_log
                    (PDFProcessingService.initialPrompt (JS.slice0 3000 markdown))
                    None None None w) as L1.
      fold (metadata_call markdown) in L1. rewrite E1 in L1. simpl in *.
      destruct L1 as [L1|(req1 & L1 & M1)].
      + exists []. rewrite app_nil_r. split; [done|]. apply prefix_nil.
      + exists [req1]. split; [done|]. simpl. rewrite M1. by eexists [_]. }
  exists sent, (JS.slice0 3000 markdown), (JS.slice0 6000 markdown).
  destruct (slice0_prefix 3000 markdown) as [P3 L3]; [done|].
  destruct (slice0_prefix 6000 markdown) as [P6 L6]; [done|].
  done.
Qed.

(** X17: [processPDF] of the service throws only when the file cannot be
    read, with the rejection of the read as it is, or when the text
    extraction fails, with the extraction's message; in both cases before any
    request or lookup. Otherwise it returns a record whose [full_text] is the
    markdown of the text, whose [year] is the current year whatever the model
    answered, whose [authors] is never empty, and whose [title] is empty only
    when the file name without its extension is. *)
Theorem processPDF_outcome (file : File.t) (w : World) :
  (exists e,
      File.arrayBuffer file = Throw e
      /\ PDFProcessingService.processPDF JSON_parse file w = (Throw e, w))
  \/
  (exists buffer cause,
      File.arrayBuffer file = Ok buffer
      /\ PDFProcessingService.extractTextFromPDF buffer
         = Throw (PDFProcessingService.extraction_failed cause)
      /\ PDFProcessingService.processPDF JSON_parse file w
         = (Throw (PDFProcessingService.extraction_failed cause), w))
  \/
  (exists buffer text d w',
      File.arrayBuffer file = Ok buffer
      /\ PDFProcessingService.extractTextFromPDF buffer = Ok text
      /\ PDFProcessingService.processPDF JSON_parse file w = (Ok d, w')
      /\ d !! "full_text"
         = Some (JSString (PDFProcessingService.convertTextToMarkdown text))
      /\ d !! "year" = Some (JSNumber (full_year w))
      /\ (exists a, d !! "authors" = Some a /\ JSObject.truthy a = true)
      /\ (exists t, d !! "title" = Some t
                    /\ (JSObject.truthy t = true
                        \/ t = JSString (JS.strip_pdf (File.name file))))).
Proof.
  rewrite service_processPDF_steps. unfold extracted_text.
  destruct (File.arrayBuffer file) as [buffer|e]; [|left; by exists e].
  right.
  destruct (PDFProcessingService.extractTextFromPDF buffer) as [text|e] eqn:E.
  - right.
    destruct (analyzeWithAI_returns JSON_parse
                (PDFProcessingService.convertTextToMarkdown text) w) as (x & Ex & _).
    pose proof (analyzeWithAI_frame JSON_parse
                  (PDFProcessingService.convertTextToMarkdown text) w) as (_ & _ & Fy).
    destruct (PDFProcessingService.analyzeWithAI JSON_parse _ w) as [[x'|e'] w1];
      simpl in *; [|done].
    eexists buffer, text, _, w1. split; [done|]. split; [done|]. split; [reflexivity|].
    unfold PDFProcessingService.finalize. rewrite Fy.
    split; [by rewrite lookup_insert_eq|].
    split; [rewrite lookup_insert_ne by done; by rewrite lookup_insert_eq|].
    split.
    + eexists. split; [rewrite !lookup_insert_ne by done; by rewrite lookup_insert_eq|].
      unfold JSObject.or_else.
      by destruct (JSObject.truthy (JSObject.get x' "authors")) eqn:T.
    + eexists. split; [rewrite !lookup_insert_ne by done; by rewrite lookup_insert_eq|].
      unfold JSObject.or_else.
      destruct (JSObject.truthy (JSObject.get x' "title")) eqn:T; auto.
  - left. destruct (extractTextFromPDF_throws _ _ E) as (cause & ->). by exists buffer, cause.
Qed.

End PipelineRequests.

(** ** Text functions *)

Lemma chars_inj (a b : string) :
  String.list_ascii_of_string a = String.list_ascii_of_string b -> a = b.
Proof.
  intros E. rewrite <- (String.string_of_list_ascii_of_string a),
    <- (String.string_of_list_ascii_of_string b). by rewrite E.
Qed.

Lemma chars_rev_app (a b : string) :
  String.list_ascii_of_string (String.rev_app a b)
  = reverse (String.list_ascii_of_string a) ++ String.list_ascii_of_string b.
Proof.
  revert b. induction a as [|c a IH]; intros b; simpl; [done|].
  rewrite IH, reverse_cons, <- app_assoc. done.
Qed.

Lemma chars_rev (a : string) :
  String.list_ascii_of_string (String.rev a) = reverse (String.list_ascii_of_string a).
Proof. unfold String.rev. by rewrite chars_rev_app, app_nil_r. Qed.

Lemma string_rev_involutive (a : string) : String.rev (String.rev a) = a.
Proof. apply chars_inj. by rewrite !chars_rev, reverse_involutive. Qed.

Lemma string_rev_empty (s : string) : String.rev s = "" <-> s = "".
Proof.
  split; [|by intros ->]. intros E. apply chars_inj.
  apply (f_equal String.list_ascii_of_string) in E. rewrite chars_rev in E. simpl in *.
  by apply (inj reverse).
Qed.

Lemma trimStart_split (s : string) :
  exists pre, String.list_ascii_of_string s
              = pre ++ String.list_ascii_of_string (JS.trimStart s)
    /\ Forall (fun c => JS.is_white c = true) pre.
Proof.
  induction s as [|c s (pre & E & F)]; [by exists []|]. simpl.
  destruct (JS.is_white c) eqn:Sp.
  - exists (c :: pre). rewrite E at 1. split; [done|]. by constructor.
  - by exists [].
Qed.

Lemma trimStart_head (s : string) (c : ascii) (r : string) :
  JS.trimStart s = String c r -> JS.is_white c = false.
Proof.
  induction s as [|c' s IH]; [done|]. simpl.
  destruct (JS.is_white c') eqn:Sp; [done|]. by intros [= <- <-].
Qed.

Lemma trimStart_fix (c : ascii) (r : string) :
  JS.is_white c = false -> JS.trimStart (String c r) = String c r.
Proof. intros Sp. simpl. by rewrite Sp. Qed.

Lemma trimStart_idem (s : string) : JS.trimStart (JS.trimStart s) = JS.trimStart s.
Proof.
  destruct (JS.trimStart s) as [|c r] eqn:E; [done|].
  apply trimStart_fix. by eapply trimStart_head.
Qed.

Lemma trimStart_forall (P : ascii -> Prop) (s : string) :
  Forall P (String.list_ascii_of_string s) ->
  Forall P (String.list_ascii_of_string (JS.trimStart s)).
Proof.
  destruct (trimStart_split s) as (pre & -> & _). by intros [_ ?]%Forall_app.
Qed.

Lemma trim_forall (P : ascii -> Prop) (s : string) :
  Forall P (String.list_ascii_of_string s) ->
  Forall P (String.list_ascii_of_string (JS.trim s)).
Proof.
  intros H. unfold JS.trim. rewrite chars_rev. apply Forall_reverse, trimStart_forall.
  rewrite chars_rev. by apply Forall_reverse, trimStart_forall.
Qed.

(** The text [trim] returns does not start with white space. *)
Lemma trim_trimStart (s : string) : JS.trimStart (JS.trim s) = JS.trim s.
Proof.
  unfold JS.trim. set (a := JS.trimStart s). set (b := JS.trimStart (String.rev a)).
  destruct (trimStart_split (String.rev a)) as (pre & E & F). fold b in E.
  rewrite chars_rev in E.
  assert (Ea : String.list_ascii_of_string a
               = String.list_ascii_of_string (String.rev b) ++ reverse pre).
  { rewrite chars_rev, <- reverse_app, <- E. by rewrite reverse_involutive. }
  destruct (String.rev b) as [|x xs] eqn:Rb; [done|].
  apply trimStart_fix. simpl in Ea.
  destruct a as [|y ys] eqn:A; [done|]. simpl in Ea. injection Ea as -> _.
  by eapply (trimStart_head s).
Qed.

Lemma trim_idem (s : string) : JS.trim (JS.trim s) = JS.trim s.
Proof.
  unfold JS.trim at 1. rewrite trim_trimStart. unfold JS.trim.
  by rewrite string_rev_involutive, trimStart_idem.
Qed.

Lemma trimStart_blank (s : string) :
  JS.trimStart s = ""
  <-> Forall (fun c => JS.is_white c = true) (String.list_ascii_of_string s).
Proof.
  induction s as [|c s IH]; simpl; [done|].
  destruct (JS.is_white c) eqn:Sp.
  - rewrite IH. split; [by constructor|by inversion 1].
  - split; [done|]. inversion 1; congruence.
Qed.

Lemma trim_blank (s : string) :
  JS.trim s = ""
  <-> Forall (fun c => JS.is_white c = true) (String.list_ascii_of_string s).
Proof.
  unfold JS.trim. rewrite string_rev_empty, trimStart_blank, chars_rev, Forall_reverse.
  split.
  - intros H. destruct (trimStart_split s) as (pre & -> & F). by apply Forall_app.
  - apply trimStart_forall.
Qed.

Lemma split_go_forall (P : ascii -> Prop) (cur s : string) :
  Forall P (String.list_ascii_of_string cur) -> Forall P (String.list_ascii_of_string s) ->
  Forall (fun piece => Forall P (String.list_ascii_of_string piece)) (JS.split_go cur s).
Proof.
  revert cur. induction s as [|c s IH]; intros cur Hc Hs; simpl.
  - constructor; [|done]. rewrite chars_rev. by apply Forall_reverse.
  - inversion Hs as [|? ? Pc Ps]; subst. destruct (Ascii.eqb c _).
    + constructor; [rewrite chars_rev; by apply Forall_reverse|]. by apply IH.
    + apply IH; [by constructor|done].
Qed.

(** X18: a text of white space only has no content line and gives the empty
    markdown, without a title heading. *)
Theorem convertTextToMarkdown_blank (text : string) :
  JS.trim text = "" -> PDFProcessingService.convertTextToMarkdown text = "".
Proof.
  intros B%trim_blank.
  unfold PDFProcessingService.convertTextToMarkdown, PDFProcessingService.content_lines.
  assert (F : Forall (fun piece => Forall (fun c => JS.is_white c = true)
                                     (String.list_ascii_of_string piece))
                (JS.split_lines text)) by by apply split_go_forall.
  assert (E : filter (fun l => JS.truthy l = true) (JS.trim <$> JS.split_lines text) = []).
  { induction F as [|p ps Hp _ IH]; [done|]. rewrite fmap_cons, filter_cons.
    apply trim_blank in Hp. rewrite Hp. simpl. exact IH. }
  by rewrite E.
Qed.

(** Blanks, a line feed, a no-break space and a tabulation. *)
Lemma convertTextToMarkdown_blank_witness :
  PDFProcessingService.convertTextToMarkdown
    ("  " +:+ JS.nl +:+ String "160"%char (String "009"%char "") +:+ JS.nl) = "".
Proof.
  apply (convertTextToMarkdown_blank
           ("  " +:+ JS.nl +:+ String "160"%char (String "009"%char "") +:+ JS.nl)).
  reflexivity.
Defined.

(** [trim] takes the no-break space for white space, as the built-in does. *)
Example trim_no_break_space :
  JS.trim (String "160"%char (" x" +:+ String "160"%char "")) = "x".
Proof. reflexivity. Qed.

Lemma join_empty_cons (x : string) (xs : list string) :
  JS.join "" (x :: xs) = x +:+ JS.join "" xs.
Proof. destruct xs; simpl; [by rewrite append_nil_r|done]. Qed.

Lemma emit_plain (i : nat) (line : string) :
  mentions_section line = false ->
  PDFProcessingService.emit i line
  = if (i =? 0)%nat then "# " +:+ line +:+ JS.nl +:+ JS.nl else line +:+ JS.nl.
Proof.
  unfold mentions_section, PDFProcessingService.emit. cbv zeta.
  intros H. repeat (apply orb_false_elim in H as [H ?]).
  by repeat match goal with E : _ = false |- _ => rewrite E; clear E end.
Qed.

Lemma markdown_loop_plain (lines : list string) (i : nat) (markdown : string) :
  Forall (fun l => mentions_section l = false) lines ->
  PDFProcessingService.markdown_loop (S i) lines markdown
  = markdown +:+ JS.join "" ((fun l => l +:+ JS.nl) <$> lines).
Proof.
  intros H. revert i markdown.
  induction H as [|l lines Hl _ IH]; intros i markdown;
    simpl PDFProcessingService.markdown_loop.
  - by rewrite append_nil_r.
  - rewrite IH, (emit_plain _ _ Hl), fmap_cons, join_empty_cons. simpl Nat.eqb.
    by rewrite !append_assoc.
Qed.

(** X19: when no content line mentions a section keyword, the markdown is the
    first content line as the level-one heading followed by an empty line,
    then every other content line, trimmed, in its order, each followed by a
    line feed; blank lines are dropped. *)
Theorem convertTextToMarkdown_plain (text first : string) (rest : list string) :
  PDFProcessingService.content_lines text = first :: rest ->
  Forall (fun l => mentions_section l = false) (first :: rest) ->
  PDFProcessingService.convertTextToMarkdown text
  = "# " +:+ first +:+ JS.nl +:+ JS.nl +:+ JS.join "" ((fun l => l +:+ JS.nl) <$> rest).
Proof.
  intros E H. inversion H as [|? ? Hf Hr]; subst.
  unfold PDFProcessingService.convertTextToMarkdown. rewrite E.
  simpl PDFProcessingService.markdown_loop.
  rewrite (markdown_loop_plain _ _ _ Hr), (emit_plain _ _ Hf). simpl Nat.eqb.
  by rewrite !append_assoc.
Qed.

Lemma convertTextToMarkdown_plain_witness :
  PDFProcessingService.convertTextToMarkdown
    ("  Graph Theory " +:+ JS.nl +:+ JS.nl +:+ "by A. Author" +:+ JS.nl +:+ "Trees.")
  = "# Graph Theory" +:+ JS.nl +:+ JS.nl +:+ "by A. Author" +:+ JS.nl +:+ "Trees." +:+ JS.nl.
Proof.
  apply (convertTextToMarkdown_plain
           ("  Graph Theory " +:+ JS.nl +:+ JS.nl +:+ "by A. Author" +:+ JS.nl +:+ "Trees.")
           "Graph Theory" ["by A. Author"; "Trees."]).
  - reflexivity.
  - repeat constructor.
Defined.

Lemma strip_controls_clean (s : string) :
  Forall (fun c => PDFUploadView.is_control c = false)
    (String.list_ascii_of_string (PDFUploadView.strip_controls s)).
Proof.
  induction s as [|c s IH]; simpl; [done|].
  destruct (PDFUploadView.is_control c) eqn:C; [done|]. by constructor.
Qed.

(** X20: [sanitizeText] gives [null] for [null] and [undefined] only; the
    text it gives otherwise is trimmed, and it holds none of the control
    characters the function strips, given that the normalisation brings in
    none. *)
Theorem sanitizeText_clean (NFKD : string -> string) (text : JSValue) :
  match PDFUploadView.sanitizeText NFKD text with
  | Some s =>
      JS.trim s = s
      /\ ((forall t,
             Forall (fun c => PDFUploadView.is_control c = false)
               (String.list_ascii_of_string t) ->
             Forall (fun c => PDFUploadView.is_control c = false)
               (String.list_ascii_of_string (NFKD t))) ->
          Forall (fun c => PDFUploadView.is_control c = false)
            (String.list_ascii_of_string s))
  | None => text = JSNull \/ text = JSUndefined
  end.
Proof.
  unfold PDFUploadView.sanitizeText.
  destruct text; auto;
    (split; [apply trim_idem|intros H; apply trim_forall, H, strip_controls_clean]).
Qed.

(** ** The batch loop, one file at a time *)

Section UploadWrites.

Variable JSON_parse : string -> option (gmap string JSValue).
Variable NFKD : string -> string.

Lemma view_processPDF_of_throw (f : UploadedFile.t) (i : nat) (buffer : PdfDocument)
    (e : string) (w : World) :
  File.arrayBuffer (UploadedFile.file f) = Ok buffer ->
  PDFProcessingService.extractTextFromPDF buffer = Throw e ->
  PDFUploadView.processPDF JSON_parse f i w
  = (Ok {| UploadedFile.file := UploadedFile.file f;
           UploadedFile.id := UploadedFile.id f;
           UploadedFile.uploading := UploadedFile.uploading f;
           UploadedFile.processingStatus := Some ProcessingStatus.error;
           UploadedFile.processingProgress := Some 0%Z;
           UploadedFile.extractedData := UploadedFile.extractedData f;
           UploadedFile.error := Some e;
           UploadedFile.success := UploadedFile.success f |}, w).
Proof.
  intros B E. destruct (extractTextFromPDF_throws _ _ E) as (cause & ->).
  unfold PDFUploadView.processPDF, try_catch, bind.
  rewrite service_processPDF_steps. unfold extracted_text. rewrite B, E. done.
Qed.

(** X21: a file whose text cannot be extracted is reported with status
    [error] and the extraction's message, and, when no write is refused, it
    is recorded all the same: a row with its file name, the current year and
    every extracted field NULL is added to [pdf_uploads], and the row is
    linked to the batch. *)
Theorem upload_loop_records_unreadable_file (batchId : string) (f : UploadedFile.t)
    (buffer : PdfDocument) (e : string) (w : World) :
  no_refusal w ->
  File.arrayBuffer (UploadedFile.file f) = Ok buffer ->
  PDFProcessingService.extractTextFromPDF buffer = Throw e ->
  UploadedFile.extractedData f = None ->
  exists item w',
    PDFUploadView.upload_loop JSON_parse NFKD batchId [f] w = (Ok [item], w')
    /\ UploadedFile.processingStatus item = Some ProcessingStatus.error
    /\ UploadedFile.error item = Some e
    /\ pdf_uploads w'
       = pdf_uploads w ++
         [{| pdf_id := length (pdf_uploads w);
             filename := File.name (UploadedFile.file f);
             title := None; authors := None; year := JSNumber (full_year w);
             doi := None; background := None; research_question := None;
             major_findings := None; suggestions := None; full_text := None |}]
    /\ batch_pdfs w' = batch_pdfs w ++ [(batchId, length (pdf_uploads w))].
Proof.
  intros Q B E N.
  set (fileName := JS.of_Z (now_ms w) +:+ "-" +:+ File.name (UploadedFile.file f)).
  destruct (awaited_write_quiet "Failed to upload file: "
              (fun w => with_pdfs_bucket (pdfs_bucket w ++ [fileName]) w) w Q)
    as (w0 & E1 & (Hu0 & Hb0 & Hy0) & Q0).
  set (w1 := with_pdfs_bucket (pdfs_bucket w0 ++ [fileName]) w0) in *.
  set (current := PDFUploadView.set_pending (PDFUploadView.set_uploading true f)).
  pose proof (view_processPDF_of_throw current 0 buffer e w1 B E) as E2.
  match type of E2 with _ = (Ok ?p, _) => set (processed := p) in * end.
  set (pdfId := length (pdf_uploads w0)).
  destruct (awaited_write_quiet "Failed to create PDF record: "
              (fun w => with_pdf_uploads
                          (pdf_uploads w ++
                             [PDFUploadView.pdf_record NFKD pdfId f processed (full_year w)]) w)
              w1 Q0) as (w1' & E3 & (Hu1 & Hb1 & Hy1) & Q1).
  match type of E3 with _ = (Ok tt, ?x) => set (w2 := x) in * end.
  destruct (awaited_write_quiet "Failed to link PDF to batch: "
              (fun w => with_batch_pdfs (batch_pdfs w ++ [(batchId, pdfId)]) w)
              w2 Q1) as (w2' & E4 & (Hu2 & Hb2 & Hy2) & Q2).
  match type of E4 with _ = (Ok tt, ?x) => set (w3 := x) in * end.
  exists processed, w3. split; [|split; [done|split; [done|split]]].
  - unfold PDFUploadView.upload_loop. simpl PDFUploadView.for_loop. unfold bind at 1.
    run_iteration. fold fileName. rewrite E1. simpl. fold current. rewrite E2. simpl.
    fold pdfId. rewrite E3. simpl. rewrite E4. simpl. done.
  - subst w3 w2. simpl in *. rewrite Hu2. simpl. rewrite Hu1, Hy1. subst pdfId w1.
    simpl. rewrite Hu0, Hy0. unfold PDFUploadView.pdf_record, PDFUploadView.field.
    simpl. rewrite N. done.
  - subst w3 w2. simpl in *. rewrite Hb2. simpl. rewrite Hb1. subst pdfId w1. simpl.
    by rewrite Hb0, Hu0.
Qed.

(** X22: whatever is refused, one file makes the loop add at most one row to
    [pdf_uploads] and at most one link to [batch_pdfs], after the rows and
    links that were there; a link is added only with its row; a row without
    its link, or nothing written at all, goes with a failed item. *)
Theorem upload_loop_single_writes (batchId : string) (f : UploadedFile.t) (w : World) :
  exists item w' rows links,
    PDFUploadView.upload_loop JSON_parse NFKD batchId [f] w = (Ok [item], w')
    /\ pdf_uploads w' = pdf_uploads w ++ rows
    /\ batch_pdfs w' = batch_pdfs w ++ links
    /\ ((rows = [] /\ links = [] /\ failed item)
        \/ (exists row, rows = [row] /\ pdf_id row = length (pdf_uploads w)
              /\ ((links = [] /\ failed item)
                  \/ links = [(batchId, length (pdf_uploads w))]))).
Proof.
  set (f1 := PDFUploadView.set_uploading true f).
  set (fileName := JS.of_Z (now_ms w) +:+ "-" +:+ File.name (UploadedFile.file f)).
  unfold PDFUploadView.upload_loop. simpl PDFUploadView.for_loop. unfold bind at 1.
  destruct (PDFUploadView.awaited_write "Failed to upload file: "
              (fun w => with_pdfs_bucket (pdfs_bucket w ++ [fileName]) w) w)
    as [[[]|e1] w1] eqn:E1.
  2:{ apply awaited_write_throw in E1 as F1. destruct F1 as (H0&H1&?).
      exists (PDFUploadView.set_failed e1 f1), w1, [], []. rewrite !app_nil_r.
      split; [|split; [done|split; [done|]]].
      - run_iteration. fold fileName. rewrite E1. done.
      - left. split; [done|]. split; [done|]. apply set_failed_failed. }
  apply awaited_write_ok in E1 as F1. destruct F1 as (w0 & Hw1 & (Hu0 & Hb0 & Hy0)).
  destruct (view_processPDF_returns JSON_parse (PDFUploadView.set_pending f1) w1)
    as (processed & w2 & E2 & (Hu2 & Hb2 & Hy2) & Hp).
  assert (Hid : length (pdf_uploads w2) = length (pdf_uploads w)).
  { rewrite Hu2. subst w1. simpl. by rewrite Hu0. }
  set (pdfId := length (pdf_uploads w2)) in *.
  destruct (PDFUploadView.awaited_write "Failed to create PDF record: "
              (fun w => with_pdf_uploads
                          (pdf_uploads w ++
                             [PDFUploadView.pdf_record NFKD pdfId f processed (full_year w)]) w) w2)
    as [[[]|e3] w3] eqn:E3.
  2:{ apply awaited_write_throw in E3 as F3. destruct F3 as (Hu3 & Hb3 & Hy3).
      exists (PDFUploadView.set_failed e3 processed), w3, [], []. rewrite !app_nil_r.
      split; [|split; [|split]].
      - run_iteration. fold fileName. rewrite E1. simpl. rewrite E2. simpl.
        fold pdfId. rewrite E3. done.
      - rewrite Hu3, Hu2. subst w1. simpl. done.
      - rewrite Hb3, Hb2. subst w1. simpl. done.
      - left. split; [done|]. split; [done|]. apply set_failed_failed. }
  apply awaited_write_ok in E3 as F3. destruct F3 as (w2' & Hw3 & (Hu3 & Hb3 & Hy3)).
  set (row := PDFUploadView.pdf_record NFKD pdfId f processed (full_year w2')) in *.
  assert (Hrows : pdf_uploads w3 = pdf_uploads w ++ [row]).
  { subst w3. simpl. rewrite Hu3, Hu2. subst w1. simpl. by rewrite Hu0. }
  assert (Hlinks : batch_pdfs w3 = batch_pdfs w).
  { subst w3. simpl. rewrite Hb3, Hb2. subst w1. simpl. done. }
  destruct (PDFUploadView.awaited_write "Failed to link PDF to batch: "
              (fun w => with_batch_pdfs (batch_pdfs w ++ [(batchId, pdfId)]) w) w3)
    as [[[]|e4] w4] eqn:E4.
  2:{ apply awaited_write_throw in E4 as F4. destruct F4 as (Hu4 & Hb4 & Hy4).
      exists (PDFUploadView.set_failed e4 processed), w4, [row], [].
      rewrite !app_nil_r.
      split; [|split; [|split]].
      - run_iteration. fold fileName. rewrite E1. simpl. rewrite E2. simpl.
        fold pdfId. rewrite E3. simpl. rewrite E4. done.
      - by rewrite Hu4.
      - by rewrite Hb4.
      - right. exists row. split; [done|]. split; [done|]. left.
        split; [done|]. apply set_failed_failed. }
  apply awaited_write_ok in E4 as F4. destruct F4 as (w3' & Hw4 & (Hu4 & Hb4 & Hy4)).
  exists processed, w4, [row], [(batchId, pdfId)].
  split; [|split; [|split]].
  - run_iteration. fold fileName. rewrite E1. simpl. rewrite E2. simpl.
    fold pdfId. rewrite E3. simpl. rewrite E4. done.
  - subst w4. simpl. by rewrite Hu4.
  - subst w4. simpl. by rewrite Hb4, Hlinks.
  - right. exists row. split; [done|]. split; [done|]. right. by rewrite <- Hid.
Qed.

End UploadWrites.

Lemma upload_loop_records_unreadable_file_witness :
  exists item w',
    PDFUploadView.upload_loop JSON.parse_flat Examples.NFKD "batch-1"
      [Examples.dropped "f2" (Examples.empty_file "two.pdf")] Examples.world0
    = (Ok [item], w')
    /\ UploadedFile.error item
       = Some "Could not extract text from PDF: No text content found in PDF"
    /\ (fun r => (filename r, title r, full_text r, year r)) <$> pdf_uploads w'
       = [("two.pdf", None, None, JSNumber 2025)]
    /\ batch_pdfs w' = [("batch-1", 0)].
Proof.
  destruct (upload_loop_records_unreadable_file JSON.parse_flat Examples.NFKD "batch-1"
              (Examples.dropped "f2" (Examples.empty_file "two.pdf")) (Pages [])
              "Could not extract text from PDF: No text content found in PDF"
              Examples.world0)
    as (item & w' & E & _ & He & Hu & Hb).
  - apply Forall_nil_2.
  - reflexivity.
  - reflexivity.
  - reflexivity.
  - exists item, w'. split; [exact E|]. split; [exact He|].
    split; [by rewrite Hu|exact Hb].
Defined.

(** ** The Firecrawl API key, written *)

Lemma getApiKey_cached (k : string) (w : World) :
  cachedApiKey w = Some k -> k <> "" -> FirecrawlService.getApiKey w = (Ok k, w).
Proof.
  intros C N. unfold FirecrawlService.getApiKey. by rewrite C, (nonempty_truthy _ N).
Qed.

Lemma saveApiKey_quiet (apiKey : string) (w : World) :
  no_refusal w -> apiKey <> "" ->
  exists w1, FirecrawlService.saveApiKey apiKey w = (Ok tt, w1)
    /\ no_refusal w1
    /\ cachedApiKey w1 = Some apiKey
    /\ firecrawl_api_keys w1 = saved_rows apiKey w.
Proof.
  intros Q N.
  destruct (db_call_quiet w Q) as (wa & Ea & Qa & _ & Ka & _ & _ & Ma & _).
  destruct (db_call_quiet wa Qa) as (wb & Eb & Qb & _ & Kb & _ & _ & Mb & _).
  eexists. unfold FirecrawlService.saveApiKey, try_catch, bind. rewrite Ea. simpl.
  rewrite Eb. simpl.
  erewrite getApiKey_cached; [|reflexivity|done]. simpl.
  split; [reflexivity|]. split; [done|]. split; [done|]. simpl.
  unfold saved_rows. rewrite Kb, Ka, Mb, Ma.
  by destruct (firecrawl_api_keys w).
Qed.

Lemma getApiKey_fresh_session (w : World) (data : ApiKeyRow) :
  no_refusal w -> FirecrawlService.latest (firecrawl_api_keys w) = Some data ->
  key_value data <> "" ->
  (FirecrawlService.getApiKey (with_cachedApiKey None w)).1 = Ok (key_value data).
Proof.
  intros Q L N.
  assert (Q' : no_refusal (with_cachedApiKey None w)) by done.
  destruct (db_call_quiet _ Q') as (wa & Ea & _ & _ & Ka & _).
  unfold FirecrawlService.getApiKey. simpl.
  unfold bind, FirecrawlService.lookup, try_catch, bind. rewrite Ea. simpl.
  rewrite Ka. simpl. rewrite L, (nonempty_truthy _ N). done.
Qed.

(** X23: the key round trip. When no write is refused, a non-empty key saved
    is the key [getApiKey] returns, from the cache and without a lookup, and
    [hasApiKey] answers [true]; and when the table had at most one row, a
    later session, which starts without a cached key, reads the saved key
    back from the store. *)
Theorem saveApiKey_round_trip (apiKey : string) (w : World) :
  no_refusal w -> apiKey <> "" ->
  exists w1 w2,
    FirecrawlService.saveApiKey apiKey w = (Ok tt, w1)
    /\ FirecrawlService.getApiKey w1 = (Ok apiKey, w1)
    /\ FirecrawlService.hasApiKey w1 = (Ok true, w2)
    /\ (length (firecrawl_api_keys w) <= 1 ->
        (FirecrawlService.getApiKey (with_cachedApiKey None w1)).1 = Ok apiKey).
Proof.
  intros Q N. destruct (saveApiKey_quiet apiKey w Q N) as (w1 & E1 & Q1 & C1 & R1).
  destruct (db_call_quiet w1 Q1) as (w2 & E2 & _ & _ & K2 & _).
  exists w1, w2. split; [done|]. split; [by apply getApiKey_cached|]. split.
  - unfold FirecrawlService.hasApiKey, try_catch, bind. rewrite E2. simpl.
    rewrite K2, R1. unfold saved_rows. by destruct (firecrawl_api_keys w).
  - intros H.
    apply (getApiKey_fresh_session w1
             {| key_value := apiKey;
                key_created_at := match firecrawl_api_keys w with
                                  | r :: _ => key_created_at r
                                  | [] => now_ms w
                                  end |}); [done| |done].
    rewrite R1. unfold saved_rows.
    destruct (firecrawl_api_keys w) as [|r [|r' rest]]; [done|done|simpl in H; lia].
Qed.

Lemma saveApiKey_round_trip_witness :
  exists w1 w2,
    FirecrawlService.saveApiKey "fc-user" Examples.world0 = (Ok tt, w1)
    /\ FirecrawlService.getApiKey w1 = (Ok "fc-user", w1)
    /\ FirecrawlService.hasApiKey w1 = (Ok true, w2)
    /\ (FirecrawlService.getApiKey (with_cachedApiKey None w1)).1 = Ok "fc-user".
Proof.
  destruct (saveApiKey_round_trip "fc-user" Examples.world0)
    as (w1 & w2 & E & G & H & F); [apply Forall_nil_2|discriminate|].
  exists w1, w2. split; [exact E|]. split; [exact G|]. split; [exact H|].
  apply F. apply le_0_n.
Defined.

Lemma latest_from (b b' n : ApiKeyRow) (rest : list ApiKeyRow) :
  key_created_at b' = key_created_at b ->
  FirecrawlService.latest (b :: rest) = Some n ->
  (key_created_at b < key_created_at n)%Z ->
  FirecrawlService.latest (b' :: rest) = Some n.
Proof.
  unfold FirecrawlService.latest. simpl. intros Hc.
  revert b b' Hc. induction rest as [|r rest IH]; intros b b' Hc; simpl.
  - intros [= ->]. lia.
  - rewrite Hc. destruct (key_created_at b <? key_created_at r)%Z; [done|].
    by apply IH.
Qed.

(** X24: [saveApiKey] updates the first row its unordered lookup gives (in the
    model, the first row of the table), while [getApiKey] reads the newest
    row. When that first row is older than the newest one, the saved key
    lives in the cache only: a later session gets the key of the newest row,
    not the key saved. *)
Theorem saveApiKey_shadowed_by_newer_row (apiKey : string) (w : World)
    (first newest : ApiKeyRow) (rest : list ApiKeyRow) :
  no_refusal w -> apiKey <> "" ->
  firecrawl_api_keys w = first :: rest ->
  FirecrawlService.latest (first :: rest) = Some newest ->
  (key_created_at first < key_created_at newest)%Z ->
  key_value newest <> "" ->
  exists w1,
    FirecrawlService.saveApiKey apiKey w = (Ok tt, w1)
    /\ FirecrawlService.getApiKey w1 = (Ok apiKey, w1)
    /\ (FirecrawlService.getApiKey (with_cachedApiKey None w1)).1
       = Ok (key_value newest).
Proof.
  intros Q N R L Hlt Nn.
  destruct (saveApiKey_quiet apiKey w Q N) as (w1 & E1 & Q1 & C1 & R1).
  exists w1. split; [done|]. split; [by apply getApiKey_cached|].
  apply getApiKey_fresh_session; [done| |done].
  rewrite R1. unfold saved_rows. rewrite R. simpl.
  by eapply latest_from; [|exact L|].
Qed.

Lemma saveApiKey_shadowed_by_newer_row_witness :
  exists w1,
    FirecrawlService.saveApiKey "fc-user" Examples.two_keys = (Ok tt, w1)
    /\ FirecrawlService.getApiKey w1 = (Ok "fc-user", w1)
    /\ (FirecrawlService.getApiKey (with_cachedApiKey None w1)).1 = Ok "fc-new".
Proof.
  apply (saveApiKey_shadowed_by_newer_row "fc-user" Examples.two_keys
           {| key_value := "fc-old"; key_created_at := 1 |}
           {| key_value := "fc-new"; key_created_at := 2 |}
           [{| key_value := "fc-new"; key_created_at := 2 |}]).
  - apply Forall_nil_2.
  - discriminate.
  - reflexivity.
  - reflexivity.
  - reflexivity.
  - discriminate.
Defined.

Lemma saveApiKey_refused (apiKey e : string) (q : DbOutcome)
    (rest : list DbOutcome) (w : World) :
  db_script w = q :: DbError e :: rest ->
  exists w1,
    FirecrawlService.saveApiKey apiKey w = (Ok tt, w1)
    /\ cachedApiKey w1 = cachedApiKey w
    /\ firecrawl_api_keys w1 = firecrawl_api_keys w.
Proof.
  intros S. unfold FirecrawlService.saveApiKey, try_catch, bind, db_call. rewrite S.
  destruct q as [|e'|e']; simpl; by eexists.
Qed.

(** X25: when the store answers the write of [saveApiKey] with an error, the
    call returns without throwing and neither the table nor the cache has
    changed; with no key cached and none stored, [getApiKey] still gives the
    built-in default key. *)
Theorem saveApiKey_refused_write (apiKey e : string) (q : DbOutcome)
    (rest : list DbOutcome) (w : World) :
  db_script w = q :: DbError e :: rest ->
  exists w1,
    FirecrawlService.saveApiKey apiKey w = (Ok tt, w1)
    /\ cachedApiKey w1 = cachedApiKey w
    /\ firecrawl_api_keys w1 = firecrawl_api_keys w
    /\ (cached w = None -> firecrawl_api_keys w = [] ->
        (FirecrawlService.getApiKey w1).1 = Ok FirecrawlService.DEFAULT_API_KEY).
Proof.
  intros S. destruct (saveApiKey_refused apiKey e q rest w S) as (w1 & E1 & C1 & K1).
  exists w1. split; [done|]. split; [done|]. split; [done|].
  intros C K. destruct (lookup_returns w1) as (r & w2 & El & _ & Hd).
  unfold cached in C. unfold FirecrawlService.getApiKey, bind. rewrite C1.
  assert (D : default FirecrawlService.DEFAULT_API_KEY r = FirecrawlService.DEFAULT_API_KEY).
  { apply Hd. right. intros data. by rewrite K1, K. }
  destruct (cachedApiKey w) as [c|]; [destruct (JS.truthy c); [done|]|];
    rewrite El; simpl; by rewrite D.
Qed.

Lemma saveApiKey_refused_write_witness :
  exists w1,
    FirecrawlService.saveApiKey "fc-user"
      (with_db_script [DbOk; DbError "denied"] Examples.world0) = (Ok tt, w1)
    /\ cachedApiKey w1 = None
    /\ firecrawl_api_keys w1 = []
    /\ (FirecrawlService.getApiKey w1).1 = Ok FirecrawlService.DEFAULT_API_KEY.
Proof.
  destruct (saveApiKey_refused_write "fc-user" "denied" DbOk []
              (with_db_script [DbOk; DbError "denied"] Examples.world0))
    as (w1 & E & C & K & G); [reflexivity|].
  exists w1. split; [exact E|]. split; [exact C|]. split; [exact K|].
  apply G; reflexivity.
Defined.

Lemma saveApiKey_returns (apiKey : string) (w : World) :
  (FirecrawlService.saveApiKey apiKey w).1 = Ok tt.
Proof.
  unfold FirecrawlService.saveApiKey, try_catch.
  destruct (bind _ _ w) as [[[]|e] w1]; done.
Qed.

(** X26: the key guard does nothing for a blank key; for any other key it
    reports the key as present, whatever happened to the write: also when
    the store refused it and holds no key, so that [hasApiKey] answers
    [false] right after. *)
Theorem handleSaveApiKey_reports_saved (apiKey : string) (hasApiKey : option bool)
    (w : World) :
  (JS.trim apiKey = "" ->
   ApiKeyGuard.handleSaveApiKey apiKey hasApiKey w = (Ok hasApiKey, w))
  /\ (JS.trim apiKey <> "" ->
      (ApiKeyGuard.handleSaveApiKey apiKey hasApiKey w).1 = Ok (Some true))
  /\ (JS.trim apiKey <> "" -> firecrawl_api_keys w = [] ->
      forall q e rest, db_script w = q :: DbError e :: rest ->
        exists w1,
          ApiKeyGuard.handleSaveApiKey apiKey hasApiKey w = (Ok (Some true), w1)
          /\ (FirecrawlService.hasApiKey w1).1 = Ok false).
Proof.
  unfold ApiKeyGuard.handleSaveApiKey. repeat split.
  - by intros ->.
  - intros N. rewrite (nonempty_truthy _ N). simpl. unfold try_catch, bind.
    pose proof (saveApiKey_returns apiKey w) as R.
    by destruct (FirecrawlService.saveApiKey apiKey w) as [[[]|e] w1].
  - intros N K q e rest S. rewrite (nonempty_truthy _ N). simpl.
    destruct (saveApiKey_refused apiKey e q rest w S) as (w1 & E1 & _ & K1).
    unfold try_catch, bind. rewrite E1. exists w1. split; [done|].
    unfold FirecrawlService.hasApiKey, try_catch, bind.
    assert (Kd : firecrawl_api_keys (db_call w1).2 = []).
    { unfold db_call. destruct (db_script w1); simpl; by rewrite K1, K. }
    destruct (db_call w1) as [[[|e'|e']|e'] w2]; simpl in *; rewrite ?Kd; done.
Qed.

(** ** The chat *)

(** X27: [handleSubmit] never throws. For a blank input, or while a reply is
    pending, it changes nothing; otherwise it appends the user's message and
    exactly one reply after it, which is the assistant's or an error message
    that starts with "Error: " and is not bare. *)
Theorem handleSubmit_appends (initialContext : option string)
    (papers localPapers : list PaperData.t) (input : string) (isProcessing : bool)
    (history : list Message.t) (w : World) :
  exists out w',
    AIChat.handleSubmit initialContext papers localPapers input isProcessing history w
    = (Ok out, w')
    /\ ((JS.trim input = "" \/ isProcessing = true) /\ out = history /\ w' = w
        \/ (JS.trim input <> "" /\ isProcessing = false) /\
           exists reply,
             out = history ++
                   [{| Message.role := "user"; Message.content := input;
                       Message.timestamp := now_ms w |}; reply]
             /\ Message.timestamp reply = now_ms w'
             /\ (Message.role reply = "assistant"
                 \/ Message.role reply = "error"
                    /\ exists message, Message.content reply = "Error: " +:+ message
                                       /\ message <> "")).
Proof.
  unfold AIChat.handleSubmit.
  destruct (JS.truthy (JS.trim input)) eqn:T; simpl.
  2:{ exists history, w. split; [done|]. left. split; [|done]. left.
      by destruct (JS.trim input). }
  destruct isProcessing; simpl.
  { exists history, w. split; [done|]. left. auto. }
  unfold try_catch, bind.
  destruct (AIService.generateCompletion _ _ _ _ w) as [[response|e] w1];
    eexists _, _; (split; [reflexivity|]); right;
    (split; [split; [by apply truthy_nonempty|done]|]);
    eexists; (split; [reflexivity|]); (split; [reflexivity|]).
  - by left.
  - right. split; [done|]. eexists. split; [reflexivity|].
    unfold JS.or_else. by destruct e.
Qed.

(** X28: without a default configuration, a question typed into the chat is
    answered by the error message of the no-model error, and no request goes
    out. *)
Theorem handleSubmit_no_model (initialContext : option string)
    (papers localPapers : list PaperData.t) (input : string)
    (history : list Message.t) (w : World) :
  JS.trim input <> "" -> no_default (ai_models w) ->
  exists w',
    AIChat.handleSubmit initialContext papers localPapers input false history w
    = (Ok (history ++
             [{| Message.role := "user"; Message.content := input;
                 Message.timestamp := now_ms w |};
              {| Message.role := "error";
                 Message.content := "Error: " +:+ AIService.NoModelConfigured;
                 Message.timestamp := now_ms w' |}]), w')
    /\ http_log w' = http_log w.
Proof.
  intros N D. unfold AIChat.handleSubmit. rewrite (nonempty_truthy _ N). simpl.
  unfold try_catch, bind.
  destruct (getDefaultModel_none w D) as (w' & E & L & _).
  exists w'. unfold AIService.generateCompletion, try_catch, bind. rewrite E. done.
Qed.

Lemma handleSubmit_no_model_witness :
  exists w',
    AIChat.handleSubmit None [] [] "Which paper treats graphs?" false [] Examples.no_models
    = (Ok [{| Message.role := "user"; Message.content := "Which paper treats graphs?";
              Message.timestamp := now_ms Examples.no_models |};
           {| Message.role := "error";
              Message.content := "Error: " +:+ AIService.NoModelConfigured;
              Message.timestamp := now_ms w' |}], w')
    /\ http_log w' = http_log Examples.no_models.
Proof.
  apply (handleSubmit_no_model None [] [] "Which paper treats graphs?" []
           Examples.no_models).
  - discriminate.
  - intros i m H. simpl in H. rewrite lookup_empty in H. discriminate.
Defined.

Lemma handleSubmit_world (initialContext : option string)
    (papers localPapers : list PaperData.t) (input : string)
    (history : list Message.t) (w : World) :
  JS.trim input <> "" ->
  (AIChat.handleSubmit initialContext papers localPapers input false history w).2
  = (AIService.generateCompletion input None initialContext
       (papers_passed papers localPapers) w).2.
Proof.
  intros N. unfold AIChat.handleSubmit, papers_passed.
  rewrite (nonempty_truthy _ N). simpl. unfold try_catch, bind.
  destruct localPapers as [|l ls]; [destruct papers as [|p ps]|];
    by destruct (AIService.generateCompletion _ _ _ _ w) as [[response|e] w1].
Qed.

(** X29: a question typed into the chat sends at most one request, whose only
    user turn is the prompt built from the input, the initial context and the
    records passed; when the chat has loaded records of its own, they are the
    records of the prompt, not those of its caller, and the context is left
    out. *)
Theorem handleSubmit_request (initialContext : option string)
    (papers localPapers : list PaperData.t) (input : string)
    (history : list Message.t) (w : World) :
  JS.trim input <> "" ->
  let w' := (AIChat.handleSubmit initialContext papers localPapers input false
               history w).2 in
  http_log w' = http_log w
  \/ exists req,
       http_log w' = http_log w ++ [req]
       /\ messages req
          = [("user", AIService.promptContent input initialContext
                        (papers_passed papers localPapers))]
       /\ (forall p ps, localPapers = p :: ps ->
             messages req = [("user", AIService.papers_prompt (p :: ps) input)]).
Proof.
  intros N w'. subst w'. rewrite handleSubmit_world by done.
  destruct (generateCompletion_log input None initialContext
              (papers_passed papers localPapers) w) as [L|(req & L & M)]; [by left|right].
  exists req. split; [done|]. split; [done|]. by intros p ps ->.
Qed.

Lemma handleSubmit_request_witness :
  exists req,
    http_log (AIChat.handleSubmit (Some "a context") [Examples.set_paper]
                [Examples.graph_paper] "Which paper treats graphs?" false []
                (with_http [Examples.answer "The first."] [] Examples.world0)).2
    = [req]
    /\ messages req
       = [("user", AIService.papers_prompt [Examples.graph_paper]
                     "Which paper treats graphs?")].
Proof.
  destruct (handleSubmit_request (Some "a context") [Examples.set_paper]
              [Examples.graph_paper] "Which paper treats graphs?" []
              (with_http [Examples.answer "The first."] [] Examples.world0))
    as [L|(req & L & _ & M)]; [discriminate|vm_compute in L; discriminate|].
  exists req. split; [exact L|exact (M Examples.graph_paper [] eq_refl)].
Defined.

(** ** The model check page *)

Lemma clear_others_lookup (id now : string) (t : gmap string AIModel) (m : AIModel) :
  t !! id = Some m -> Supabase.update_clear_others id now t !! id = Some m.
Proof. intros L. unfold Supabase.update_clear_others. by rewrite L, lookup_insert_eq. Qed.

Lemma CheckModels_setAsDefault_quiet (id : string) (m : AIModel) (w : World) :
  no_refusal w -> ai_models w !! id = Some m ->
  exists w1,
    CheckModels.setAsDefault id w = (Ok tt, w1)
    /\ ai_models w1
       = <[id := Supabase.set_default true (now_iso w) m]>
           (Supabase.set_default false (now_iso w) <$> ai_models w).
Proof.
  intros Q L.
  destruct (db_call_quiet w Q) as (wa & Ea & Qa & Aa & _ & _ & Na & _).
  set (wb := with_ai_models (Supabase.update_clear_others id (now_iso wa) (ai_models wa)) wa).
  destruct (db_call_quiet wb Qa) as (wc & Ec & Qc & Ac & _ & _ & Nc & _).
  set (wd := with_ai_models (Supabase.update_set_default id (now_iso wc) (ai_models wc)) wc).
  destruct (db_call_quiet wd Qc) as (we & Ee & Qe & Ae & _).
  exists we. unfold CheckModels.setAsDefault, try_catch, bind. rewrite Ea. simpl.
  fold wb. rewrite Ec. simpl. fold wd. rewrite Ee. split; [done|].
  rewrite Ae. subst wd. simpl. rewrite Ac, Nc. subst wb. simpl. rewrite Aa, Na.
  unfold Supabase.update_set_default. rewrite (clear_others_lookup _ _ _ _ L).
  f_equal. unfold Supabase.update_clear_others. rewrite L.
  apply map_eq. intros j. rewrite !lookup_fmap.
  destruct (decide (j = id)) as [->|Nj].
  - by rewrite lookup_insert_eq, L.
  - rewrite lookup_insert_ne, lookup_fmap by done. by destruct (ai_models w !! j).
Qed.

(** X30: the page's own [setAsDefault], which clears the other rows and does
    not read the answer to that write, leaves the table that the service's
    [setAsDefault] leaves, when no write is refused and the row exists: the
    row is the only default. *)
Theorem CheckModels_setAsDefault_agrees (id : string) (m : AIModel) (w : World) :
  no_refusal w -> ai_models w !! id = Some m ->
  ai_models (CheckModels.setAsDefault id w).2
  = ai_models (AIService.setAsDefault id w).2
  /\ sole_default id (ai_models (CheckModels.setAsDefault id w).2).
Proof.
  intros Q L.
  destruct (CheckModels_setAsDefault_quiet id m w Q L) as (w1 & E1 & A1).
  destruct (setAsDefault_quiet id m w Q L) as (w2 & E2 & _ & A2).
  rewrite E1, E2. simpl. rewrite A1, A2. split; [done|].
  by apply insert_default_sole.
Qed.

Lemma CheckModels_setAsDefault_agrees_witness :
  ai_models (CheckModels.setAsDefault "m2" Examples.three_models).2
  = ai_models (AIService.setAsDefault "m2" Examples.three_models).2
  /\ sole_default "m2" (ai_models (CheckModels.setAsDefault "m2" Examples.three_models).2).
Proof.
  apply (CheckModels_setAsDefault_agrees "m2" Examples.openrouter_model
           Examples.three_models).
  - apply Forall_nil_2.
  - reflexivity.
Defined.
